(** * MTN customer churn analysis: the aggregation pipeline

    A shallow embedding of [MTNChurnAnalysis] (mtn_churn_model.py): the
    data frame the analyses read, the seven analyses, the driver that runs
    them all, and the properties the written specification states about
    them.

    Conventions of the embedding.
    - A float is the rational it denotes.  A cell of a numeric column is
      an [option Q], [None] standing for NaN; a computed scalar that can be
      the outcome of a division or of a sum of floats is an [fval], which
      adds the two infinities and NaN.
    - The churn rates, the percentages and the revenue sums are computed
      as the code computes them, in binary64: every division, product and
      sum is rounded to the nearest float ([f64]), and rounding to 2
      decimals is numpy's.  The sums of the churn flags are sums of whole
      numbers and are exact.  The averages of price and satisfaction and
      the revenue total of a group are kept as exact rationals; of them
      the properties use only that an average lies between the least and
      the greatest cell.
    - A data frame is a row count and a finite map from column names to
      typed columns; [df[name]] on an absent column raises [KeyError].
    - Every public method of the class catches what its body raises and
      prints a line; the printed lines are kept in [stdout]. *)

From Stdlib Require Import QArith Qround Qabs Lqa ZArith Lia.
From stdpp Require Import gmap strings list fin_maps sorting pretty.

#[global] Instance Q_eq_dec : EqDecision Q.
Proof. solve_decision. Defined.

(** ** Numbers *)

Module Num.

Local Open Scope Q_scope.

(** A float scalar: a finite value, an infinity, or NaN. *)
Inductive fval : Type :=
| Fin (q : Q)
| PInf
| NInf
| NaN.

(** Rounding to the nearest integer, ties to the even neighbour. *)
Definition round_half_even (q : Q) : Z :=
  let f := Qfloor q in
  match Qcompare (q - inject_Z f) (1 # 2) with
  | Lt => f
  | Gt => (f + 1)%Z
  | Eq => if Z.even f then f else (f + 1)%Z
  end.

(** [2 ^ e]. *)
Definition pow2 (e : Z) : Q :=
  if (0 <=? e)%Z then inject_Z (2 ^ e) else 1 # Z.to_pos (2 ^ (- e)).

(** The exponent of a positive rational: the [l] with
    [2 ^ l <= q < 2 ^ (l + 1)]. *)
Definition ilog2 (q : Q) : Z :=
  let l := (Z.log2 (Qnum q) - Z.log2 (Zpos (Qden q)))%Z in
  if Qle_bool (pow2 l) q then l else (l - 1)%Z.

(** The binary64 float nearest to a rational, ties to the even
    significand: 53 bits of significand, exponents down to the subnormal
    range, and an infinity from [2 ^ 1024] on.  The sign of a zero is not
    kept: nothing in the program reads it. *)
Definition f64 (q : Q) : fval :=
  if Qeq_bool q 0 then Fin 0 else
  let a := Qabs q in
  let e := Z.max (ilog2 a - 52) (-1074) in
  let r := inject_Z (round_half_even (a / pow2 e)) * pow2 e in
  if Qle_bool (pow2 1024) r then (if Qle_bool 0 q then PInf else NInf)
  else Fin (if Qle_bool 0 q then r else - r).

(** [x + y] on floats. *)
Definition fadd (x y : fval) : fval :=
  match x, y with
  | Fin a, Fin b => f64 (a + b)
  | NaN, _ | _, NaN => NaN
  | PInf, NInf | NInf, PInf => NaN
  | PInf, _ | _, PInf => PInf
  | NInf, _ | _, NInf => NInf
  end.

(** [a / b] on numpy scalars: a zero divisor gives an infinity of the sign
    of the dividend, and [0 / 0] gives NaN; nothing is raised. *)
Definition fdiv (a b : Q) : fval :=
  if Qeq_bool b 0 then
    if Qeq_bool a 0 then NaN
    else if Qle_bool 0 a then PInf else NInf
  else f64 (a / b).

(** The same when a side can be an infinity or NaN. *)
Definition fquot (x y : fval) : fval :=
  match x, y with
  | Fin a, Fin b => fdiv a b
  | NaN, _ | _, NaN => NaN
  | Fin _, _ => Fin 0
  | PInf, Fin b => if Qle_bool 0 b then PInf else NInf
  | NInf, Fin b => if Qle_bool 0 b then NInf else PInf
  | _, _ => NaN
  end.

(** [x * c] for a finite constant [c]. *)
Definition fmul (x : fval) (c : Q) : fval :=
  match x with
  | Fin q => f64 (q * c)
  | NaN => NaN
  | PInf => if Qeq_bool c 0 then NaN else if Qle_bool 0 c then PInf else NInf
  | NInf => if Qeq_bool c 0 then NaN else if Qle_bool 0 c then NInf else PInf
  end.

(** [round(x, 2)] on a numpy float, and [.round(2)] on a float column:
    the value is scaled by 100, rounded to the nearest integer (ties to
    even) and divided by 100, each step in binary64. *)
Definition fround2 (x : fval) : fval :=
  match fmul x 100 with
  | Fin y => fdiv (inject_Z (round_half_even y)) 100
  | other => other
  end.

(** A float stored in a cell.  NaN is the missing cell; a cell of this
    embedding holds no infinity, which a mean or a rate of finite cells
    reaches only by overflow. *)
Definition cell (x : fval) : option Q :=
  match x with
  | Fin q => Some q
  | _ => None
  end.

(** The value of a float. *)
Definition is_float (x : fval) (q : Q) : Prop :=
  match x with
  | Fin r => (r == q)%Q
  | _ => False
  end.

(** [.round(2)] and [* c] on a cell of a float column. *)
Definition cell_round2 (x : option Q) : option Q := x ≫= (fun q => cell (fround2 (Fin q))).

Definition cell_mul (x : option Q) (c : Q) : option Q := x ≫= (fun q => cell (fmul (Fin q) c)).

(** [round(q, 2)] of an exact value. *)
Definition round2 (q : Q) : Q := round_half_even (q * 100) # 100.

(** The same on a cell that is either a number or NaN. *)
Definition oround2 (x : option Q) : option Q := round2 <$> x.

(** [int(q)]: truncation towards zero. *)
Definition int (q : Q) : Z := Z.quot (Qnum q) (Zpos (Qden q)).

Fixpoint Qsum (l : list Q) : Q :=
  match l with
  | [] => 0
  | x :: l' => x + Qsum l'
  end.

(** The cells of a numeric column that are not NaN. *)
Definition dropna (l : list (option Q)) : list Q := omap id l.

(** The exact sum of a column: NaN cells are skipped, the empty sum is
    0.  It is what [sum()] returns on a column of whole numbers, such as
    the churn flags. *)
Definition nansum (l : list (option Q)) : Q := Qsum (dropna l).

(** The exact mean of a column: NaN cells are skipped; NaN when nothing
    is left. *)
Definition nanmean (l : list (option Q)) : option Q :=
  match dropna l with
  | [] => None
  | (_ :: _) as v => Some (Qsum v / inject_Z (Z.of_nat (length v)))
  end.

(** A scalar read out of a cell. *)
Definition of_cell (x : option Q) : fval :=
  match x with
  | Some q => Fin q
  | None => NaN
  end.

(** The mean of a column of churn flags, of a group or of a cohort: the
    sum of the cells that are not NaN, which on whole numbers is exact
    in binary64 whatever the order of the additions, divided in binary64
    by their number; NaN when there is none. *)
Definition flag_mean (l : list (option Q)) : option Q :=
  match dropna l with
  | [] => None
  | (_ :: _) as v => cell (fdiv (Qsum v) (inject_Z (Z.of_nat (length v))))
  end.

(** numpy's sum of a float array: pairwise summation.  Below 8 cells
    they are added from left to right; up to 128 cells eight running
    sums take every eighth cell, are added as a tree, and the cells left
    over are added from left to right; above that the array is cut near
    its middle, at a multiple of 8, and the two sums are added. *)
Fixpoint add_blocks (k : nat) (r l : list fval) : list fval * list fval :=
  match k with
  | O => (r, l)
  | S k' => add_blocks k' (zip_with fadd r (firstn 8 l)) (skipn 8 l)
  end.

Definition sum_block (l : list fval) : fval :=
  let '(r, rest) := add_blocks (Nat.div (length l) 8 - 1) (firstn 8 l) (skipn 8 l) in
  match r with
  | [r0; r1; r2; r3; r4; r5; r6; r7] =>
      foldl fadd
        (fadd (fadd (fadd r0 r1) (fadd r2 r3)) (fadd (fadd r4 r5) (fadd r6 r7))) rest
  | _ => NaN
  end.

Fixpoint pairwise (fuel : nat) (l : list fval) : fval :=
  if Nat.ltb (length l) 8 then foldl fadd (Fin 0) l
  else if Nat.leb (length l) 128 then sum_block l
  else match fuel with
       | O => NaN
       | S fuel' =>
           let n2 := (Nat.div (length l) 2 - Nat.modulo (Nat.div (length l) 2) 8)%nat in
           fadd (pairwise fuel' (firstn n2 l)) (pairwise fuel' (skipn n2 l))
       end.

(** [Series.sum()] on a float column: NaN cells count as 0, and the sum
    is numpy's. *)
Definition np_sum (l : list (option Q)) : fval :=
  pairwise (length l) ((fun x => f64 (default 0 x)) <$> l).

(** [Series.mean()] on a float column: that sum over the number of cells
    that are not NaN; NaN when there is none. *)
Definition series_mean (l : list (option Q)) : option Q :=
  match dropna l with
  | [] => None
  | (_ :: _) as v => cell (fquot (np_sum l) (Fin (inject_Z (Z.of_nat (length v)))))
  end.

End Num.
Export Num.

(** ** Exceptions *)

Inductive exn : Type :=
| KeyError (name : string)
| TypeError (what : string)
| ValueError (msg : string).

Inductive res (A : Type) : Type :=
| Ok (a : A)
| Raise (e : exn).
Arguments Ok {A} a.
Arguments Raise {A} e.

#[global] Instance res_ret : MRet res := fun _ a => Ok a.
#[global] Instance res_bind : MBind res := fun _ _ f m =>
  match m with
  | Ok a => f a
  | Raise e => Raise e
  end.

(** ** Columns and data frames *)

(** The value a row is grouped under.  A numeric key is kept in lowest
    terms, so that two keys are equal exactly when the numbers are. *)
Inductive key : Type :=
| KNum (q : Q)
| KStr (s : string)
| KBool (b : bool).

#[global] Instance key_eq_dec : EqDecision key.
Proof. solve_decision. Defined.

Definition key_rank (k : key) : nat :=
  match k with
  | KBool _ => 0
  | KNum _ => 1
  | KStr _ => 2
  end.

(** The order group keys are sorted in. *)
Definition key_leb (a b : key) : bool :=
  match a, b with
  | KNum x, KNum y => Qle_bool x y
  | KStr x, KStr y => String.leb x y
  | KBool x, KBool y => implb x y
  | _, _ => Nat.leb (key_rank a) (key_rank b)
  end.

Definition key_le (a b : key) : Prop := key_leb a b = true.

#[global] Instance key_le_dec : RelDecision key_le.
Proof. intros a b. unfold key_le. apply _. Defined.

Inductive column : Type :=
| NumCol (v : list (option Q))        (* int64 or float64; None is NaN *)
| StrCol (v : list (option string))   (* text; None is an empty cell *)
| BoolCol (v : list bool)
| CatCol (categories : list string) (v : list (option string)).

Definition column_length (c : column) : nat :=
  match c with
  | NumCol v => length v
  | StrCol v => length v
  | BoolCol v => length v
  | CatCol _ v => length v
  end.

Definition bool_num (b : bool) : Q := if b then 1%Q else 0%Q.

Definition column_keys (c : column) : list (option key) :=
  match c with
  | NumCol v => map (fun x => (fun q => KNum (Qred q)) <$> x) v
  | StrCol v => map (fun x => KStr <$> x) v
  | BoolCol v => map (fun b => Some (KBool b)) v
  | CatCol _ v => map (fun x => KStr <$> x) v
  end.

(** [Series.notna()]. *)
Definition notna (c : column) : list bool :=
  map (fun k : option key => bool_decide (is_Some k)) (column_keys c).

(** Selection by a boolean mask. *)
Fixpoint take {A : Type} (mask : list bool) (l : list A) : list A :=
  match mask, l with
  | b :: mask', x :: l' => if b then x :: take mask' l' else take mask' l'
  | _, _ => []
  end.

Definition column_take (mask : list bool) (c : column) : column :=
  match c with
  | NumCol v => NumCol (take mask v)
  | StrCol v => StrCol (take mask v)
  | BoolCol v => BoolCol (take mask v)
  | CatCol cs v => CatCol cs (take mask v)
  end.

Definition count_true (mask : list bool) : nat := length (filter (fun b => b = true) mask).

Record DataFrame : Type := {
  index : nat;                      (* number of rows *)
  columns : gmap string column
}.

(** Every column has one cell per row. *)
Definition df_wf (d : DataFrame) : Prop :=
  map_Forall (fun _ c => column_length c = index d) (columns d).

#[global] Instance df_wf_dec d : Decision (df_wf d).
Proof. unfold df_wf. apply _. Defined.

(** [df[name]]. *)
Definition getitem (d : DataFrame) (name : string) : res column :=
  match columns d !! name with
  | Some c => Ok c
  | None => Raise (KeyError name)
  end.

(** [df[name] = c]. *)
Definition setitem (d : DataFrame) (name : string) (c : column) : DataFrame :=
  {| index := index d; columns := <[name := c]> (columns d) |}.

(** [name in df.columns]. *)
Definition has_column (d : DataFrame) (name : string) : bool :=
  bool_decide (is_Some (columns d !! name)).

(** [df[mask]]. *)
Definition loc (mask : list bool) (d : DataFrame) : DataFrame :=
  {| index := count_true mask; columns := column_take mask <$> columns d |}.

(** The cells of a column an arithmetic aggregate reads; text and
    categories are not summable. *)
Definition numeric (name : string) (c : column) : res (list (option Q)) :=
  match c with
  | NumCol v => Ok v
  | BoolCol v => Ok (map (fun b => Some (bool_num b)) v)
  | _ => Raise (TypeError name)
  end.

Definition getnum (d : DataFrame) (name : string) : res (list (option Q)) :=
  c ← getitem d name; numeric name c.

(** Comparison of a column with a constant; NaN compares false. *)
Definition cmp_mask (p : Q -> bool) (v : list (option Q)) : list bool :=
  map (fun x => match x with Some q => p q | None => false end) v.

Definition Qlt_bool (a b : Q) : bool := negb (Qle_bool b a).

(** ** The analyzer object *)

(** A line printed by a method: the mark it starts with and its text. *)
Inductive message : Type :=
| Success (text : string)
| Warning (text : string)
| Failure (text : string) (e : option exn)
| Info (text : string).

(** ** Loading: [_prepare_data] *)

(** A cell as the Python object the status dictionary is indexed with. *)
Inductive pyval : Type :=
| PStr (s : string)
| PBool (b : bool)
| PNum (q : Q)
| PNan.

Definition column_cells (c : column) : list pyval :=
  match c with
  | NumCol v => map (fun x => match x with Some q => PNum q | None => PNan end) v
  | StrCol v => map (fun x => match x with Some s => PStr s | None => PNan end) v
  | BoolCol v => map PBool v
  | CatCol _ v => map (fun x => match x with Some s => PStr s | None => PNan end) v
  end.

(** Python's [==] with its hash: [True] is the integer 1 and [False] the
    integer 0; NaN equals nothing. *)
Definition py_eqb (a b : pyval) : bool :=
  match a, b with
  | PStr x, PStr y => String.eqb x y
  | PBool x, PBool y => Bool.eqb x y
  | PNum x, PNum y => Qeq_bool x y
  | PBool x, PNum y | PNum y, PBool x => Qeq_bool (bool_num x) y
  | _, _ => false
  end.

Fixpoint dict_get (d : list (pyval * Q)) (x : pyval) : option Q :=
  match d with
  | [] => None
  | (k, v) :: d' => if py_eqb k x then Some v else dict_get d' x
  end.

(** The dictionary literal of [_prepare_data]. *)
Definition churn_status_map : list (pyval * Q) :=
  [ (PStr "Churned", 1%Q); (PStr "Active", 0%Q);
    (PStr "Yes", 1%Q); (PStr "No", 0%Q);
    (PBool true, 1%Q); (PBool false, 0%Q) ].

(** [.map(d)]: a cell the dictionary has no entry for becomes NaN. *)
Definition series_map (d : list (pyval * Q)) (c : column) : list (option Q) :=
  map (dict_get d) (column_cells c).

Definition fillna (x : Q) (v : list (option Q)) : list (option Q) :=
  map (fun c => Some (default x c)) v.

(** The flag of one status cell. *)
Definition churn_flag (s : pyval) : Q := default 0%Q (dict_get churn_status_map s).

Definition numeric_columns : list string :=
  [ "Age"; "Satisfaction_Rate"; "Customer_Tenure_in_months";
    "Unit_Price"; "Number_of_Times_Purchased"; "Total_Revenue"; "Data_Usage" ].

Section Loader.

(** What the table library makes of the cells it coerces: the number a
    text cell parses to ([None] when it does not parse), and the
    column of time stamps a date column is converted to (a numeric
    column of nanosecond counts, NaT being [None]). *)
Variable parse_number : string -> option Q.
Variable to_datetime : column -> column.

(** [pd.to_numeric(c, errors='coerce')]. *)
Definition to_numeric (c : column) : column :=
  match c with
  | NumCol v => NumCol v
  | BoolCol v => BoolCol v
  | StrCol v => NumCol (map (fun x => x ≫= parse_number) v)
  | CatCol _ v => NumCol (map (fun x => x ≫= parse_number) v)
  end.

(** One turn of the loop over [numeric_columns]. *)
Definition coerce_column (d : DataFrame) (col : string) : DataFrame :=
  match columns d !! col with
  | Some c => setitem d col (to_numeric c)
  | None => d
  end.

Definition _prepare_data (d : DataFrame) : DataFrame :=
  let d1 :=
    match columns d !! "Date_of_Purchase" with
    | Some c => setitem d "Date_of_Purchase" (to_datetime c)
    | None => d
    end in
  let d2 := foldl coerce_column d1 numeric_columns in
  match columns d2 !! "Customer_Churn_Status" with
  | Some c =>
      setitem d2 "Churn_Binary" (NumCol (fillna 0%Q (series_map churn_status_map c)))
  | None => d2
  end.

End Loader.

(** ** Group-by and aggregation *)

#[global] Instance Qle_dec : RelDecision Qle.
Proof.
  intros x y. destruct (Qlt_le_dec y x) as [H | H].
  - right. apply Qlt_not_le, H.
  - left. exact H.
Defined.

(** The rows whose key is [k]. *)
Definition group_mask (keys : list (option key)) (k : key) : list bool :=
  map (fun x => bool_decide (x = Some k)) keys.

(** The keys that occur, each once, in sorted order. *)
Definition unique_keys (keys : list (option key)) : list key :=
  merge_sort key_le (remove_dups (omap id keys)).

(** The groups of [groupby(c)].  Rows with a missing key belong to no
    group.  For a categorical key the groups are the categories, in their
    order; [observed] is the library's switch that leaves out the
    categories no row falls in (its default differs between releases of
    the library, so the embedding takes it as an argument). *)
Definition group_keys (observed : bool) (c : column) : list key :=
  match c with
  | CatCol cats v =>
      let ks := KStr <$> cats in
      if observed then filter (fun k => Some k ∈ column_keys c) ks else ks
  | _ => unique_keys (column_keys c)
  end.

(** One row of a summary table.  The two averages are present only in
    the tables that aggregate them. *)
Record summary_row : Type := {
  group : key;
  Total_Customers : nat;
  Churned_Customers : Q;
  Churn_Rate : option Q;
  Total_Revenue : Q;
  Avg_Unit_Price : option (option Q);
  Avg_Satisfaction : option (option Q)
}.

(** [.agg({...})] on the group of [k]: count of the non-missing cells of
    the counted column, sum and mean of the churn flag, sum of revenue,
    and the means asked for. *)
Definition aggregate (keys : list (option key)) (counted : list bool)
    (cb rev : list (option Q)) (price sat : option (list (option Q)))
    (k : key) : summary_row :=
  let m := group_mask keys k in
  {| group := k;
     Total_Customers := count_true (take m counted);
     Churned_Customers := nansum (take m cb);
     Churn_Rate := flag_mean (take m cb);
     Total_Revenue := nansum (take m rev);
     Avg_Unit_Price := (fun v => nanmean (take m v)) <$> price;
     Avg_Satisfaction := (fun v => nanmean (take m v)) <$> sat |}.

(** [.round(2)] on a summary table: every float column is rounded, the
    integer count is left as it is. *)
Definition round_row (r : summary_row) : summary_row :=
  {| group := group r;
     Total_Customers := Total_Customers r;
     Churned_Customers := round2 (Churned_Customers r);
     Churn_Rate := cell_round2 (Churn_Rate r);
     Total_Revenue := round2 (Total_Revenue r);
     Avg_Unit_Price := oround2 <$> Avg_Unit_Price r;
     Avg_Satisfaction := oround2 <$> Avg_Satisfaction r |}.

(** [t['Churn_Rate'] = t['Churn_Rate'] * 100]. *)
Definition percent_row (r : summary_row) : summary_row :=
  {| group := group r;
     Total_Customers := Total_Customers r;
     Churned_Customers := Churned_Customers r;
     Churn_Rate := cell_mul (Churn_Rate r) 100;
     Total_Revenue := Total_Revenue r;
     Avg_Unit_Price := Avg_Unit_Price r;
     Avg_Satisfaction := Avg_Satisfaction r |}.

Definition opt_column (d : DataFrame) (wanted : bool) (name : string)
    : res (option (list (option Q))) :=
  if wanted then v ← getnum d name; Ok (Some v) else Ok None.

(** The pattern shared by the six grouped analyses:
    [df.groupby(by).agg({...}).round(2)], the renaming of the columns, and
    the scaling of the churn rate. *)
Definition groupby_summary (observed : bool) (d : DataFrame)
    (by_ counted : string) (with_price with_sat : bool) : res (list summary_row) :=
  kc ← getitem d by_;
  cc ← getitem d counted;
  cb ← getnum d "Churn_Binary";
  rev ← getnum d "Total_Revenue";
  price ← opt_column d with_price "Unit_Price";
  sat ← opt_column d with_sat "Satisfaction_Rate";
  let t := aggregate (column_keys kc) (notna cc) cb rev price sat <$> group_keys observed kc in
  Ok (percent_row <$> (round_row <$> t)).

(** [sort_values('Churn_Rate', ascending=False)]: NaN rates go last.  The
    order among equal rates is the order this merge sort leaves. *)
Definition rate_ge (a b : summary_row) : Prop :=
  match Churn_Rate a, Churn_Rate b with
  | _, None => True
  | None, Some _ => False
  | Some x, Some y => (y <= x)%Q
  end.

#[global] Instance rate_ge_dec : RelDecision rate_ge.
Proof.
  intros a b. unfold rate_ge.
  destruct (Churn_Rate a), (Churn_Rate b); apply _.
Defined.

Definition sort_by_rate (t : list summary_row) : list summary_row :=
  merge_sort rate_ge t.

(** [groupby([a, b]).size().unstack(fill_value=0)]. *)
Record crosstab : Type := {
  ct_index : list key;
  ct_columns : list key;
  ct_cells : list (list nat)
}.

Definition pair_keys (k1 k2 : list (option key)) : list (key * key) :=
  omap id (zip_with (fun a b => x ← a; y ← b; Some (x, y)) k1 k2).

Definition size_unstack (k1 k2 : list (option key)) : crosstab :=
  let ps := pair_keys k1 k2 in
  let rows := merge_sort key_le (remove_dups (ps.*1)) in
  let cols := merge_sort key_le (remove_dups (ps.*2)) in
  {| ct_index := rows;
     ct_columns := cols;
     ct_cells :=
       map (fun r => map (fun c => length (filter (fun p => p = (r, c)) ps)) cols) rows |}.

(** ** Results *)

Record kpis : Type := {
  total_customers : nat;
  churned_customers : Z;
  churn_rate : fval;
  revenue_at_risk : fval;
  total_revenue : fval;
  revenue_risk_percentage : fval;
  avg_satisfaction : option Q;
  active_customers : Z
}.

Record reason_row : Type := {
  Reason : key;
  Count : nat;
  Percentage : fval
}.

Record predictive : Type := {
  at_risk_count : nat;
  at_risk_revenue : fval;
  new_customer_churn_rate : option Q;
  high_value_at_risk_count : nat;
  high_value_at_risk_revenue : fval
}.

(** A value of the [analysis_results] dictionary. *)
Inductive result : Type :=
| PrimaryKpis (k : kpis)
| SatisfactionAnalysis (ct : crosstab) (summary : list summary_row)
| GeographicAnalysis (state_summary high_risk_states : list summary_row)
    (avg_churn_rate : option Q)
| DeviceAnalysis (t : list summary_row)
| SegmentationAnalysis (age_analysis tenure_analysis plan_analysis : list summary_row)
| ChurnReasons (t : list reason_row)
| PredictiveAnalytics (p : predictive).

Record MTNChurnAnalysis : Type := {
  data_path : option string;
  df : option DataFrame;
  analysis_results : gmap string result;
  stdout : list message
}.

(** [MTNChurnAnalysis(data_path)]. *)
Definition init (path : option string) : MTNChurnAnalysis :=
  {| data_path := path; df := None; analysis_results := ∅; stdout := [] |}.

Definition print (m : message) (a : MTNChurnAnalysis) : MTNChurnAnalysis :=
  {| data_path := data_path a; df := df a;
     analysis_results := analysis_results a; stdout := stdout a ++ [m] |}.

Definition store (name : string) (r : result) (a : MTNChurnAnalysis) : MTNChurnAnalysis :=
  {| data_path := data_path a; df := df a;
     analysis_results := <[name := r]> (analysis_results a); stdout := stdout a |}.

Definition set_df (d : DataFrame) (a : MTNChurnAnalysis) : MTNChurnAnalysis :=
  {| data_path := data_path a; df := Some d;
     analysis_results := analysis_results a; stdout := stdout a |}.

(** [self.df] where a frame is needed: [None] supports none of the
    operations and raises. *)
Definition the_df (a : MTNChurnAnalysis) : res DataFrame :=
  match df a with
  | Some d => Ok d
  | None => Raise (TypeError "NoneType")
  end.

(** [column == x], cell by cell. *)
Definition eq_mask (c : column) (x : pyval) : list bool :=
  map (fun v => py_eqb v x) (column_cells c).

(** ** The analyses: the bodies of the [try] blocks

    In the three breakdowns whose key column is read from the file
    (satisfaction, state, device) the key is never categorical, so the
    switch [observed] plays no part and is fixed. *)

(** [calculate_primary_kpis] (lines 82-103). *)
Definition primary_kpis_body (d : DataFrame) : res kpis :=
  let total := index d in
  cb ← getnum d "Churn_Binary";
  let churned := nansum cb in
  let rate := fmul (fdiv churned (inject_Z (Z.of_nat total))) 100 in
  flags ← getitem d "Churn_Binary";
  rev_churned ← getnum (loc (eq_mask flags (PNum 1)) d) "Total_Revenue";
  let at_risk := np_sum rev_churned in
  rev ← getnum d "Total_Revenue";
  let total_rev := np_sum rev in
  let risk_pct := fmul (fquot at_risk total_rev) 100 in
  sat ← getnum d "Satisfaction_Rate";
  Ok {| total_customers := total;
        churned_customers := int churned;
        churn_rate := fround2 rate;
        revenue_at_risk := at_risk;
        total_revenue := total_rev;
        revenue_risk_percentage := fround2 risk_pct;
        avg_satisfaction := oround2 (nanmean sat);
        active_customers := (Z.of_nat total - int churned)%Z |}.

(** [satisfaction_churn_analysis] (lines 116-124). *)
Definition satisfaction_body (d : DataFrame) : res (crosstab * list summary_row) :=
  sc ← getitem d "Satisfaction_Rate";
  fc ← getitem d "Churn_Binary";
  let ct := size_unstack (column_keys sc) (column_keys fc) in
  summary ← groupby_summary true d "Satisfaction_Rate" "Churn_Binary" false false;
  Ok (ct, summary).

Definition rates (t : list summary_row) : list (option Q) := Churn_Rate <$> t.

(** [rate > x] on floats: false when either side is NaN. *)
Definition rate_gtb (x : option Q) (r : summary_row) : bool :=
  match Churn_Rate r, x with
  | Some q, Some y => Qlt_bool y q
  | _, _ => false
  end.

(** [t[t['Churn_Rate'] > x]]. *)
Definition above (x : option Q) (t : list summary_row) : list summary_row :=
  filter (fun r => rate_gtb x r = true) t.

(** [geographic_analysis] (lines 141-161). *)
Definition geographic_body (d : DataFrame)
    : res (list summary_row * list summary_row * option Q) :=
  t ← groupby_summary true d "State" "Customer_ID" false true;
  let geo := sort_by_rate t in
  let avg_churn := series_mean (rates geo) in
  Ok (geo, above avg_churn geo, cell_round2 avg_churn).

(** [device_performance_analysis] (lines 173-184). *)
Definition device_body (d : DataFrame) : res (list summary_row) :=
  t ← groupby_summary true d "MTN_Device" "Customer_ID" true true;
  Ok (sort_by_rate t).

(** [pd.cut(x, bins, labels)] on one value: the label of the interval
    [(lo, hi]] the value lies in, missing when it lies in none. *)
Fixpoint cut_value (bins : list Q) (labels : list string) (x : Q) : option string :=
  match bins, labels with
  | lo :: ((hi :: _) as rest), lab :: labs =>
      if Qlt_bool lo x && Qle_bool x hi then Some lab else cut_value rest labs x
  | _, _ => None
  end.

Definition cut (bins : list Q) (labels : list string) (v : list (option Q)) : column :=
  CatCol labels (map (fun x => x ≫= cut_value bins labels) v).

Definition age_bins : list Q := [0; 25; 35; 45; 55; 100]%Q.
Definition age_labels : list string := ["18-25"; "26-35"; "36-45"; "46-55"; "55+"].
Definition tenure_bins : list Q := [0; 6; 12; 24; 36; 100]%Q.
Definition tenure_labels : list string :=
  ["0-6 months"; "7-12 months"; "13-24 months"; "25-36 months"; "36+ months"].

(** A step of a body that has already changed the frame: what it raises
    leaves the frame as changed so far. *)
Definition and_then {A B : Type} (d : DataFrame) (r : res A)
    (k : A -> DataFrame * res B) : DataFrame * res B :=
  match r with
  | Ok a => k a
  | Raise e => (d, Raise e)
  end.

(** [customer_segmentation_analysis] (lines 199-244): the frame it
    leaves and what the body returns or raises. *)
Definition segmentation_body (observed : bool) (d : DataFrame)
    : DataFrame * res (list summary_row * list summary_row * list summary_row) :=
  and_then d (getnum d "Age") (fun ages =>
  let d1 := setitem d "Age_Group" (cut age_bins age_labels ages) in
  and_then d1 (groupby_summary observed d1 "Age_Group" "Customer_ID" false true)
    (fun age_analysis =>
  and_then d1 (getnum d1 "Customer_Tenure_in_months") (fun tenures =>
  let d2 := setitem d1 "Tenure_Group" (cut tenure_bins tenure_labels tenures) in
  and_then d2 (groupby_summary observed d2 "Tenure_Group" "Customer_ID" false true)
    (fun tenure_analysis =>
  and_then d2 (groupby_summary observed d2 "Subscription_Plan" "Customer_ID" true true)
    (fun plan_analysis =>
  (d2, Ok (age_analysis, tenure_analysis, plan_analysis))))))).

(** [Series.value_counts()]: the distinct non-missing values with their
    counts, the most frequent first. *)
Definition count_ge (a b : key * nat) : Prop := b.2 <= a.2.

#[global] Instance count_ge_dec : RelDecision count_ge.
Proof. intros a b. unfold count_ge. apply _. Defined.

Definition value_counts (keys : list (option key)) : list (key * nat) :=
  merge_sort count_ge
    ((fun k => (k, count_true (group_mask keys k))) <$> remove_dups (omap id keys)).

(** [churn_reasons_analysis] (lines 260-278): [None] is the branch taken
    when the column is absent. *)
Definition churn_reasons_body (d : DataFrame) : res (option (list reason_row)) :=
  flags ← getitem d "Churn_Binary";
  let churned_customers := loc (eq_mask flags (PNum 1)) d in
  if has_column churned_customers "Reasons_for_Churn" then
    rc ← getitem churned_customers "Reasons_for_Churn";
    let reason_counts := value_counts (column_keys rc) in
    let n := inject_Z (Z.of_nat (index churned_customers)) in
    Ok (Some ((fun kc : key * nat =>
                 {| Reason := kc.1;
                    Count := kc.2;
                    Percentage :=
                      fround2 (fmul (fdiv (inject_Z (Z.of_nat kc.2)) n) 100) |})
              <$> reason_counts))
  else Ok None.

(** [Series.quantile(p)] with linear interpolation between the two
    neighbouring order statistics. *)
Definition quantile (p : Q) (v : list (option Q)) : option Q :=
  let s := merge_sort Qle (dropna v) in
  let pos := (inject_Z (Z.of_nat (length s - 1)) * p)%Q in
  let lo := Z.to_nat (Qfloor pos) in
  let frac := (pos - inject_Z (Qfloor pos))%Q in
  a ← s !! lo;
  Some (match s !! S lo with
        | Some b => (a + frac * (b - a))%Q
        | None => a
        end).

(** [column >= x] on floats: false when either side is NaN. *)
Definition ge_mask (v : list (option Q)) (x : option Q) : list bool :=
  map (fun c => match c, x with
                | Some q, Some y => Qle_bool y q
                | _, _ => false
                end) v.

(** [predictive_analytics] (lines 288-309). *)
Definition predictive_body (d : DataFrame) : res predictive :=
  sat ← getnum d "Satisfaction_Rate";
  let at_risk_customers := loc (cmp_mask (fun q => Qle_bool q 2) sat) d in
  at_risk_rev ← getnum at_risk_customers "Total_Revenue";
  ten ← getnum d "Customer_Tenure_in_months";
  let new_customers := loc (cmp_mask (fun q => Qlt_bool q 6) ten) d in
  rate ← (if bool_decide (0 < index new_customers)
          then cb ← getnum new_customers "Churn_Binary"; Ok (cell_mul (flag_mean cb) 100)
          else Ok (Some 0%Q));
  rev ← getnum d "Total_Revenue";
  let revenue_threshold := quantile (3 # 4) rev in
  sat' ← getnum d "Satisfaction_Rate";
  let high_value_at_risk :=
    loc (zip_with andb (ge_mask rev revenue_threshold)
           (cmp_mask (fun q => Qle_bool q 2) sat')) d in
  hv_rev ← getnum high_value_at_risk "Total_Revenue";
  Ok {| at_risk_count := index at_risk_customers;
        at_risk_revenue := np_sum at_risk_rev;
        new_customer_churn_rate := cell_round2 rate;
        high_value_at_risk_count := index high_value_at_risk;
        high_value_at_risk_revenue := np_sum hv_rev |}.

(** ** The public methods

    Each runs its body inside [try]; on success it stores the result
    under its name and prints a line, on an exception it prints the
    error and stores nothing. *)

Definition calculate_primary_kpis (a : MTNChurnAnalysis)
    : option kpis * MTNChurnAnalysis :=
  match the_df a ≫= primary_kpis_body with
  | Ok k =>
      (Some k, print (Success "Primary KPIs calculated")
                 (store "primary_kpis" (PrimaryKpis k) a))
  | Raise e => (None, print (Failure "Error calculating primary KPIs" (Some e)) a)
  end.

Definition satisfaction_churn_analysis (a : MTNChurnAnalysis)
    : list summary_row * MTNChurnAnalysis :=
  match the_df a ≫= satisfaction_body with
  | Ok (ct, summary) =>
      (summary, print (Success "Satisfaction-Churn analysis completed")
                  (store "satisfaction_analysis" (SatisfactionAnalysis ct summary) a))
  | Raise e => ([], print (Failure "Error in satisfaction analysis" (Some e)) a)
  end.

Definition geographic_analysis (a : MTNChurnAnalysis)
    : list summary_row * MTNChurnAnalysis :=
  match the_df a ≫= geographic_body with
  | Ok (geo, high_risk, avg) =>
      (geo, print (Success "Geographic analysis completed")
              (store "geographic_analysis" (GeographicAnalysis geo high_risk avg) a))
  | Raise e => ([], print (Failure "Error in geographic analysis" (Some e)) a)
  end.

Definition device_performance_analysis (a : MTNChurnAnalysis)
    : list summary_row * MTNChurnAnalysis :=
  match the_df a ≫= device_body with
  | Ok t =>
      (t, print (Success "Device performance analysis completed")
            (store "device_analysis" (DeviceAnalysis t) a))
  | Raise e => ([], print (Failure "Error in device analysis" (Some e)) a)
  end.

(** The only method that assigns to columns of [self.df]; what it has
    assigned before an exception stays assigned. *)
Definition customer_segmentation_analysis (observed : bool) (a : MTNChurnAnalysis)
    : option (list summary_row * list summary_row * list summary_row)
      * MTNChurnAnalysis :=
  match df a with
  | None =>
      (None, print (Failure "Error in customer segmentation"
                      (Some (TypeError "NoneType"))) a)
  | Some d =>
      match segmentation_body observed d with
      | (d', Ok (age, tenure, plan)) =>
          (Some (age, tenure, plan),
           print (Success "Customer segmentation analysis completed")
             (store "segmentation_analysis" (SegmentationAnalysis age tenure plan)
                (set_df d' a)))
      | (d', Raise e) =>
          (None, print (Failure "Error in customer segmentation" (Some e)) (set_df d' a))
      end
  end.

Definition churn_reasons_analysis (a : MTNChurnAnalysis)
    : list reason_row * MTNChurnAnalysis :=
  match the_df a ≫= churn_reasons_body with
  | Ok (Some t) =>
      (t, print (Success "Churn reasons analysis completed")
            (store "churn_reasons" (ChurnReasons t) a))
  | Ok None => ([], print (Warning "Reasons_for_Churn column not found") a)
  | Raise e => ([], print (Failure "Error in churn reasons analysis" (Some e)) a)
  end.

Definition predictive_analytics (a : MTNChurnAnalysis)
    : option predictive * MTNChurnAnalysis :=
  match the_df a ≫= predictive_body with
  | Ok p =>
      (Some p, print (Success "Predictive analytics completed")
                 (store "predictive_analytics" (PredictiveAnalytics p) a))
  | Raise e => (None, print (Failure "Error in predictive analytics" (Some e)) a)
  end.

(** The seven analyses, in the order the driver calls them. *)
Definition run_all (observed : bool) (a : MTNChurnAnalysis) : MTNChurnAnalysis :=
  let a1 := (calculate_primary_kpis a).2 in
  let a2 := (satisfaction_churn_analysis a1).2 in
  let a3 := (geographic_analysis a2).2 in
  let a4 := (device_performance_analysis a3).2 in
  let a5 := (customer_segmentation_analysis observed a4).2 in
  let a6 := (churn_reasons_analysis a5).2 in
  (predictive_analytics a6).2.

Definition run_complete_analysis (observed : bool) (a : MTNChurnAnalysis)
    : bool * MTNChurnAnalysis :=
  let a0 := print (Info "Starting MTN Churn Analysis...") a in
  match df a0 with
  | None => (false, print (Failure "No data loaded. Please load data first." None) a0)
  | Some _ => (true, print (Success "Complete analysis finished!") (run_all observed a0))
  end.

Section Load.

Variable parse_number : string -> option Q.
Variable to_datetime : column -> column.
(** [pd.read_csv]: the frame a path is read into, or what it raises. *)
Variable read_csv : string -> res DataFrame.

(** A path is used when it is neither [None] nor the empty string. *)
Definition truthy (p : option string) : bool :=
  match p with
  | Some s => negb (String.eqb s "")
  | None => false
  end.

Definition load_data (path : option string) (a : MTNChurnAnalysis)
    : bool * MTNChurnAnalysis :=
  let a1 :=
    if truthy path
    then {| data_path := path; df := df a;
            analysis_results := analysis_results a; stdout := stdout a |}
    else a in
  match (if truthy (data_path a1)
         then read_csv (default "" (data_path a1))
         else Raise (ValueError "No data path provided")) with
  | Ok d =>
      (true, print (Success "Data loaded successfully")
               (set_df (_prepare_data parse_number to_datetime d) a1))
  | Raise e => (false, print (Failure "Error loading data" (Some e)) a1)
  end.

End Load.

(** ** Vocabulary of the properties *)

(** A flag cell holds 0 or 1. *)
Definition binary (x : option Q) : Prop := x = Some 0%Q \/ x = Some 1%Q.

(** The columns the analyses read from the source file. *)
Definition expected_columns : list string :=
  [ "Customer_ID"; "State"; "MTN_Device"; "Subscription_Plan"; "Age";
    "Customer_Tenure_in_months"; "Unit_Price"; "Satisfaction_Rate";
    "Total_Revenue"; "Customer_Churn_Status" ].

(** A file is read into numeric, text and boolean columns only. *)
Definition is_categorical (c : column) : bool :=
  match c with
  | CatCol _ _ => true
  | _ => false
  end.

(** [d] is the table [load_data] leaves in [self.df] when the file holds
    the frame [raw]: every column of [raw] has one cell per row and none
    is categorical, the expected columns are there, and the date
    conversion keeps one cell per row. *)
Definition loads_to (parse_number : string -> option Q) (to_datetime : column -> column)
    (raw d : DataFrame) : Prop :=
  df_wf raw /\
  map_Forall (fun _ c => is_categorical c = false) (columns raw) /\
  (forall c, column_length (to_datetime c) = column_length c) /\
  Forall (fun n => is_Some (columns raw !! n)) expected_columns /\
  d = _prepare_data parse_number to_datetime raw.

(** The sum of the per-group customer counts of a summary table. *)
Definition table_total (t : list summary_row) : nat := sum_list (Total_Customers <$> t).

(** No cell of the column is missing. *)
Definition complete (c : column) : Prop := Forall (fun b => b = true) (notna c).

(** The rows in which neither the key nor the counted cell is missing. *)
Definition counted_rows (kc cc : column) : nat :=
  count_true (zip_with andb (notna kc) (notna cc)).


(** The frame that holds the date conversion of [_prepare_data] only. *)
Definition dated (to_datetime : column -> column) (d : DataFrame) : DataFrame :=
  match columns d !! "Date_of_Purchase" with
  | Some c => setitem d "Date_of_Purchase" (to_datetime c)
  | None => d
  end.

(** The keys [ks] are pairwise different and every key of a row is one
    of them. *)
Definition covers (ks : list key) (keys : list (option key)) : Prop :=
  NoDup ks /\ forall k, Some k ∈ keys -> k ∈ ks.

(** A categorical column is closed when its categories are pairwise
    different and every cell is one of them. *)
Definition closed (c : column) : Prop :=
  match c with
  | CatCol cats v => NoDup cats /\ Forall (fun x => forall l, x = Some l -> l ∈ cats) v
  | _ => True
  end.

(** The table [groupby_summary] builds once its columns are found. *)
Definition summary_rows (observed : bool) (kc cc : column) (cb rev : list (option Q))
    (price sat : option (list (option Q))) : list summary_row :=
  (fun k => percent_row (round_row
              (aggregate (column_keys kc) (notna cc) cb rev price sat k)))
    <$> group_keys observed kc.

(** The column whose non-missing cells a grouped analysis counts: the
    churn flag in the satisfaction breakdown, the customer identifier in
    the others. *)
Definition counted_column (by_ : string) : string :=
  if decide (by_ = "Satisfaction_Rate") then "Churn_Binary" else "Customer_ID".

(** [grouped_analysis observed d d' by_ t]: run on the frame [d], the
    analysis that groups by the column [by_] stores the summary table
    [t], and [d'] is the frame it leaves. *)
Inductive grouped_analysis (observed : bool) (d : DataFrame)
    : DataFrame -> string -> list summary_row -> Prop :=
| by_satisfaction ct t :
    satisfaction_body d = Ok (ct, t) ->
    grouped_analysis observed d d "Satisfaction_Rate" t
| by_state t high avg :
    geographic_body d = Ok (t, high, avg) ->
    grouped_analysis observed d d "State" t
| by_device t :
    device_body d = Ok t ->
    grouped_analysis observed d d "MTN_Device" t
| by_age d' age tenure plan :
    segmentation_body observed d = (d', Ok (age, tenure, plan)) ->
    grouped_analysis observed d d' "Age_Group" age
| by_tenure d' age tenure plan :
    segmentation_body observed d = (d', Ok (age, tenure, plan)) ->
    grouped_analysis observed d d' "Tenure_Group" tenure
| by_plan d' age tenure plan :
    segmentation_body observed d = (d', Ok (age, tenure, plan)) ->
    grouped_analysis observed d d' "Subscription_Plan" plan.

(** [d'] is [d] with the age group, or the age group and the tenure
    group, assigned. *)
Inductive derived (d : DataFrame) : DataFrame -> Prop :=
| derived_none : derived d d
| derived_age c1 : derived d (setitem d "Age_Group" c1)
| derived_both c1 c2 :
    derived d (setitem (setitem d "Age_Group" c1) "Tenure_Group" c2).

(** The segmentation from the assignment of the tenure group on, and
    from the assignment of the age group on. *)
Definition segmentation_after_tenure (observed : bool) (age : list summary_row)
    (d2 : DataFrame)
    : DataFrame * res (list summary_row * list summary_row * list summary_row) :=
  and_then d2 (groupby_summary observed d2 "Tenure_Group" "Customer_ID" false true)
    (fun tenure_analysis =>
  and_then d2 (groupby_summary observed d2 "Subscription_Plan" "Customer_ID" true true)
    (fun plan_analysis => (d2, Ok (age, tenure_analysis, plan_analysis)))).

Definition segmentation_after_age (observed : bool) (d1 : DataFrame)
    : DataFrame * res (list summary_row * list summary_row * list summary_row) :=
  and_then d1 (groupby_summary observed d1 "Age_Group" "Customer_ID" false true)
    (fun age =>
  and_then d1 (getnum d1 "Customer_Tenure_in_months") (fun tenures =>
  segmentation_after_tenure observed age
    (setitem d1 "Tenure_Group" (cut tenure_bins tenure_labels tenures)))).

(** The entry a method stores for the outcome of its body. *)
Definition stored_by {A : Type} (name : string) (wrap : A -> result) (r : res A)
    : list (string * result) :=
  match r with
  | Ok v => [(name, wrap v)]
  | Raise _ => []
  end.

(** The churn-reason table is stored only when the column was there. *)
Definition stored_reasons (r : res (option (list reason_row)))
    : list (string * result) :=
  match r with
  | Ok (Some t) => [("churn_reasons", ChurnReasons t)]
  | _ => []
  end.

(** The entries a full run on the frame [d] stores, in order. *)
Definition stored (observed : bool) (d : DataFrame) : list (string * result) :=
  let d' := (segmentation_body observed d).1 in
  stored_by "primary_kpis" PrimaryKpis (primary_kpis_body d) ++
  stored_by "satisfaction_analysis"
    (fun x : crosstab * list summary_row => SatisfactionAnalysis x.1 x.2)
    (satisfaction_body d) ++
  stored_by "geographic_analysis"
    (fun x : list summary_row * list summary_row * option Q =>
       GeographicAnalysis x.1.1 x.1.2 x.2)
    (geographic_body d) ++
  stored_by "device_analysis" DeviceAnalysis (device_body d) ++
  stored_by "segmentation_analysis"
    (fun x : list summary_row * list summary_row * list summary_row =>
       SegmentationAnalysis x.1.1 x.1.2 x.2)
    (segmentation_body observed d).2 ++
  stored_reasons (churn_reasons_body d') ++
  stored_by "predictive_analytics" PredictiveAnalytics (predictive_body d').

(** The dictionary after the entries are written, in order. *)
Definition write_all (l : list (string * result)) (m : gmap string result)
    : gmap string result :=
  foldl (fun acc kv => <[kv.1 := kv.2]> acc) m l.

(** Every column the analyses read is there, the numeric ones as
    numbers. *)
Definition ready (d : DataFrame) : Prop :=
  Forall (fun n => is_Some (columns d !! n))
    ["Customer_ID"; "State"; "MTN_Device"; "Subscription_Plan"; "Satisfaction_Rate";
     "Churn_Binary"] /\
  Forall (fun n => exists v, getnum d n = Ok v)
    ["Churn_Binary"; "Total_Revenue"; "Unit_Price"; "Satisfaction_Rate"; "Age";
     "Customer_Tenure_in_months"].

(** The three-row table of the written example: satisfaction 4, 2, 5 and
    churn status No, Yes, No. *)
Definition sample_source : DataFrame :=
  {| index := 3;
     columns := list_to_map
       [ ("Customer_ID", StrCol [Some "C001"; Some "C002"; Some "C003"]);
         ("State", StrCol [Some "Lagos"; Some "Lagos"; Some "Lagos"]);
         ("MTN_Device", StrCol [Some "Router"; Some "Phone"; Some "Router"]);
         ("Subscription_Plan", StrCol [Some "Basic"; Some "Basic"; Some "Premium"]);
         ("Age", NumCol [Some 20; Some 30; Some 60]%Q);
         ("Customer_Tenure_in_months", NumCol [Some 0; Some 7; Some 40]%Q);
         ("Unit_Price", NumCol [Some 10; Some 20; Some 30]%Q);
         ("Satisfaction_Rate", NumCol [Some 4; Some 2; Some 5]%Q);
         ("Total_Revenue", NumCol [Some 100; Some 50; Some 25]%Q);
         ("Customer_Churn_Status", StrCol [Some "No"; Some "Yes"; Some "No"]) ] |}.

(** Coercions used where a concrete table is loaded: no text cell parses
    and dates are kept as they are. *)
Definition no_parse : string -> option Q := fun _ => None.
Definition keep_dates : column -> column := fun c => c.

Definition sample_table : DataFrame := _prepare_data no_parse keep_dates sample_source.

Definition sample_analyzer : MTNChurnAnalysis :=
  {| data_path := Some "customers.csv"; df := Some sample_table;
     analysis_results := ∅; stdout := [] |}.

(** The same customers, none of them in the first six months (one tenure
    is unknown). *)
Definition veteran_source : DataFrame :=
  setitem sample_source "Customer_Tenure_in_months" (NumCol [Some 7; None; Some 40]%Q).

Definition veteran_table : DataFrame := _prepare_data no_parse keep_dates veteran_source.

Definition veteran_analyzer : MTNChurnAnalysis :=
  {| data_path := Some "customers.csv"; df := Some veteran_table;
     analysis_results := ∅; stdout := [] |}.

(** The same customers, the second one without an identifier. *)
Definition blank_id_source : DataFrame :=
  setitem sample_source "Customer_ID" (StrCol [Some "C001"; None; Some "C003"]).

Definition blank_id_table : DataFrame :=
  _prepare_data no_parse keep_dates blank_id_source.



(** A file of 160 customers of whom the first 23 have left. *)
Definition large_source : DataFrame :=
  {| index := 160;
     columns := list_to_map
       [ ("Customer_ID", StrCol (replicate 160 (Some "C000")));
         ("State", StrCol (replicate 160 (Some "Lagos")));
         ("MTN_Device", StrCol (replicate 160 (Some "Router")));
         ("Subscription_Plan", StrCol (replicate 160 (Some "Basic")));
         ("Age", NumCol (replicate 160 (Some 30%Q)));
         ("Customer_Tenure_in_months", NumCol (replicate 160 (Some 7%Q)));
         ("Unit_Price", NumCol (replicate 160 (Some 10%Q)));
         ("Satisfaction_Rate", NumCol (replicate 160 (Some 4%Q)));
         ("Total_Revenue", NumCol (replicate 160 (Some 100%Q)));
         ("Customer_Churn_Status",
          StrCol (replicate 23 (Some "Yes") ++ replicate 137 (Some "No"))) ] |}.

Definition large_table : DataFrame := _prepare_data no_parse keep_dates large_source.

Definition large_analyzer : MTNChurnAnalysis :=
  {| data_path := Some "customers.csv"; df := Some large_table;
     analysis_results := ∅; stdout := [] |}.

(** ** Further vocabulary *)

(** The path a call to [load_data] reads. *)
Definition effective_path (path : option string) (a : MTNChurnAnalysis) : option string :=
  if truthy path then path else data_path a.

(** The three-row table without its status column. *)
Definition unlabelled_source : DataFrame :=
  {| index := 3; columns := delete "Customer_Churn_Status" (columns sample_source) |}.

Definition unlabelled_table : DataFrame :=
  _prepare_data no_parse keep_dates unlabelled_source.

Definition unlabelled_analyzer : MTNChurnAnalysis :=
  {| data_path := Some "customers.csv"; df := Some unlabelled_table;
     analysis_results := ∅; stdout := [] |}.

#[global] Instance Qlt_dec : RelDecision Qlt.
Proof.
  intros x y. destruct (Qlt_le_dec x y) as [H | H].
  - left. exact H.
  - right. apply Qle_not_lt, H.
Defined.

(** The row of the reason table for a value and its count, among [n]
    churned customers. *)
Definition reason_row_of (n : Q) (kc : key * nat) : reason_row :=
  {| Reason := kc.1; Count := kc.2;
     Percentage := fround2 (fmul (fdiv (inject_Z (Z.of_nat kc.2)) n) 100) |}.

(** The same customers, with the reason the second one gave for leaving. *)
Definition reasons_source : DataFrame :=
  setitem sample_source "Reasons_for_Churn" (StrCol [None; Some "Poor Network"; None]).

Definition reasons_table : DataFrame := _prepare_data no_parse keep_dates reasons_source.

Definition reasons_analyzer : MTNChurnAnalysis :=
  {| data_path := Some "customers.csv"; df := Some reasons_table;
     analysis_results := ∅; stdout := [] |}.

(** An analyzer that has analysed the table with the reasons and has then
    loaded the file without them, as the dashboard does when a second file
    is uploaded: [load_data] replaces the table and keeps the results. *)
Definition reloaded_analyzer : MTNChurnAnalysis :=
  (load_data no_parse keep_dates (fun _ => Ok sample_source) (Some "second.csv")
     (run_complete_analysis true reasons_analyzer).2).2.


(** ** The dashboard: session state *)

(** What the dashboard shows after a callback ([st.success], [st.error],
    [st.warning]). *)
Inductive notice : Type :=
| DataLoaded (records : nat)
| LoadFailed
| AnalysisCompleted
| AnalysisFailed
| LoadDataFirst.

(** [st.session_state], with the files of the working directory. *)
Record session : Type := {
  uploaded_file : option (list Byte.byte);
  analyzer : MTNChurnAnalysis;
  data_loaded : bool;
  analysis_complete : bool;
  files : gmap string (list Byte.byte);
  notices : list notice
}.

Section Dashboard.

Variable parse_number : string -> option Q.
Variable to_datetime : column -> column.
(** [pd.read_csv] on a path of the working directory. *)
Variable read_file : gmap string (list Byte.byte) -> string -> res DataFrame.
Variable observed : bool.

(** The session a first run of the script sets up (lines 87-92). *)
Definition new_session (fs : gmap string (list Byte.byte)) : session :=
  {| uploaded_file := None; analyzer := init None;
     data_loaded := false; analysis_complete := false;
     files := fs; notices := [] |}.

(** The dashboard's [load_data] (lines 94-119).  The working directory is
    a map from names to contents, so writing and removing the temporary
    file do not raise and the [except] branch is not taken. *)
Definition dashboard_load_data (s : session) : bool * session :=
  match uploaded_file s with
  | Some buffer =>
      let fs := <["temp_data.csv" := buffer]> (files s) in
      let r := load_data parse_number to_datetime (read_file fs)
                 (Some "temp_data.csv") (analyzer s) in
      if r.1 then
        (true,
         {| uploaded_file := uploaded_file s; analyzer := r.2;
            data_loaded := true; analysis_complete := false;
            files := delete "temp_data.csv" fs;
            notices := notices s ++
              [DataLoaded (from_option index 0 (df r.2))] |})
      else
        (false,
         {| uploaded_file := uploaded_file s; analyzer := r.2;
            data_loaded := data_loaded s; analysis_complete := analysis_complete s;
            files := fs; notices := notices s ++ [LoadFailed] |})
  | None => (false, s)
  end.

(** The dashboard's [run_analysis] (lines 121-134). *)
Definition run_analysis (s : session) : bool * session :=
  if data_loaded s then
    let r := run_complete_analysis observed (analyzer s) in
    if r.1 then
      (true,
       {| uploaded_file := uploaded_file s; analyzer := r.2;
          data_loaded := data_loaded s; analysis_complete := true;
          files := files s; notices := notices s ++ [AnalysisCompleted] |})
    else
      (false,
       {| uploaded_file := uploaded_file s; analyzer := r.2;
          data_loaded := data_loaded s; analysis_complete := analysis_complete s;
          files := files s; notices := notices s ++ [AnalysisFailed] |})
  else
    (false,
     {| uploaded_file := uploaded_file s; analyzer := analyzer s;
        data_loaded := data_loaded s; analysis_complete := analysis_complete s;
        files := files s; notices := notices s ++ [LoadDataFirst] |}).

(** What the user does in the sidebar: change the uploaded file (the
    uploader's [on_change] callback is [load_data]) or press a button that
    runs the analysis. *)
Inductive action : Type :=
| Upload (file : option (list Byte.byte))
| RunAnalysis.

Definition step (s : session) (act : action) : session :=
  match act with
  | Upload file =>
      (dashboard_load_data
         {| uploaded_file := file; analyzer := analyzer s;
            data_loaded := data_loaded s; analysis_complete := analysis_complete s;
            files := files s; notices := notices s |}).2
  | RunAnalysis => (run_analysis s).2
  end.

(** The results the analyzer holds are those a full run left, on the
    table it left. *)
Definition fresh_results (a : MTNChurnAnalysis) : Prop :=
  exists a0, is_Some (df a0) /\
    df a = df (run_complete_analysis observed a0).2 /\
    analysis_results a = analysis_results (run_complete_analysis observed a0).2.

Definition consistent (s : session) : Prop :=
  (analysis_complete s = true -> data_loaded s = true) /\
  (data_loaded s = true -> is_Some (df (analyzer s))) /\
  (analysis_complete s = true -> fresh_results (analyzer s)).

End Dashboard.

(** ** The executive summary *)

(** A value as a line of the summary formats it. *)
Inductive shown : Type :=
| Grouped (n : nat)                        (* [{:,}] *)
| PercentOf (x : fval)                     (* [{}%] *)
| Naira (x : fval)                            (* the naira sign and [{:,.2f}] *)
| OutOfFive (x : option Q)                 (* [{}/5.0] *)
| KeyAndRate (k : key) (rate : option Q).  (* [{} ({}%)] *)

(** A line of the summary: the title, the rule under it, the heading of
    a section (after an empty line) or a bullet with its label. *)
Inductive report_line : Type :=
| Title
| Rule
| Heading (text : string)
| Bullet (label : string) (v : shown).

Inductive report : Type :=
| NoResults        (* "No analysis results available. Please run analysis first." *)
| Summary (lines : list report_line).

(** The four sections.  Each reads one entry of the results; an entry of
    another shape than the one the analysis of that name stores is not
    what the method is written for, and is reported as a type error. *)
Definition kpi_lines (m : gmap string result) : res (list report_line) :=
  match m !! "primary_kpis" with
  | None => Ok []
  | Some (PrimaryKpis k) =>
      Ok [ Heading "KEY METRICS:";
           Bullet "Total Customers" (Grouped (total_customers k));
           Bullet "Churn Rate" (PercentOf (churn_rate k));
           Bullet "Revenue at Risk" (Naira (revenue_at_risk k));
           Bullet "Average Satisfaction" (OutOfFive (avg_satisfaction k)) ]
  | Some _ => Raise (TypeError "primary_kpis")
  end.

Definition geographic_lines (m : gmap string result) : res (list report_line) :=
  match m !! "geographic_analysis" with
  | None => Ok []
  | Some (GeographicAnalysis _ high_risk avg) =>
      Ok (Heading "GEOGRAPHIC INSIGHTS:" ::
          Bullet "Average State Churn Rate" (PercentOf (of_cell avg)) ::
          match high_risk with
          | r :: _ => [Bullet "Highest Risk State" (KeyAndRate (group r) (Churn_Rate r))]
          | [] => []
          end)
  | Some _ => Raise (TypeError "geographic_analysis")
  end.

Definition device_lines (m : gmap string result) : res (list report_line) :=
  match m !! "device_analysis" with
  | None => Ok []
  | Some (DeviceAnalysis t) =>
      Ok match t with
         | r :: _ => [ Heading "DEVICE INSIGHTS:";
                       Bullet "Highest Risk Device" (KeyAndRate (group r) (Churn_Rate r)) ]
         | [] => []
         end
  | Some _ => Raise (TypeError "device_analysis")
  end.

Definition predictive_lines (m : gmap string result) : res (list report_line) :=
  match m !! "predictive_analytics" with
  | None => Ok []
  | Some (PredictiveAnalytics p) =>
      Ok [ Heading "PREDICTIVE INSIGHTS:";
           Bullet "At-Risk Customers" (Grouped (at_risk_count p));
           Bullet "At-Risk Revenue" (Naira (at_risk_revenue p)) ]
  | Some _ => Raise (TypeError "predictive_analytics")
  end.

(** [get_summary_report] (lines 416-462). *)
Definition get_summary_report (a : MTNChurnAnalysis) : res report :=
  let m := analysis_results a in
  if decide (m = ∅) then Ok NoResults
  else
    k ← kpi_lines m;
    g ← geographic_lines m;
    dv ← device_lines m;
    p ← predictive_lines m;
    Ok (Summary (Title :: Rule :: k ++ g ++ dv ++ p)).

(** The name an entry of this shape is stored under by the analyses. *)
Definition entry_name (r : result) : string :=
  match r with
  | PrimaryKpis _ => "primary_kpis"
  | SatisfactionAnalysis _ _ => "satisfaction_analysis"
  | GeographicAnalysis _ _ _ => "geographic_analysis"
  | DeviceAnalysis _ => "device_analysis"
  | SegmentationAnalysis _ _ _ => "segmentation_analysis"
  | ChurnReasons _ => "churn_reasons"
  | PredictiveAnalytics _ => "predictive_analytics"
  end.

(** Every entry of the results is under the name of its shape, as the
    analyses store it. *)
Definition shaped (m : gmap string result) : Prop :=
  map_Forall (fun name r => name = entry_name r) m.

(** ** Export *)

(** A table as a file or a sheet holds it. *)
Inductive table : Type :=
| SummaryTable (t : list summary_row)
| CrossTable (ct : crosstab)
| ReasonTable (t : list reason_row)
| OneRow (entry : result).             (* [pd.DataFrame([entry])] *)

Inductive file : Type :=
| CsvFile (t : table)
| Workbook (sheets : list (string * table)).

(** An entry that is a dictionary: its [items()] that are data frames, in
    order.  The scalars of the KPIs, of the predictive metrics and the
    average state rate are no data frames. *)
Definition dict_tables (r : result) : option (list (string * table)) :=
  match r with
  | PrimaryKpis _ => Some []
  | SatisfactionAnalysis ct summary =>
      Some [("crosstab", CrossTable ct); ("summary", SummaryTable summary)]
  | GeographicAnalysis state_summary high_risk_states _ =>
      Some [("state_summary", SummaryTable state_summary);
            ("high_risk_states", SummaryTable high_risk_states)]
  | SegmentationAnalysis age tenure plan =>
      Some [("age_analysis", SummaryTable age); ("tenure_analysis", SummaryTable tenure);
            ("plan_analysis", SummaryTable plan)]
  | PredictiveAnalytics _ => Some []
  | DeviceAnalysis _ | ChurnReasons _ => None
  end.

(** An entry that is a data frame. *)
Definition as_table (r : result) : option table :=
  match r with
  | DeviceAnalysis t => Some (SummaryTable t)
  | ChurnReasons t => Some (ReasonTable t)
  | _ => None
  end.

Definition export_folder : string := "analysis_exports".

(** The names under which the tables of an entry are exported, without
    folder, time stamp and extension: [name_key] for the tables of a
    dictionary, [name] for a data frame. *)
Definition export_stems (name : string) (r : result) : list (string * table) :=
  match dict_tables r with
  | Some items => (fun kv : string * table => (name +:+ "_" +:+ kv.1, kv.2)) <$> items
  | None =>
      match as_table r with
      | Some t => [(name, t)]
      | None => []
      end
  end.

(** [analysis_results.items()]: the entries in the order [order] lists
    their names, which stands for the order in which the keys were first
    stored. *)
Definition items (order : list string) (m : gmap string result) : list (string * result) :=
  omap (fun name => (fun r => (name, r)) <$> m !! name) order.

Definition write_files (l : list (string * file)) (fs : gmap string file) : gmap string file :=
  foldl (fun acc kv => <[kv.1 := kv.2]> acc) fs l.

Section Exports.

(** [datetime.now().strftime("%Y%m%d_%H%M%S")] at the call. *)
Variable timestamp : string.
(** The order of the keys of [analysis_results]. *)
Variable order : list string.

Definition csv_path (stem : string) : string :=
  export_folder +:+ "/" +:+ stem +:+ "_" +:+ timestamp +:+ ".csv".

(** [export_to_csv] (lines 340-380): the files written, in order.  The
    folder is a map from paths to contents, so no write raises. *)
Definition csv_exports (analysis_name : option string) (m : gmap string result)
    : list (string * file) :=
  let selected :=
    match (if truthy analysis_name then m !! default "" analysis_name else None) with
    | Some data => [(default "" analysis_name, data)]
    | None => items order m
    end in
  (fun st : string * table => (csv_path st.1, CsvFile st.2))
    <$> (selected ≫= (fun kv => export_stems kv.1 kv.2)).

Definition export_to_csv (analysis_name : option string) (a : MTNChurnAnalysis)
    (fs : gmap string file) : list string * MTNChurnAnalysis * gmap string file :=
  let written := csv_exports analysis_name (analysis_results a) in
  (written.*1,
   print (Success ("Exported " +:+ pretty (length written) +:+ " files to " +:+
                   export_folder +:+ "/")) a,
   write_files written fs).

(** [name[:31]]. *)
Definition sheet_name (s : string) : string := String.substring 0 31 s.

(** The sheets [export_to_excel] writes, in order: the KPIs first, then
    the tables of the other entries. *)
Definition excel_sheets (m : gmap string result) : list (string * table) :=
  match m !! "primary_kpis" with
  | Some entry => [("Primary_KPIs", OneRow entry)]
  | None => []
  end ++
  ((fun st : string * table => (sheet_name st.1, st.2))
     <$> (filter (fun kv => kv.1 <> "primary_kpis") (items order m)
            ≫= (fun kv => export_stems kv.1 kv.2))).

(** The writer of the workbook, which is the library's: opening the file
    under a name, writing one sheet into the open writer, and closing
    the writer, which saves the sheets written so far under the name. *)
Variable open_writer : string -> res unit.
Variable to_excel : string * table -> res unit.
Variable close : string -> list (string * table) -> gmap string file
                 -> res unit * gmap string file.

(** The body of the [with] block: the sheets are written in order up to
    the first one that raises. *)
Fixpoint write_sheets (l : list (string * table)) : list (string * table) * res unit :=
  match l with
  | [] => ([], Ok tt)
  | s :: l' =>
      match to_excel s with
      | Ok _ => let r := write_sheets l' in (s :: r.1, r.2)
      | Raise e => ([], Raise e)
      end
  end.

(** [export_to_excel] (lines 382-414).  Leaving the [with] block closes
    the writer, also when the body has raised: the sheets written before
    the exception are saved, and the exception goes on to the handler,
    unless closing raises one of its own. *)
Definition export_to_excel (filename : option string) (a : MTNChurnAnalysis)
    (fs : gmap string file) : option string * MTNChurnAnalysis * gmap string file :=
  let filename :=
    if truthy filename then default "" filename
    else export_folder +:+ "/MTN_Churn_Analysis_" +:+ timestamp +:+ ".xlsx" in
  let failed e fs' := (None, print (Failure "Error exporting to Excel" (Some e)) a, fs') in
  match open_writer filename with
  | Raise e => failed e fs
  | Ok _ =>
      let body := write_sheets (excel_sheets (analysis_results a)) in
      let closed := close filename body.1 fs in
      match closed.1, body.2 with
      | Raise e, _ => failed e closed.2
      | Ok _, Raise e => failed e closed.2
      | Ok _, Ok _ =>
          (Some filename, print (Success ("Excel file exported: " +:+ filename)) a,
           closed.2)
      end
  end.

End Exports.

(** A writer that saves: when closing succeeds, the file under the name
    holds the sheets written, and no other file has changed. *)
Definition saves (close : string -> list (string * table) -> gmap string file
                          -> res unit * gmap string file) : Prop :=
  forall name written fs u,
    (close name written fs).1 = Ok u ->
    (close name written fs).2 = <[name := Workbook written]> fs.

(** [order] lists the keys of the results, each once. *)
Definition key_order (order : list string) (m : gmap string result) : Prop :=
  NoDup order /\ dom m = list_to_set (C := gset string) order.

(** The analysis whose entry a stem comes from. *)
Definition analysis_names : list string :=
  ["primary_kpis"; "satisfaction_analysis"; "geographic_analysis"; "device_analysis";
   "segmentation_analysis"; "churn_reasons"; "predictive_analytics"].

Definition stem_owner (stem : string) : option string :=
  head (filter (fun name => String.prefix name stem = true) analysis_names).

(** The cell [g] is what binning gives the cell [x]: nothing for a
    missing value, else the label of the interval [(lo, hi]] of two
    neighbouring edges that holds the value, and nothing when no interval
    does. *)
Definition binned (bins : list Q) (labels : list string)
    (x : option Q) (g : option string) : Prop :=
  match x with
  | None => g = None
  | Some a =>
      forall l, g = Some l <->
        exists i lo hi, bins !! i = Some lo /\ bins !! S i = Some hi /\
                        labels !! i = Some l /\ (lo < a)%Q /\ (a <= hi)%Q
  end.

(** The value lies outside the interval [(lo, hi]], or is missing. *)
Definition outside (lo hi : Q) (x : option Q) : Prop :=
  match x with
  | None => True
  | Some a => (a <= lo)%Q \/ (hi < a)%Q
  end.

(** The entries an export to CSV selects: the named one when the name is
    a key, all of them otherwise. *)
Definition selected (order : list string) (analysis_name : option string)
    (m : gmap string result) : list (string * result) :=
  match (if truthy analysis_name then m !! default "" analysis_name else None) with
  | Some data => [(default "" analysis_name, data)]
  | None => items order m
  end.

(** The analyzer of the written example after a full run, and the order
    in which the run stored its entries. *)
Definition sample_run : MTNChurnAnalysis := (run_complete_analysis true sample_analyzer).2.

Definition sample_order : list string :=
  ["primary_kpis"; "satisfaction_analysis"; "geographic_analysis"; "device_analysis";
   "segmentation_analysis"; "predictive_analytics"].

(** * Properties *)

(** ** Rounding *)

Section Rounding.
Local Open Scope Q_scope.

Lemma round_half_even_near q :
  - (1 # 2) <= inject_Z (round_half_even q) - q <= 1 # 2.
Proof.
  pose proof (Qfloor_le q) as Hlo. pose proof (Qlt_floor q) as Hhi.
  rewrite inject_Z_plus in Hhi. change (inject_Z 1) with 1 in Hhi.
  unfold round_half_even.
  destruct (Qcompare (q - inject_Z (Qfloor q)) (1 # 2)) eqn:E.
  - apply Qeq_alt in E.
    destruct (Z.even (Qfloor q));
      [| rewrite inject_Z_plus; change (inject_Z 1) with 1]; lra.
  - apply Qlt_alt in E. lra.
  - apply Qgt_alt in E. rewrite inject_Z_plus. change (inject_Z 1) with 1. lra.
Qed.

(** Rounding never crosses an integer. *)
Lemma round_half_even_ge (z : Z) q :
  inject_Z z <= q -> (z <= round_half_even q)%Z.
Proof.
  intros H. apply Qfloor_resp_le in H. rewrite Qfloor_Z in H.
  unfold round_half_even.
  destruct (Qcompare _ _); [destruct (Z.even _) | |]; lia.
Qed.

Lemma round_half_even_le (z : Z) q :
  q <= inject_Z z -> (round_half_even q <= z)%Z.
Proof.
  intros H. pose proof (Qfloor_resp_le _ _ H) as Hf. rewrite Qfloor_Z in Hf.
  assert (Hstep : inject_Z (Qfloor q) < q -> (Qfloor q + 1 <= z)%Z).
  { intros Hlt. assert (Hz : inject_Z (Qfloor q) < inject_Z z) by lra.
    rewrite <- Zlt_Qlt in Hz. lia. }
  unfold round_half_even.
  destruct (Qcompare (q - inject_Z (Qfloor q)) (1 # 2)) eqn:E.
  - apply Qeq_alt in E. destruct (Z.even _); [lia |]. apply Hstep. lra.
  - lia.
  - apply Qgt_alt in E. apply Hstep. lra.
Qed.

End Rounding.

(** ** Binary64 rounding *)

Section Binary64.
Local Open Scope Q_scope.

Lemma pow2_pos e : 0 < pow2 e.
Proof.
  unfold pow2. destruct (0 <=? e)%Z eqn:E.
  - change 0 with (inject_Z 0). rewrite <- Zlt_Qlt. apply Z.pow_pos_nonneg; lia.
  - reflexivity.
Qed.

Lemma pow2_nonpos e : (e <= 0)%Z -> pow2 e * inject_Z (2 ^ (- e)) == 1.
Proof.
  intros He. unfold pow2. destruct (0 <=? e)%Z eqn:E.
  - apply Z.leb_le in E. assert (e = 0%Z) as -> by lia. reflexivity.
  - assert (Hp : (0 < 2 ^ (- e))%Z) by (apply Z.pow_pos_nonneg; lia).
    unfold Qeq, Qmult, inject_Z. cbn [Qnum Qden].
    rewrite Pos.mul_1_r, Z2Pos.id by exact Hp. lia.
Qed.

Lemma Qabs_positive q : 0 < q -> Qabs q = q.
Proof.
  destruct q as [n d]. unfold Qlt, Qabs. cbn [Qnum Qden]. intros H.
  rewrite Z.abs_eq by lia. reflexivity.
Qed.

Lemma ilog2_small q :
  0 < q -> q < inject_Z (2 ^ 53) -> (ilog2 q <= 52)%Z.
Proof.
  intros Hpos Hlt. unfold ilog2.
  set (l := (Z.log2 (Qnum q) - Z.log2 (Z.pos (Qden q)))%Z).
  destruct (Qle_bool (pow2 l) q) eqn:E.
  - apply Qle_bool_iff in E.
    destruct (Z_le_gt_dec l 52) as [H | H]; [exact H | exfalso].
    unfold pow2 in E. replace (0 <=? l)%Z with true in E by (symmetry; apply Z.leb_le; lia).
    assert (Hl : (2 ^ 53 <= 2 ^ l)%Z) by (apply Z.pow_le_mono_r; lia).
    rewrite Zle_Qle in Hl. lra.
  - assert (Hl : (l <= 53)%Z); [| lia].
    destruct q as [n d]. unfold Qlt, inject_Z in Hpos, Hlt. cbn [Qnum Qden] in *.
    assert (Hn : (n < 2 ^ 53 * Z.pos d)%Z) by lia.
    assert (Hlog : (Z.log2 n <= Z.log2 (Z.pos d * 2 ^ 53))%Z)
      by (apply Z.log2_le_mono; lia).
    rewrite Z.log2_mul_pow2 in Hlog by lia. unfold l. lia.
Qed.

(** Rounding to binary64 does not cross a whole number below [2 ^ 53]. *)
Lemma f64_between (a b : Z) (q : Q) :
  (0 <= a)%Z -> (b < 2 ^ 53)%Z ->
  inject_Z a <= q <= inject_Z b ->
  exists r, f64 q = Fin r /\ inject_Z a <= r <= inject_Z b.
Proof.
  intros Ha Hb [Hlo Hhi]. unfold f64.
  assert (H0 : 0 <= inject_Z a) by (change 0 with (inject_Z 0); rewrite <- Zle_Qle; exact Ha).
  destruct (Qeq_bool q 0) eqn:Ez.
  - apply Qeq_bool_iff in Ez. exists 0. split; [reflexivity |]. lra.
  - assert (Hq : 0 < q).
    { apply Qeq_bool_neq in Ez. destruct (Qlt_le_dec 0 q) as [H | H]; [exact H |].
      exfalso. apply Ez. lra. }
    rewrite (Qabs_positive q Hq).
    assert (Hb' : inject_Z b < inject_Z (2 ^ 53)) by (rewrite <- Zlt_Qlt; exact Hb).
    pose proof (ilog2_small q Hq ltac:(lra)) as Hl.
    set (e := Z.max (ilog2 q - 52) (-1074)).
    assert (He : (e <= 0)%Z) by (unfold e; lia).
    pose proof (pow2_nonpos e He) as Hp. pose proof (pow2_pos e) as Hp0.
    set (P := (2 ^ (- e))%Z) in *.
    assert (HP : 0 < inject_Z P).
    { change 0 with (inject_Z 0). rewrite <- Zlt_Qlt. apply Z.pow_pos_nonneg; lia. }
    assert (Ediv : q / pow2 e == q * inject_Z P).
    { apply Qmult_inj_r with (z := pow2 e); [lra |].
      rewrite Qmult_comm, Qmult_div_r by lra.
      rewrite <- Qmult_assoc, (Qmult_comm (inject_Z P)), Hp. ring. }
    set (m := round_half_even (q / pow2 e)).
    assert (Hm1 : (a * P <= m)%Z).
    { apply round_half_even_ge. rewrite Ediv, inject_Z_mult. nra. }
    assert (Hm2 : (m <= b * P)%Z).
    { apply round_half_even_le. rewrite Ediv, inject_Z_mult. nra. }
    rewrite Zle_Qle, inject_Z_mult in Hm1, Hm2.
    assert (Hr1 : inject_Z a <= inject_Z m * pow2 e).
    { apply Qmult_le_r with (z := inject_Z P); [exact HP |].
      rewrite <- Qmult_assoc, Hp. lra. }
    assert (Hr2 : inject_Z m * pow2 e <= inject_Z b).
    { apply Qmult_le_r with (z := inject_Z P); [exact HP |].
      rewrite <- Qmult_assoc, Hp. lra. }
    assert (Hbig : Qle_bool (pow2 1024) (inject_Z m * pow2 e) = false).
    { destruct (Qle_bool _ _) eqn:E; [| reflexivity]. apply Qle_bool_iff in E.
      assert (H53 : inject_Z (2 ^ 53) < pow2 1024) by reflexivity. lra. }
    rewrite Hbig.
    assert (Hs : Qle_bool 0 q = true) by (apply Qle_bool_iff; lra).
    rewrite Hs. eexists. split; [reflexivity |]. split; assumption.
Qed.

Lemma fdiv_unit (a b : Q) :
  0 <= a <= b -> 0 < b -> exists r, fdiv a b = Fin r /\ 0 <= r <= 1.
Proof.
  intros [Ha Hab] Hb. unfold fdiv.
  assert (Hz : Qeq_bool b 0 = false).
  { destruct (Qeq_bool b 0) eqn:E; [| reflexivity]. apply Qeq_bool_iff in E. lra. }
  rewrite Hz. apply (f64_between 0 1); [lia | reflexivity |].
  change (inject_Z 0) with 0. change (inject_Z 1) with 1. split.
  - apply Qle_shift_div_l; [exact Hb | lra].
  - apply Qle_shift_div_r; [exact Hb | lra].
Qed.

Lemma fmul_between (a b c : Z) (q : Q) :
  (0 <= a)%Z -> (0 <= c)%Z -> (b * c < 2 ^ 53)%Z ->
  inject_Z a <= q <= inject_Z b ->
  exists r, fmul (Fin q) (inject_Z c) = Fin r /\
            inject_Z (a * c) <= r <= inject_Z (b * c).
Proof.
  intros Ha Hc Hb [Hlo Hhi]. cbn [fmul].
  apply f64_between; [lia | exact Hb |].
  assert (H : 0 <= inject_Z c) by (change 0 with (inject_Z 0); rewrite <- Zle_Qle; exact Hc).
  rewrite !inject_Z_mult. split; nra.
Qed.

(** Rounding to 2 decimals does not cross a whole number. *)
Lemma fround2_between (a b : Z) (q : Q) :
  (0 <= a)%Z -> (b * 100 < 2 ^ 53)%Z ->
  inject_Z a <= q <= inject_Z b ->
  exists r, fround2 (Fin q) = Fin r /\ inject_Z a <= r <= inject_Z b.
Proof.
  intros Ha Hb Hq. unfold fround2.
  destruct (fmul_between a b 100 q Ha ltac:(lia) Hb Hq) as (y & Ey & Hy1 & Hy2).
  change (inject_Z 100) with 100 in Ey. rewrite Ey.
  apply round_half_even_ge in Hy1. apply round_half_even_le in Hy2.
  unfold fdiv. change (Qeq_bool 100 0) with false. cbv iota.
  assert (Hab : (a <= b)%Z).
  { destruct Hq as [H1 H2]. rewrite Zle_Qle. lra. }
  apply f64_between; [exact Ha | lia |].
  rewrite Zle_Qle, inject_Z_mult in Hy1, Hy2. change (inject_Z 100) with 100 in *.
  split.
  - apply Qle_shift_div_l; [reflexivity | exact Hy1].
  - apply Qle_shift_div_r; [reflexivity | exact Hy2].
Qed.

(** A percentage of a part in a whole is a number between 0 and 100. *)
Lemma risk_percentage_range (part whole : Q) :
  0 <= part <= whole -> 0 < whole ->
  exists q, fround2 (fmul (fdiv part whole) 100) = Fin q /\ 0 <= q <= 100.
Proof.
  intros Hp Hw. destruct (fdiv_unit part whole Hp Hw) as (r & -> & Hr).
  destruct (fmul_between 0 1 100 r ltac:(lia) ltac:(lia) ltac:(reflexivity) Hr)
    as (y & Ey & Hy).
  change (inject_Z 100) with 100 in Ey. rewrite Ey.
  apply (fround2_between 0 100); [lia | reflexivity | exact Hy].
Qed.

End Binary64.

(** The pairwise sum does not depend on the fuel, once there is as much
    of it as there are cells: [np_sum] never runs out of it. *)
Lemma pairwise_fuel (f1 f2 : nat) (l : list fval) :
  length l <= f1 -> length l <= f2 -> pairwise f1 l = pairwise f2 l.
Proof.
  revert f2 l. induction f1 as [| f1 IH]; intros f2 l H1 H2.
  - destruct l; [| simpl in H1; lia]. destruct f2; reflexivity.
  - destruct f2 as [| f2].
    { destruct l; [reflexivity | simpl in H2; lia]. }
    cbn [pairwise].
    destruct (Nat.ltb (length l) 8) eqn:E8; [reflexivity |].
    destruct (Nat.leb (length l) 128) eqn:E128; [reflexivity |].
    apply Nat.leb_gt in E128.
    set (n2 := (Nat.div (length l) 2 - Nat.modulo (Nat.div (length l) 2) 8)%nat).
    assert (Hdiv : 64 <= Nat.div (length l) 2).
    { apply Nat.div_le_lower_bound; lia. }
    assert (Hhalf : Nat.div (length l) 2 < length l).
    { apply Nat.div_lt; lia. }
    assert (Hmod : Nat.modulo (Nat.div (length l) 2) 8 < 8).
    { apply Nat.mod_upper_bound. lia. }
    assert (Hn2 : 0 < n2 < length l) by (unfold n2; lia).
    f_equal; apply IH; rewrite ?List.length_firstn, ?List.length_skipn; lia.
Qed.

(** Binary64 on known values: 0.1; the first whole number that is not
    a float; overflow; the least subnormal number; and three products
    that are not the exact ones. *)
Lemma f64_known_values :
  is_float (f64 (1 # 10)) (3602879701896397 # 36028797018963968) /\
  is_float (f64 (inject_Z (2 ^ 53 + 1))) (inject_Z (2 ^ 53)) /\
  fadd (f64 (inject_Z (10 ^ 308))) (f64 (inject_Z (10 ^ 308))) = PInf /\
  is_float (f64 (pow2 (-1074))) (pow2 (-1074)) /\
  is_float (f64 (pow2 (-1075))) 0 /\
  is_float (fmul (fdiv 23 160) 100) ((14375 # 1000) - pow2 (-49))%Q /\
  is_float (fmul (fdiv 29 100) 100) (29 - pow2 (-48))%Q /\
  is_float (fmul (fround2 (fdiv 23 40)) 100) (57 - pow2 (-47))%Q.
Proof. vm_compute. repeat split. Qed.

(** The mean of five equal rates can be below each of them. *)
Lemma series_mean_below :
  exists r m, fmul (fdiv 29 100) 100 = Fin r /\
              series_mean (replicate 5 (Some r)) = Some m /\ (m < r)%Q /\
              (m == 29 - pow2 (-47))%Q.
Proof.
  eexists _, _. split; [vm_compute; reflexivity |].
  split; [vm_compute; reflexivity |]. split; vm_compute; reflexivity.
Qed.

(** ** What [_prepare_data] leaves in the frame *)

Section PrepareFacts.
Variable parse_number : string -> option Q.
Variable to_datetime : column -> column.

Lemma to_numeric_idem c :
  to_numeric parse_number (to_numeric parse_number c) = to_numeric parse_number c.
Proof. destruct c; reflexivity. Qed.

Lemma to_numeric_length c :
  column_length (to_numeric parse_number c) = column_length c.
Proof. destruct c; simpl; rewrite ?length_map; reflexivity. Qed.

Lemma coerce_column_lookup d col n :
  columns (coerce_column parse_number d col) !! n =
  if decide (n = col) then to_numeric parse_number <$> columns d !! n
  else columns d !! n.
Proof.
  unfold coerce_column.
  destruct (columns d !! col) as [c |] eqn:E; simpl.
  - destruct (decide (n = col)) as [-> | Hne].
    + rewrite lookup_insert_eq, E. reflexivity.
    + rewrite lookup_insert_ne by congruence. reflexivity.
  - destruct (decide (n = col)) as [-> | Hne]; [rewrite E |]; reflexivity.
Qed.

Lemma coerce_all_lookup names d n :
  columns (foldl (coerce_column parse_number) d names) !! n =
  if decide (n ∈ names) then to_numeric parse_number <$> columns d !! n
  else columns d !! n.
Proof.
  revert d. induction names as [| x names IH]; intros d; simpl.
  - destruct (decide (n ∈ [])) as [H | H]; [inversion H | reflexivity].
  - rewrite IH, coerce_column_lookup.
    destruct (decide (n = x)) as [-> | Hne].
    + destruct (decide (x ∈ names)), (decide (x ∈ x :: names)) as [| Hn];
        try reflexivity; try (exfalso; apply Hn; left).
      destruct (columns d !! x); simpl; [rewrite to_numeric_idem |]; reflexivity.
    + destruct (decide (n ∈ names)) as [Hin | Hin],
               (decide (n ∈ x :: names)) as [Hin' | Hin'];
        try reflexivity.
      * exfalso. apply Hin'. right. exact Hin.
      * exfalso. apply Hin. inversion Hin'; subst; [congruence | assumption].
Qed.

Lemma coerce_all_index names d :
  index (foldl (coerce_column parse_number) d names) = index d.
Proof.
  revert d. induction names as [| x names IH]; intros d; simpl; [reflexivity |].
  rewrite IH. unfold coerce_column. destruct (columns d !! x); reflexivity.
Qed.

Lemma prepare_unfold d :
  _prepare_data parse_number to_datetime d =
  let d2 := foldl (coerce_column parse_number) (dated to_datetime d) numeric_columns in
  match columns d2 !! "Customer_Churn_Status" with
  | Some c =>
      setitem d2 "Churn_Binary" (NumCol (fillna 0%Q (series_map churn_status_map c)))
  | None => d2
  end.
Proof. reflexivity. Qed.

Lemma dated_lookup d n :
  n <> "Date_of_Purchase" -> columns (dated to_datetime d) !! n = columns d !! n.
Proof.
  intros Hn. unfold dated.
  destruct (columns d !! "Date_of_Purchase"); simpl; [| reflexivity].
  rewrite lookup_insert_ne by congruence. reflexivity.
Qed.

Lemma dated_index d : index (dated to_datetime d) = index d.
Proof. unfold dated. destruct (columns d !! "Date_of_Purchase"); reflexivity. Qed.

Lemma prepare_index d : index (_prepare_data parse_number to_datetime d) = index d.
Proof.
  rewrite prepare_unfold. cbv zeta.
  destruct (columns _ !! "Customer_Churn_Status"); [unfold setitem; cbn [index] |];
    rewrite coerce_all_index, dated_index; reflexivity.
Qed.

Lemma not_numeric_column n :
  n ∉ numeric_columns <->
  n <> "Age" /\ n <> "Satisfaction_Rate" /\ n <> "Customer_Tenure_in_months" /\
  n <> "Unit_Price" /\ n <> "Number_of_Times_Purchased" /\ n <> "Total_Revenue" /\
  n <> "Data_Usage".
Proof.
  unfold numeric_columns. rewrite !not_elem_of_cons. split.
  - intros H. repeat destruct H as [? H]. repeat split; assumption.
  - intros H. repeat destruct H as [? H]. repeat split; try assumption.
    apply not_elem_of_nil.
Qed.

Lemma prepare_status d :
  columns (foldl (coerce_column parse_number) (dated to_datetime d) numeric_columns)
    !! "Customer_Churn_Status" = columns d !! "Customer_Churn_Status".
Proof.
  rewrite coerce_all_lookup.
  destruct (decide ("Customer_Churn_Status" ∈ numeric_columns)) as [H | H].
  - exfalso. revert H. apply not_numeric_column. repeat split; discriminate.
  - apply dated_lookup. discriminate.
Qed.

Lemma prepare_flags d c :
  columns d !! "Customer_Churn_Status" = Some c ->
  columns (_prepare_data parse_number to_datetime d) !! "Churn_Binary" =
  Some (NumCol (fillna 0%Q (series_map churn_status_map c))).
Proof.
  intros Hc. rewrite prepare_unfold. cbv zeta. rewrite prepare_status, Hc.
  unfold setitem; cbn [columns]. apply lookup_insert_eq.
Qed.

Lemma prepare_lookup d n :
  n <> "Churn_Binary" -> n <> "Date_of_Purchase" ->
  columns (_prepare_data parse_number to_datetime d) !! n =
  if decide (n ∈ numeric_columns) then to_numeric parse_number <$> columns d !! n
  else columns d !! n.
Proof.
  intros H1 H2. rewrite prepare_unfold. cbv zeta.
  destruct (columns _ !! "Customer_Churn_Status"); [unfold setitem; cbn [columns] |];
    rewrite ?lookup_insert_ne by congruence;
    rewrite coerce_all_lookup, dated_lookup by assumption; reflexivity.
Qed.

End PrepareFacts.

(** ** The churn flag *)

Lemma length_column_cells c : length (column_cells c) = column_length c.
Proof. destruct c; simpl; apply length_map. Qed.

Lemma length_column_keys c : length (column_keys c) = column_length c.
Proof. destruct c; simpl; apply length_map. Qed.

Lemma length_notna c : length (notna c) = column_length c.
Proof. unfold notna. rewrite length_map. apply length_column_keys. Qed.

Lemma fillna_series_map c :
  fillna 0%Q (series_map churn_status_map c) =
  (fun s => Some (churn_flag s)) <$> column_cells c.
Proof.
  unfold fillna, series_map. rewrite map_map. reflexivity.
Qed.

Lemma churn_flag_cases s : churn_flag s = 0%Q \/ churn_flag s = 1%Q.
Proof.
  unfold churn_flag, churn_status_map. cbn [dict_get].
  repeat (match goal with |- context [if ?b then _ else _] => destruct b end;
          simpl; auto).
Qed.

Lemma churn_flags_binary (cells : list pyval) :
  Forall binary ((fun s => Some (churn_flag s)) <$> cells).
Proof.
  apply Forall_fmap, Forall_forall. intros s _. unfold binary. simpl.
  destruct (churn_flag_cases s) as [-> | ->]; auto.
Qed.

Lemma count_true_cons b m : count_true (b :: m) = (if b then 1 else 0) + count_true m.
Proof.
  unfold count_true. rewrite filter_cons. destruct b; reflexivity.
Qed.

Lemma count_true_nil : count_true [] = 0.
Proof. reflexivity. Qed.

(** A column of flags splits into the rows that compare equal to 1 and
    the rows that compare equal to 0. *)
Lemma binary_split (flags : list (option Q)) :
  Forall binary flags ->
  count_true (eq_mask (NumCol flags) (PNum 1)) +
  count_true (eq_mask (NumCol flags) (PNum 0)) = length flags.
Proof.
  induction 1 as [| x flags Hx _ IH]; [reflexivity |].
  unfold eq_mask in *. cbn [column_cells map] in *.
  rewrite !count_true_cons.
  destruct Hx as [-> | ->]; simpl; lia.
Qed.

(** C2.  The derived flag is 0 or 1: the statuses "Churned", "Yes" and
    true give 1, the statuses "Active", "No" and false give 0, and so does
    a missing status or any status that is none of the three churned
    ones; hence the rows with flag 1 and the rows with flag 0 add up to
    all the rows of the table. *)
Theorem churn_binary_flag (parse_number : string -> option Q)
    (to_datetime : column -> column) (raw : DataFrame) (c : column) :
  df_wf raw ->
  columns raw !! "Customer_Churn_Status" = Some c ->
  let d := _prepare_data parse_number to_datetime raw in
  let flags := (fun s => Some (churn_flag s)) <$> column_cells c in
  columns d !! "Churn_Binary" = Some (NumCol flags) /\
  (forall s, churn_flag s = 0%Q \/ churn_flag s = 1%Q) /\
  (churn_flag (PStr "Churned") = 1%Q /\ churn_flag (PStr "Yes") = 1%Q /\
   churn_flag (PBool true) = 1%Q) /\
  (churn_flag (PStr "Active") = 0%Q /\ churn_flag (PStr "No") = 0%Q /\
   churn_flag (PBool false) = 0%Q /\ churn_flag PNan = 0%Q) /\
  (forall s, py_eqb (PStr "Churned") s = false -> py_eqb (PStr "Yes") s = false ->
             py_eqb (PBool true) s = false -> churn_flag s = 0%Q) /\
  count_true (eq_mask (NumCol flags) (PNum 1)) +
  count_true (eq_mask (NumCol flags) (PNum 0)) = index d.
Proof.
  intros Hwf Hc d flags. subst d flags.
  split; [| split; [| split; [| split; [| split]]]].
  - rewrite (prepare_flags _ _ _ _ Hc), fillna_series_map. reflexivity.
  - apply churn_flag_cases.
  - repeat split; reflexivity.
  - repeat split; reflexivity.
  - intros s H1 H2 H3. unfold churn_flag, churn_status_map. cbn [dict_get].
    rewrite H1, H2, H3.
    repeat (match goal with |- context [if ?b then _ else _] => destruct b end;
            simpl; auto).
  - rewrite binary_split by apply churn_flags_binary.
    rewrite length_fmap, length_column_cells, prepare_index.
    apply (Hwf _ _ Hc).
Qed.

Lemma sample_source_wf : df_wf sample_source.
Proof. refine (bool_decide_unpack _ _). vm_compute. exact I. Qed.

Lemma churn_binary_flag_witness :
  columns sample_table !! "Churn_Binary" = Some (NumCol [Some 0; Some 1; Some 0]%Q) /\
  count_true (eq_mask (NumCol [Some 0; Some 1; Some 0]%Q) (PNum 1)) +
  count_true (eq_mask (NumCol [Some 0; Some 1; Some 0]%Q) (PNum 0)) = 3.
Proof.
  pose proof (churn_binary_flag no_parse keep_dates sample_source
                (StrCol [Some "No"; Some "Yes"; Some "No"])
                sample_source_wf eq_refl) as H.
  cbv zeta in H. destruct H as (Hflags & _ & _ & _ & _ & Hcount).
  split; [exact Hflags | exact Hcount].
Defined.

(** ** Loaded tables *)

Lemma take_map {A B} (f : A -> B) mask (l : list A) :
  take mask (map f l) = map f (take mask l).
Proof.
  revert l. induction mask as [| b mask IH]; intros [| x l]; simpl; try reflexivity.
  destruct b; simpl; rewrite IH; reflexivity.
Qed.

Lemma numeric_take name mask c :
  numeric name (column_take mask c) = (v ← numeric name c; Ok (take mask v)).
Proof. destruct c; simpl; try reflexivity. rewrite take_map. reflexivity. Qed.

Lemma getitem_loc mask d n :
  getitem (loc mask d) n = (c ← getitem d n; Ok (column_take mask c)).
Proof.
  unfold getitem, loc. cbn [columns]. rewrite lookup_fmap.
  destruct (columns d !! n); reflexivity.
Qed.

Lemma getnum_loc mask d n :
  getnum (loc mask d) n = (v ← getnum d n; Ok (take mask v)).
Proof.
  unfold getnum. rewrite getitem_loc.
  destruct (getitem d n) as [c | e]; simpl; [apply numeric_take | reflexivity].
Qed.

Lemma getnum_lookup d n c :
  columns d !! n = Some c -> getnum d n = numeric n c.
Proof. intros H. unfold getnum, getitem. rewrite H. reflexivity. Qed.

Lemma numeric_to_numeric parse n c :
  exists v, numeric n (to_numeric parse c) = Ok v /\ length v = column_length c.
Proof.
  destruct c; simpl; eexists; (split; [reflexivity |]); rewrite ?length_map; reflexivity.
Qed.

Lemma prepare_date parse_number to_datetime d :
  columns (_prepare_data parse_number to_datetime d) !! "Date_of_Purchase" =
  to_datetime <$> columns d !! "Date_of_Purchase".
Proof.
  rewrite prepare_unfold. cbv zeta.
  destruct (columns _ !! "Customer_Churn_Status"); [unfold setitem; cbn [columns] |];
    rewrite ?lookup_insert_ne by discriminate;
    rewrite coerce_all_lookup;
    (rewrite decide_False
       by (apply not_numeric_column; repeat split; discriminate));
    unfold dated;
    (destruct (columns d !! "Date_of_Purchase") as [c0 |] eqn:E;
       [unfold setitem; cbn [columns]; rewrite lookup_insert_eq | rewrite E]);
    reflexivity.
Qed.

Section Loaded.
Variable parse_number : string -> option Q.
Variable to_datetime : column -> column.
Variables raw d : DataFrame.
Hypothesis Hload : loads_to parse_number to_datetime raw d.

Lemma loaded_index : index d = index raw.
Proof. destruct Hload as (_ & _ & _ & _ & ->). apply prepare_index. Qed.

Lemma loaded_expected n : n ∈ expected_columns -> is_Some (columns raw !! n).
Proof.
  destruct Hload as (_ & _ & _ & H & _). rewrite Forall_forall in H. apply H.
Qed.

Lemma loaded_flags :
  exists c, columns raw !! "Customer_Churn_Status" = Some c /\
    columns d !! "Churn_Binary" =
      Some (NumCol ((fun s => Some (churn_flag s)) <$> column_cells c)).
Proof.
  destruct (loaded_expected "Customer_Churn_Status") as [c Hc].
  { unfold expected_columns. set_solver. }
  exists c. split; [exact Hc |].
  destruct Hload as (_ & _ & _ & _ & ->).
  rewrite (prepare_flags _ _ _ _ Hc), fillna_series_map. reflexivity.
Qed.

Lemma loaded_getnum_flags :
  exists flags, columns d !! "Churn_Binary" = Some (NumCol flags) /\
    getnum d "Churn_Binary" = Ok flags /\
    Forall binary flags /\ length flags = index d.
Proof.
  destruct loaded_flags as (c & Hc & Hd).
  eexists. split; [exact Hd |]. split; [| split].
  - rewrite (getnum_lookup _ _ _ Hd). reflexivity.
  - apply churn_flags_binary.
  - rewrite length_fmap, length_column_cells, loaded_index.
    destruct Hload as (Hwf & _). apply (Hwf _ _ Hc).
Qed.

Lemma loaded_numeric n :
  n ∈ numeric_columns -> n ∈ expected_columns ->
  exists v, getnum d n = Ok v /\ length v = index d.
Proof.
  intros Hn He. destruct (loaded_expected n He) as [c Hc].
  assert (Hd : columns d !! n = Some (to_numeric parse_number c)).
  { destruct Hload as (_ & _ & _ & _ & ->). rewrite prepare_lookup.
    - rewrite decide_True by assumption. rewrite Hc. reflexivity.
    - intros ->. revert Hn. apply not_numeric_column. repeat split; discriminate.
    - intros ->. revert Hn. apply not_numeric_column. repeat split; discriminate. }
  destruct (numeric_to_numeric parse_number n c) as (v & Hv & Hlen).
  exists v. split.
  - rewrite (getnum_lookup _ _ _ Hd). exact Hv.
  - rewrite Hlen, loaded_index. destruct Hload as (Hwf & _). apply (Hwf _ _ Hc).
Qed.

Lemma loaded_text n :
  n ∉ numeric_columns -> n <> "Churn_Binary" -> n <> "Date_of_Purchase" ->
  columns d !! n = columns raw !! n.
Proof.
  intros Hn H1 H2. destruct Hload as (_ & _ & _ & _ & ->).
  rewrite prepare_lookup by assumption. rewrite decide_False by assumption. reflexivity.
Qed.

Lemma loaded_wf : df_wf d.
Proof.
  intros n c Hc. simpl.
  destruct loaded_getnum_flags as (flags & Hf & _ & _ & Hlen).
  destruct (decide (n = "Churn_Binary")) as [-> | H1].
  { rewrite Hf in Hc. injection Hc as <-. exact Hlen. }
  rewrite loaded_index.
  destruct Hload as (Hwf & _ & Hdt & _ & Hd).
  destruct (decide (n = "Date_of_Purchase")) as [-> | H2].
  - rewrite Hd, prepare_date in Hc.
    destruct (columns raw !! "Date_of_Purchase") as [c0 |] eqn:E; [| discriminate].
    injection Hc as <-. rewrite Hdt. apply (Hwf _ _ E).
  - rewrite Hd, prepare_lookup in Hc by assumption.
    destruct (decide (n ∈ numeric_columns)).
    + destruct (columns raw !! n) as [c0 |] eqn:E; [| discriminate].
      injection Hc as <-. rewrite to_numeric_length. apply (Hwf _ _ E).
    + apply (Hwf _ _ Hc).
Qed.
End Loaded.

(** ** The KPI summary *)

Lemma nansum_cons_some q l : nansum (Some q :: l) = (q + nansum l)%Q.
Proof. reflexivity. Qed.

Lemma nansum_cons_none l : nansum (None :: l) = nansum l.
Proof. reflexivity. Qed.

Lemma eq_mask_num_cons x l y :
  eq_mask (NumCol (x :: l)) (PNum y) =
  match x with Some q => Qeq_bool q y | None => false end :: eq_mask (NumCol l) (PNum y).
Proof. unfold eq_mask. simpl. destruct x; reflexivity. Qed.

Lemma binary_sum (flags : list (option Q)) :
  Forall binary flags ->
  nansum flags = inject_Z (Z.of_nat (count_true (eq_mask (NumCol flags) (PNum 1)))).
Proof.
  induction 1 as [| x flags Hx _ IH]; [reflexivity |].
  rewrite eq_mask_num_cons, count_true_cons.
  destruct Hx as [-> | ->]; rewrite nansum_cons_some, IH;
    unfold Qplus, inject_Z; cbn [Qnum Qden]; f_equal; simpl; lia.
Qed.

Lemma count_true_le (m : list bool) : count_true m <= length m.
Proof.
  induction m as [| b m IH]; [reflexivity |].
  rewrite count_true_cons. destruct b; simpl; lia.
Qed.

Lemma length_eq_mask c x : length (eq_mask c x) = column_length c.
Proof. unfold eq_mask. rewrite length_map. apply length_column_cells. Qed.

Lemma int_inject_Z z : int (inject_Z z) = z.
Proof. unfold int. simpl. apply Z.quot_1_r. Qed.

Lemma primary_kpis_body_eq d flags rev sat :
  columns d !! "Churn_Binary" = Some (NumCol flags) ->
  getnum d "Total_Revenue" = Ok rev ->
  getnum d "Satisfaction_Rate" = Ok sat ->
  primary_kpis_body d =
  Ok {| total_customers := index d;
        churned_customers := int (nansum flags);
        churn_rate :=
          fround2 (fmul (fdiv (nansum flags) (inject_Z (Z.of_nat (index d)))) 100);
        revenue_at_risk := np_sum (take (eq_mask (NumCol flags) (PNum 1)) rev);
        total_revenue := np_sum rev;
        revenue_risk_percentage :=
          fround2 (fmul (fquot (np_sum (take (eq_mask (NumCol flags) (PNum 1)) rev))
                           (np_sum rev)) 100);
        avg_satisfaction := oround2 (nanmean sat);
        active_customers := (Z.of_nat (index d) - int (nansum flags))%Z |}.
Proof.
  intros Hf Hrev Hsat. unfold primary_kpis_body.
  rewrite (getnum_lookup _ _ _ Hf). cbn [numeric mbind res_bind].
  unfold getitem at 1. rewrite Hf. cbn [mbind res_bind].
  rewrite getnum_loc, Hrev. cbn [mbind res_bind]. rewrite Hsat. reflexivity.
Qed.

Lemma sample_loads : loads_to no_parse keep_dates sample_source sample_table.
Proof.
  split; [exact sample_source_wf |].
  split; [refine (bool_decide_unpack _ _); vm_compute; exact I |].
  split; [reflexivity |]. split; [| reflexivity].
  refine (bool_decide_unpack _ _). vm_compute. exact I.
Qed.

(** C1 (as amended).  On a loaded table the KPI summary holds: the
    number of rows as total; the sum of the churn flags as churned count;
    as churn rate the float quotient churned / total, times 100, rounded
    to 2 decimals by numpy, every step in binary64, which is a number
    between 0 and 100 when the table has a row (for a table with no row
    the quotient is the float 0/0); the float sum of the revenue over the
    rows whose flag is 1 as revenue at risk; and total minus churned as
    active count. *)
Theorem primary_kpis_summary (parse_number : string -> option Q)
    (to_datetime : column -> column) (raw d : DataFrame) (a : MTNChurnAnalysis) :
  loads_to parse_number to_datetime raw d ->
  df a = Some d ->
  exists k flags rev,
    calculate_primary_kpis a =
      (Some k, print (Success "Primary KPIs calculated")
                 (store "primary_kpis" (PrimaryKpis k) a)) /\
    columns d !! "Churn_Binary" = Some (NumCol flags) /\
    Forall binary flags /\
    getnum d "Total_Revenue" = Ok rev /\
    total_customers k = index d /\
    inject_Z (churned_customers k) = nansum flags /\
    churn_rate k =
      fround2 (fmul (fdiv (nansum flags) (inject_Z (Z.of_nat (index d)))) 100) /\
    (0 < index d -> exists q, churn_rate k = Fin q /\ (0 <= q <= 100)%Q) /\
    revenue_at_risk k = np_sum (take (eq_mask (NumCol flags) (PNum 1)) rev) /\
    active_customers k = (Z.of_nat (total_customers k) - churned_customers k)%Z.
Proof.
  intros Hload Hdf.
  destruct (loaded_getnum_flags _ _ _ _ Hload) as (flags & Hcol & _ & Hbin & Hlen).
  destruct (loaded_numeric _ _ _ _ Hload "Total_Revenue") as (rev & Hrev & _);
    [unfold numeric_columns; set_solver | unfold expected_columns; set_solver |].
  destruct (loaded_numeric _ _ _ _ Hload "Satisfaction_Rate") as (sat & Hsat & _);
    [unfold numeric_columns; set_solver | unfold expected_columns; set_solver |].
  pose proof (primary_kpis_body_eq d flags rev sat Hcol Hrev Hsat) as Hbody.
  eexists _, flags, rev. split.
  { unfold calculate_primary_kpis, the_df. rewrite Hdf. cbn [mbind res_bind].
    rewrite Hbody. reflexivity. }
  cbn [total_customers churned_customers churn_rate revenue_at_risk active_customers].
  repeat split; try assumption.
  - rewrite (binary_sum flags Hbin), int_inject_Z. reflexivity.
  - intros Hpos. apply risk_percentage_range.
    + rewrite (binary_sum flags Hbin). split.
      * change 0%Q with (inject_Z 0). rewrite <- Zle_Qle. lia.
      * rewrite <- Zle_Qle. apply Nat2Z.inj_le.
        etransitivity; [apply count_true_le |].
        rewrite length_eq_mask. cbn [column_length]. rewrite Hlen. reflexivity.
    + change 0%Q with (inject_Z 0). rewrite <- Zlt_Qlt. lia.
Qed.

Lemma primary_kpis_summary_witness :
  exists k, (calculate_primary_kpis sample_analyzer).1 = Some k /\
    total_customers k = 3 /\ churned_customers k = 1%Z /\
    churn_rate k = f64 (3333 # 100) /\ active_customers k = 2%Z.
Proof.
  destruct (primary_kpis_summary no_parse keep_dates sample_source sample_table
              sample_analyzer sample_loads eq_refl)
    as (k & flags & rev & Hk & _).
  exists k. split; [rewrite Hk; reflexivity |].
  assert (E : (calculate_primary_kpis sample_analyzer).1 =
              Some {| total_customers := 3; churned_customers := 1;
                      churn_rate := f64 (3333 # 100); revenue_at_risk := f64 50;
                      total_revenue := f64 175;
                      revenue_risk_percentage := f64 (2857 # 100);
                      avg_satisfaction := Some (367 # 100);
                      active_customers := 2 |}) by (vm_compute; reflexivity).
  rewrite Hk in E. cbn [fst] in E. injection E as ->.
  repeat split; reflexivity.
Defined.

Lemma large_source_wf : df_wf large_source.
Proof. refine (bool_decide_unpack _ _). vm_compute. exact I. Qed.

Lemma large_loads : loads_to no_parse keep_dates large_source large_table.
Proof.
  split; [exact large_source_wf |].
  split; [refine (bool_decide_unpack _ _); vm_compute; exact I |].
  split; [reflexivity |]. split; [| reflexivity].
  refine (bool_decide_unpack _ _). vm_compute. exact I.
Qed.

(** The rate is not the quotient rounded exactly.  Of 160 customers 23
    have left: churned / total x 100 is 14.375, which rounds to 14.38;
    the float quotient times 100 is 14.374999999999998, and the summary
    holds the float 14.37. *)
Lemma primary_kpis_summary_counterexample :
  loads_to no_parse keep_dates large_source large_table /\
  exists k, (calculate_primary_kpis large_analyzer).1 = Some k /\
    total_customers k = 160 /\ churned_customers k = 23%Z /\
    (round2 (23 / 160 * 100) == 1438 # 100)%Q /\
    churn_rate k = f64 (1437 # 100) /\
    churn_rate k <> f64 (1438 # 100).
Proof.
  split; [exact large_loads |].
  assert (E : exists k, (calculate_primary_kpis large_analyzer).1 = Some k /\
                total_customers k = 160 /\ churned_customers k = 23%Z /\
                churn_rate k = f64 (1437 # 100)).
  { eexists. split; [vm_compute; reflexivity |]. repeat split. }
  destruct E as (k & Hk & Ht & Hc & Hr). exists k.
  split; [exact Hk |]. split; [exact Ht |]. split; [exact Hc |].
  split; [reflexivity |]. split; [exact Hr |].
  rewrite Hr. vm_compute. discriminate.
Qed.

(** ** The predictive metrics *)

Lemma length_take {A} (mask : list bool) (l : list A) :
  length mask <= length l -> length (take mask l) = count_true mask.
Proof.
  revert l. induction mask as [| b mask IH]; intros [| x l] Hlen; simpl in *;
    try reflexivity; try lia.
  rewrite count_true_cons. destruct b; simpl; rewrite IH by lia; reflexivity.
Qed.

Lemma take_binary mask (flags : list (option Q)) :
  Forall binary flags -> Forall binary (take mask flags).
Proof.
  intros H. revert mask. induction H as [| x flags Hx _ IH]; intros [| b mask]; simpl;
    try constructor.
  destruct b; [constructor; [exact Hx | apply IH] | apply IH].
Qed.

Lemma dropna_binary (flags : list (option Q)) :
  Forall binary flags -> length (dropna flags) = length flags.
Proof.
  induction 1 as [| x flags Hx _ IH]; [reflexivity |].
  destruct Hx as [-> | ->]; simpl; f_equal; exact IH.
Qed.

(** The mean of a non-empty column of flags is the float quotient of
    the number of ones by the number of cells. *)
Lemma flag_mean_binary (flags : list (option Q)) :
  Forall binary flags -> 0 < length flags ->
  flag_mean flags =
  cell (fdiv (inject_Z (Z.of_nat (count_true (eq_mask (NumCol flags) (PNum 1)))))
             (inject_Z (Z.of_nat (length flags)))).
Proof.
  intros Hb Hlen. unfold flag_mean.
  pose proof (dropna_binary flags Hb) as Hd.
  pose proof (binary_sum flags Hb) as Hs. unfold nansum in Hs.
  destruct (dropna flags) as [| x v] eqn:E; [simpl in Hd; lia |].
  rewrite Hs, Hd. reflexivity.
Qed.

(** The rate of a cohort that has a row: the float mean of its flags,
    times 100, rounded to 2 decimals, is a number. *)
Lemma flag_rate_some (flags : list (option Q)) :
  Forall binary flags -> 0 < length flags ->
  is_Some (cell_round2 (cell_mul (flag_mean flags) 100)).
Proof.
  intros Hb Hlen. rewrite (flag_mean_binary flags Hb Hlen).
  set (c := count_true (eq_mask (NumCol flags) (PNum 1))).
  assert (Hc : c <= length flags).
  { unfold c. etransitivity; [apply count_true_le |]. rewrite length_eq_mask. reflexivity. }
  destruct (fdiv_unit (inject_Z (Z.of_nat c)) (inject_Z (Z.of_nat (length flags))))
    as (m & Em & Hm).
  { split.
    - change 0%Q with (inject_Z 0). rewrite <- Zle_Qle. lia.
    - rewrite <- Zle_Qle. lia. }
  { change 0%Q with (inject_Z 0). rewrite <- Zlt_Qlt. lia. }
  rewrite Em. cbn [cell cell_mul mbind option_bind].
  destruct (fmul_between 0 1 100 m ltac:(lia) ltac:(lia) ltac:(reflexivity) Hm)
    as (y & Ey & Hy).
  change (inject_Z 100) with 100%Q in Ey. rewrite Ey. cbn [cell cell_round2 mbind option_bind].
  destruct (fround2_between 0 100 y ltac:(lia) ltac:(reflexivity) Hy) as (r & Er & _).
  rewrite Er. eexists. reflexivity.
Qed.

Lemma length_cmp_mask p v : length (cmp_mask p v) = length v.
Proof. apply length_map. Qed.

Lemma predictive_body_eq d sat rev ten flags :
  getnum d "Satisfaction_Rate" = Ok sat ->
  getnum d "Total_Revenue" = Ok rev ->
  getnum d "Customer_Tenure_in_months" = Ok ten ->
  getnum d "Churn_Binary" = Ok flags ->
  let at_risk := cmp_mask (fun q => Qle_bool q 2) sat in
  let new := cmp_mask (fun q => Qlt_bool q 6) ten in
  let high := zip_with andb (ge_mask rev (quantile (3 # 4) rev)) at_risk in
  predictive_body d =
  Ok {| at_risk_count := count_true at_risk;
        at_risk_revenue := np_sum (take at_risk rev);
        new_customer_churn_rate :=
          cell_round2 (if bool_decide (0 < count_true new)
                       then cell_mul (flag_mean (take new flags)) 100
                       else Some 0%Q);
        high_value_at_risk_count := count_true high;
        high_value_at_risk_revenue := np_sum (take high rev) |}.
Proof.
  intros Hsat Hrev Hten Hf. cbv zeta. unfold predictive_body.
  rewrite Hsat. cbn [mbind res_bind].
  rewrite getnum_loc, Hrev. cbn [mbind res_bind].
  rewrite Hten. cbn [mbind res_bind].
  rewrite !getnum_loc, Hf, Hrev. cbn [mbind res_bind loc index].
  destruct (bool_decide (0 < count_true _)); reflexivity.
Qed.

(** No cell of the tenure column is below 6 (a NaN cell is not below 6). *)
Lemma empty_cohort_mask (ten : list (option Q)) :
  Forall (fun x => forall q, x = Some q -> (6 <= q)%Q) ten ->
  count_true (cmp_mask (fun q => Qlt_bool q 6) ten) = 0.
Proof.
  induction 1 as [| x ten Hx _ IH]; [reflexivity |].
  unfold cmp_mask in *. cbn [map]. rewrite count_true_cons, IH.
  destruct x as [q |]; [| reflexivity].
  unfold Qlt_bool. rewrite (proj2 (Qle_bool_iff 6 q) (Hx q eq_refl)). reflexivity.
Qed.

(** C9.  On a loaded table the predictive metrics are always produced and
    the new-customer churn rate is always a number: the mean over the
    cohort is taken only when the cohort has a row.  When no row has a
    tenure below 6 months the rate is 0. *)
Theorem new_customer_rate_guarded (parse_number : string -> option Q)
    (to_datetime : column -> column) (raw d : DataFrame) (a : MTNChurnAnalysis) :
  loads_to parse_number to_datetime raw d ->
  df a = Some d ->
  exists p ten,
    predictive_analytics a =
      (Some p, print (Success "Predictive analytics completed")
                 (store "predictive_analytics" (PredictiveAnalytics p) a)) /\
    getnum d "Customer_Tenure_in_months" = Ok ten /\
    is_Some (new_customer_churn_rate p) /\
    (Forall (fun x => forall q, x = Some q -> (6 <= q)%Q) ten ->
     exists q, new_customer_churn_rate p = Some q /\ (q == 0)%Q).
Proof.
  intros Hload Hdf.
  destruct (loaded_getnum_flags _ _ _ _ Hload) as (flags & _ & Hf & Hbin & Hlenf).
  destruct (loaded_numeric _ _ _ _ Hload "Total_Revenue") as (rev & Hrev & _);
    [unfold numeric_columns; set_solver | unfold expected_columns; set_solver |].
  destruct (loaded_numeric _ _ _ _ Hload "Satisfaction_Rate") as (sat & Hsat & _);
    [unfold numeric_columns; set_solver | unfold expected_columns; set_solver |].
  destruct (loaded_numeric _ _ _ _ Hload "Customer_Tenure_in_months")
    as (ten & Hten & Hlent);
    [unfold numeric_columns; set_solver | unfold expected_columns; set_solver |].
  pose proof (predictive_body_eq d sat rev ten flags Hsat Hrev Hten Hf) as Hbody.
  cbv zeta in Hbody.
  eexists _, ten. split.
  { unfold predictive_analytics, the_df. rewrite Hdf. cbn [mbind res_bind].
    rewrite Hbody. reflexivity. }
  split; [exact Hten |]. cbn [new_customer_churn_rate]. split.
  - destruct (bool_decide (0 < count_true _)) eqn:E; [| eexists; reflexivity].
    apply bool_decide_eq_true in E. apply flag_rate_some.
    + apply take_binary, Hbin.
    + rewrite length_take; [exact E |]. rewrite length_cmp_mask. lia.
  - intros Hempty. rewrite (empty_cohort_mask ten Hempty).
    eexists. split; [reflexivity | reflexivity].
Qed.

Lemma veteran_loads : loads_to no_parse keep_dates veteran_source veteran_table.
Proof.
  split; [refine (bool_decide_unpack _ _); vm_compute; exact I |].
  split; [refine (bool_decide_unpack _ _); vm_compute; exact I |].
  split; [reflexivity |]. split; [| reflexivity].
  refine (bool_decide_unpack _ _). vm_compute. exact I.
Qed.

Lemma new_customer_rate_guarded_witness :
  exists p q, (predictive_analytics veteran_analyzer).1 = Some p /\
    new_customer_churn_rate p = Some q /\ (q == 0)%Q.
Proof.
  destruct (new_customer_rate_guarded no_parse keep_dates veteran_source veteran_table
              veteran_analyzer veteran_loads eq_refl)
    as (p & ten & Hp & Hten & _ & Hzero).
  assert (E : getnum veteran_table "Customer_Tenure_in_months" =
              Ok [Some 7; None; Some 40]%Q) by (vm_compute; reflexivity).
  rewrite E in Hten. injection Hten as <-.
  destruct Hzero as (q & Hq & Hq0).
  { repeat constructor; intros q [= <-]; discriminate. }
  exists p, q. rewrite Hp. repeat split; assumption.
Defined.

(** ** Age and tenure buckets *)

Lemma Qlt_bool_iff (a b : Q) : Qlt_bool a b = true <-> (a < b)%Q.
Proof.
  unfold Qlt_bool. rewrite negb_true_iff. split.
  - intros H. apply Qnot_le_lt. intros Hle. apply Qle_bool_iff in Hle. congruence.
  - intros H. destruct (Qle_bool b a) eqn:E; [| reflexivity].
    apply Qle_bool_iff in E. exfalso. apply (Qlt_not_le _ _ H E).
Qed.

(** The first tenure bucket is the interval (0, 6]. *)
Lemma first_tenure_bucket (x : Q) :
  cut_value tenure_bins tenure_labels x = Some "0-6 months" <-> (0 < x /\ x <= 6)%Q.
Proof.
  unfold tenure_bins, tenure_labels. cbn [cut_value].
  destruct (Qlt_bool 0 x) eqn:E0; cbn [andb].
  - apply Qlt_bool_iff in E0. destruct (Qle_bool x 6) eqn:E6.
    + apply Qle_bool_iff in E6. split; [intros _; split; assumption | reflexivity].
    + split.
      * repeat (destruct (_ && _); [discriminate |]). discriminate.
      * intros [_ H6]. apply Qle_bool_iff in H6. congruence.
  - split.
    + repeat (destruct (_ && _); [discriminate |]). discriminate.
    + intros [H0 _]. apply Qlt_bool_iff in H0. congruence.
Qed.

(** C4.  The ages 20, 30, 40 and 60 fall into "18-25", "26-35", "36-45"
    and "55+" with the edges 0/25/35/45/55/100, and the tenure edges are
    0/6/12/24/36/100; but a tenure of 0 falls into no bucket at all: the
    bucket labelled "0-6 months" is the interval (0, 6] and leaves out its
    left edge, so the row gets a missing tenure group. *)
Theorem tenure_zero_has_no_bucket :
  age_bins = [0; 25; 35; 45; 55; 100]%Q /\
  tenure_bins = [0; 6; 12; 24; 36; 100]%Q /\
  cut age_bins age_labels [Some 20; Some 30; Some 40; Some 60]%Q =
    CatCol age_labels [Some "18-25"; Some "26-35"; Some "36-45"; Some "55+"] /\
  cut_value tenure_bins tenure_labels 0 = None /\
  cut_value tenure_bins tenure_labels 0 <> Some "0-6 months" /\
  forall observed,
    columns (segmentation_body observed sample_table).1 !! "Tenure_Group" =
    Some (CatCol tenure_labels [None; Some "7-12 months"; Some "36+ months"]).
Proof.
  repeat split; try reflexivity. discriminate.
Qed.

(** ** Grouping *)

Lemma sum_list_fmap_add {A} (f g : A -> nat) (l : list A) :
  sum_list ((fun x => f x + g x) <$> l) = sum_list (f <$> l) + sum_list (g <$> l).
Proof. induction l as [| x l IH]; csimpl; [reflexivity | rewrite IH; lia]. Qed.

Lemma sum_list_fmap_zero {A} (l : list A) : sum_list ((fun _ => 0) <$> l) = 0.
Proof. induction l as [| x l IH]; csimpl; [reflexivity | exact IH]. Qed.

Lemma sum_list_fmap_ext {A} (f g : A -> nat) (l : list A) :
  (forall x, x ∈ l -> f x = g x) -> sum_list (f <$> l) = sum_list (g <$> l).
Proof.
  induction l as [| x l IH]; intros H; csimpl; [reflexivity |].
  rewrite (H x) by left. rewrite IH; [reflexivity |]. intros y Hy. apply H. right. exact Hy.
Qed.

(** Exactly one of pairwise different keys is a given member. *)
Lemma sum_indicator (ks : list key) (k0 : key) (n : nat) :
  NoDup ks -> k0 ∈ ks ->
  sum_list ((fun k => if decide (Some k0 = Some k) then n else 0) <$> ks) = n.
Proof.
  induction 1 as [| k ks Hk Hnd IH]; intros Hin; [inversion Hin |].
  csimpl. destruct (decide (Some k0 = Some k)) as [E | E].
  - injection E as <-.
    rewrite (sum_list_fmap_ext _ (fun _ => 0)), sum_list_fmap_zero; [lia |].
    intros y Hy. destruct (decide (Some k0 = Some y)) as [E' | ]; [| reflexivity].
    injection E' as <-. contradiction.
  - apply IH. inversion Hin; subst; [congruence | assumption].
Qed.

Lemma group_mask_cons x keys k :
  group_mask (x :: keys) k = bool_decide (x = Some k) :: group_mask keys k.
Proof. reflexivity. Qed.

(** The groups partition the rows that have a key. *)
Lemma groups_partition (ks : list key) (keys : list (option key)) (counted : list bool) :
  covers ks keys ->
  length keys = length counted ->
  sum_list ((fun k => count_true (take (group_mask keys k) counted)) <$> ks) =
  count_true (zip_with andb (map (fun x : option key => bool_decide (is_Some x)) keys) counted).
Proof.
  intros [Hnd Hcov]. revert counted.
  induction keys as [| x keys IH]; intros [| c counted] Hlen; simpl in Hlen; try lia.
  - csimpl. rewrite (sum_list_fmap_ext _ (fun _ => 0)), sum_list_fmap_zero; [reflexivity |].
    intros k _. reflexivity.
  - cbn [map zip_with]. rewrite count_true_cons.
    rewrite <- IH; [| intros k Hk; apply Hcov; right; exact Hk | lia].
    rewrite <- (sum_list_fmap_ext
      (fun k => (if decide (x = Some k) then (if c then 1 else 0) else 0) +
                count_true (take (group_mask keys k) counted))).
    + rewrite sum_list_fmap_add. f_equal.
      destruct x as [k0 |].
      * rewrite sum_indicator; [| exact Hnd | apply Hcov; left].
        rewrite bool_decide_true by (eexists; reflexivity). destruct c; reflexivity.
      * rewrite bool_decide_false by (intros [? ?]; discriminate).
        rewrite (sum_list_fmap_ext _ (fun _ => 0)), sum_list_fmap_zero; [reflexivity |].
        intros y _. destruct (decide (None = Some y)); [discriminate | reflexivity].
    + intros k _. rewrite group_mask_cons. cbn [take].
      destruct (decide (x = Some k)) as [E | E].
      * rewrite bool_decide_true by exact E. rewrite count_true_cons. reflexivity.
      * rewrite bool_decide_false by exact E. reflexivity.
Qed.

Lemma unique_keys_covers keys : covers (unique_keys keys) keys.
Proof.
  unfold unique_keys. split.
  - rewrite merge_sort_Permutation. apply NoDup_remove_dups.
  - intros k Hk. rewrite merge_sort_Permutation. apply elem_of_remove_dups.
    apply list_elem_of_omap. exists (Some k). split; [exact Hk | reflexivity].
Qed.

Lemma group_keys_covers observed c :
  closed c -> covers (group_keys observed c) (column_keys c).
Proof.
  destruct c as [v | v | v | cats v]; try (intros _; apply unique_keys_covers).
  intros [Hnd Hin]. cbn [group_keys].
  assert (Hks : NoDup (KStr <$> cats)).
  { apply NoDup_fmap_2_strong; [| exact Hnd]. intros x y _ _ [= ->]. reflexivity. }
  assert (Hall : forall k, Some k ∈ column_keys (CatCol cats v) -> k ∈ KStr <$> cats).
  { intros k Hk. cbn [column_keys] in Hk. apply list_elem_of_fmap in Hk.
    destruct Hk as ([l |] & E & Hl); [| discriminate]. injection E as ->.
    apply list_elem_of_fmap. exists l. split; [reflexivity |].
    rewrite Forall_forall in Hin. apply (Hin _ Hl). reflexivity. }
  destruct observed.
  - split; [apply NoDup_filter, Hks |].
    intros k Hk. apply list_elem_of_filter. split; [exact Hk | apply Hall, Hk].
  - split; assumption.
Qed.

Lemma cut_value_in bins labels x l :
  cut_value bins labels x = Some l -> l ∈ labels.
Proof.
  revert labels. induction bins as [| lo bins IH]; intros labels; [discriminate |].
  destruct bins as [| hi bins]; [discriminate |].
  destruct labels as [| lab labs]; [discriminate |].
  cbn [cut_value]. destruct (_ && _).
  - intros [= ->]. left.
  - intros H. right. apply (IH _ H).
Qed.

Lemma cut_closed bins labels v : NoDup labels -> closed (cut bins labels v).
Proof.
  intros Hnd. split; [exact Hnd |].
  apply Forall_forall. intros x Hx l ->.
  apply list_elem_of_fmap in Hx. destruct Hx as ([q |] & E & _); [| discriminate].
  simpl in E. symmetry in E. apply (cut_value_in _ _ _ _ E).
Qed.

(** ** Columns an assignment does not touch *)

Lemma getitem_setitem_ne d n c m :
  n <> m -> getitem (setitem d n c) m = getitem d m.
Proof.
  intros H. unfold getitem, setitem. cbn [columns].
  rewrite lookup_insert_ne by exact H. reflexivity.
Qed.

Lemma getitem_setitem_eq d n c : getitem (setitem d n c) n = Ok c.
Proof. unfold getitem, setitem. cbn [columns]. rewrite lookup_insert_eq. reflexivity. Qed.

Lemma getnum_setitem_ne d n c m :
  n <> m -> getnum (setitem d n c) m = getnum d m.
Proof. intros H. unfold getnum. rewrite getitem_setitem_ne by exact H. reflexivity. Qed.

Lemma opt_column_setitem_ne d n c w m :
  n <> m -> opt_column (setitem d n c) w m = opt_column d w m.
Proof.
  intros H. unfold opt_column. rewrite getnum_setitem_ne by exact H. reflexivity.
Qed.

Lemma groupby_summary_setitem observed d n c by_ counted wp ws :
  n <> by_ -> n <> counted -> n <> "Churn_Binary" -> n <> "Total_Revenue" ->
  n <> "Unit_Price" -> n <> "Satisfaction_Rate" ->
  groupby_summary observed (setitem d n c) by_ counted wp ws =
  groupby_summary observed d by_ counted wp ws.
Proof.
  intros. unfold groupby_summary.
  rewrite !getitem_setitem_ne, !getnum_setitem_ne, !opt_column_setitem_ne by assumption.
  reflexivity.
Qed.

Lemma groupby_summary_inv observed d by_ counted wp ws t :
  groupby_summary observed d by_ counted wp ws = Ok t ->
  exists kc cc cb rev price sat,
    columns d !! by_ = Some kc /\ columns d !! counted = Some cc /\
    getnum d "Churn_Binary" = Ok cb /\ getnum d "Total_Revenue" = Ok rev /\
    t = summary_rows observed kc cc cb rev price sat.
Proof.
  unfold groupby_summary, getitem.
  destruct (columns d !! by_) as [kc |]; [| discriminate].
  destruct (columns d !! counted) as [cc |]; [| discriminate].
  cbn [mbind res_bind].
  destruct (getnum d "Churn_Binary") as [cb |]; [| discriminate].
  destruct (getnum d "Total_Revenue") as [rev |]; [| discriminate].
  cbn [mbind res_bind].
  destruct (opt_column d wp "Unit_Price") as [price |]; [| discriminate].
  destruct (opt_column d ws "Satisfaction_Rate") as [sat |]; [| discriminate].
  cbn [mbind res_bind]. intros [= <-].
  exists kc, cc, cb, rev, price, sat. repeat split; try reflexivity.
  unfold summary_rows. rewrite <- !list_fmap_compose. reflexivity.
Qed.

Lemma table_total_summary_rows observed kc cc cb rev price sat :
  table_total (summary_rows observed kc cc cb rev price sat) =
  sum_list ((fun k => count_true (take (group_mask (column_keys kc) k) (notna cc)))
              <$> group_keys observed kc).
Proof.
  unfold table_total, summary_rows. rewrite <- list_fmap_compose. reflexivity.
Qed.

Lemma table_total_perm t t' : t ≡ₚ t' -> table_total t = table_total t'.
Proof. intros H. unfold table_total. rewrite H. reflexivity. Qed.

(** The per-group counts of a summary add up to the rows that have both
    a key and a counted cell. *)
Lemma summary_rows_total observed kc cc cb rev price sat :
  closed kc -> column_length kc = column_length cc ->
  table_total (summary_rows observed kc cc cb rev price sat) = counted_rows kc cc.
Proof.
  intros Hc Hlen. rewrite table_total_summary_rows.
  rewrite groups_partition.
  - reflexivity.
  - apply group_keys_covers, Hc.
  - rewrite length_column_keys, length_notna. exact Hlen.
Qed.

(** ** The grouped analyses *)

(** The library's switch matters for a categorical key only; the keys of
    the satisfaction, state and device breakdowns are read from the file
    and are never categorical. *)
Lemma group_keys_not_categorical observed observed' c :
  is_categorical c = false -> group_keys observed c = group_keys observed' c.
Proof. destruct c; [reflexivity .. | discriminate]. Qed.

Lemma and_then_ok {A B} d (r : res A) (k : A -> DataFrame * res B) d' b :
  and_then d r k = (d', Ok b) -> exists a, r = Ok a /\ k a = (d', Ok b).
Proof. destruct r as [a | e]; simpl; [eauto | discriminate]. Qed.

Lemma segmentation_body_inv observed d d' age tenure plan :
  segmentation_body observed d = (d', Ok (age, tenure, plan)) ->
  exists ages tens,
    getnum d "Age" = Ok ages /\
    getnum d "Customer_Tenure_in_months" = Ok tens /\
    d' = setitem (setitem d "Age_Group" (cut age_bins age_labels ages))
           "Tenure_Group" (cut tenure_bins tenure_labels tens) /\
    groupby_summary observed d' "Age_Group" "Customer_ID" false true = Ok age /\
    groupby_summary observed d' "Tenure_Group" "Customer_ID" false true = Ok tenure /\
    groupby_summary observed d' "Subscription_Plan" "Customer_ID" true true = Ok plan.
Proof.
  unfold segmentation_body. intros H.
  apply and_then_ok in H. destruct H as (ages & Hages & H).
  apply and_then_ok in H. destruct H as (a & Ha & H).
  apply and_then_ok in H. destruct H as (tens & Htens & H).
  apply and_then_ok in H. destruct H as (tn & Htn & H).
  apply and_then_ok in H. destruct H as (p & Hp & H).
  injection H as <- <- <- <-.
  rewrite getnum_setitem_ne in Htens by discriminate.
  exists ages, tens. repeat split; try assumption.
  rewrite groupby_summary_setitem by discriminate. exact Ha.
Qed.

Lemma sort_by_rate_perm t : sort_by_rate t ≡ₚ t.
Proof. apply merge_sort_Permutation. Qed.

(** Each of the six summary tables is, up to the order of its rows, what
    the shared group-by pattern gives on the frame the analysis leaves. *)
Lemma grouped_analysis_inv observed d d' by_ t :
  grouped_analysis observed d d' by_ t ->
  exists obs wp ws t0,
    groupby_summary obs d' by_ (counted_column by_) wp ws = Ok t0 /\ t ≡ₚ t0.
Proof.
  intros H. destruct H as [ct t H | t high avg H | t H
                          | d' age tenure plan H | d' age tenure plan H
                          | d' age tenure plan H].
  - unfold satisfaction_body in H.
    destruct (getitem d "Satisfaction_Rate"); [| discriminate].
    destruct (getitem d "Churn_Binary"); [| discriminate].
    cbn [mbind res_bind] in H.
    destruct (groupby_summary true d "Satisfaction_Rate" "Churn_Binary" false false)
      as [t0 |] eqn:E; [| discriminate].
    injection H as <- <-. exists true, false, false, t0. split; [exact E | reflexivity].
  - unfold geographic_body in H.
    destruct (groupby_summary true d "State" "Customer_ID" false true)
      as [t0 |] eqn:E; [| discriminate].
    injection H as <- <- <-. exists true, false, true, t0.
    split; [exact E | apply sort_by_rate_perm].
  - unfold device_body in H.
    destruct (groupby_summary true d "MTN_Device" "Customer_ID" true true)
      as [t0 |] eqn:E; [| discriminate].
    injection H as <-. exists true, true, true, t0.
    split; [exact E | apply sort_by_rate_perm].
  - apply segmentation_body_inv in H. destruct H as (? & ? & _ & _ & _ & H & _ & _).
    exists observed, false, true, age. split; [exact H | reflexivity].
  - apply segmentation_body_inv in H. destruct H as (? & ? & _ & _ & _ & _ & H & _).
    exists observed, false, true, tenure. split; [exact H | reflexivity].
  - apply segmentation_body_inv in H. destruct H as (? & ? & _ & _ & _ & _ & _ & H).
    exists observed, true, true, plan. split; [exact H | reflexivity].
Qed.

(** The frame an analysis leaves differs from the one it was given in the
    two derived columns at most. *)
Lemma grouped_analysis_frame observed d d' by_ t :
  grouped_analysis observed d d' by_ t ->
  d' = d \/
  exists ages tens,
    getnum d "Age" = Ok ages /\ getnum d "Customer_Tenure_in_months" = Ok tens /\
    d' = setitem (setitem d "Age_Group" (cut age_bins age_labels ages))
           "Tenure_Group" (cut tenure_bins tenure_labels tens).
Proof.
  intros H. destruct H as [ct t H | t high avg H | t H
                          | d' age tenure plan H | d' age tenure plan H
                          | d' age tenure plan H];
    try (left; reflexivity);
    right; apply segmentation_body_inv in H;
    destruct H as (ages & tens & Ha & Ht & Hd & _); exists ages, tens; auto.
Qed.

Lemma numeric_length n c v : numeric n c = Ok v -> length v = column_length c.
Proof.
  destruct c; simpl; intros [= <-]; rewrite ?length_map; reflexivity.
Qed.

Lemma getnum_length d n v :
  df_wf d -> getnum d n = Ok v -> length v = index d.
Proof.
  intros Hwf. unfold getnum, getitem.
  destruct (columns d !! n) as [c |] eqn:E; [| discriminate].
  cbn [mbind res_bind]. intros H. rewrite (numeric_length _ _ _ H). apply (Hwf _ _ E).
Qed.

Lemma setitem_wf d n c :
  df_wf d -> column_length c = index d -> df_wf (setitem d n c).
Proof.
  intros Hwf Hc. unfold df_wf, setitem. cbn [columns index].
  apply map_Forall_insert_2; assumption.
Qed.

Lemma length_cut bins labels v : column_length (cut bins labels v) = length v.
Proof. unfold cut. simpl. apply length_map. Qed.

Lemma closed_not_categorical c : is_categorical c = false -> closed c.
Proof. destruct c; simpl; [trivial .. | discriminate]. Qed.

Lemma age_labels_nodup : NoDup age_labels.
Proof. refine (bool_decide_unpack _ _). vm_compute. exact I. Qed.

Lemma tenure_labels_nodup : NoDup tenure_labels.
Proof. refine (bool_decide_unpack _ _). vm_compute. exact I. Qed.

Section LoadedGroups.
Variable parse_number : string -> option Q.
Variable to_datetime : column -> column.
Variables raw d : DataFrame.
Hypothesis Hload : loads_to parse_number to_datetime raw d.

Lemma loaded_closed n kc :
  n <> "Churn_Binary" -> n <> "Date_of_Purchase" ->
  columns d !! n = Some kc -> closed kc.
Proof.
  intros H1 H2 Hkc. destruct Hload as (_ & Hcsv & _ & _ & Hd).
  rewrite Hd, prepare_lookup in Hkc by assumption.
  destruct (decide (n ∈ numeric_columns)).
  - destruct (columns raw !! n) as [c |]; [| discriminate].
    injection Hkc as <-. destruct c; exact I.
  - apply closed_not_categorical. apply (Hcsv _ _ Hkc).
Qed.

(** What the frame left by a grouped analysis keeps of the loaded one. *)
Lemma grouped_frame observed d' by_ t :
  grouped_analysis observed d d' by_ t ->
  df_wf d' /\ index d' = index d /\
  columns d' !! "Churn_Binary" = columns d !! "Churn_Binary" /\
  columns d' !! "Customer_ID" = columns d !! "Customer_ID".
Proof.
  intros H. pose proof (loaded_wf _ _ _ _ Hload) as Hwf.
  destruct (grouped_analysis_frame _ _ _ _ _ H) as [-> | (ages & tens & Ha & Ht & ->)].
  - repeat split; [exact Hwf ..].
  - split; [| split; [reflexivity | split]].
    + apply setitem_wf; [apply setitem_wf; [exact Hwf |] |].
      * rewrite length_cut. apply (getnum_length _ _ _ Hwf Ha).
      * rewrite length_cut. apply (getnum_length _ _ _ Hwf Ht).
    + unfold setitem. cbn [columns]. rewrite !lookup_insert_ne by discriminate. reflexivity.
    + unfold setitem. cbn [columns]. rewrite !lookup_insert_ne by discriminate. reflexivity.
Qed.

Lemma grouped_key_closed observed d' by_ t kc :
  grouped_analysis observed d d' by_ t ->
  columns d' !! by_ = Some kc -> closed kc.
Proof.
  intros H Hkc.
  destruct H as [ct t H | t high avg H | t H
                | d' age tenure plan H | d' age tenure plan H
                | d' age tenure plan H].
  1-3: (eapply loaded_closed; [| | exact Hkc]; discriminate).
  all: apply segmentation_body_inv in H; destruct H as (ages & tens & _ & _ & -> & _);
    unfold setitem in Hkc; cbn [columns] in Hkc.
  - rewrite lookup_insert_ne, lookup_insert_eq in Hkc by discriminate.
    injection Hkc as <-. apply cut_closed, age_labels_nodup.
  - rewrite lookup_insert_eq in Hkc.
    injection Hkc as <-. apply cut_closed, tenure_labels_nodup.
  - rewrite !lookup_insert_ne in Hkc by discriminate.
    eapply loaded_closed; [| | exact Hkc]; discriminate.
Qed.

End LoadedGroups.

Lemma count_true_all (m : list bool) :
  Forall (fun b => b = true) m -> count_true m = length m.
Proof.
  induction 1 as [| b m -> _ IH]; [reflexivity |].
  rewrite count_true_cons, IH. reflexivity.
Qed.

Lemma zip_andb_all (m1 m2 : list bool) :
  Forall (fun b => b = true) m1 -> Forall (fun b => b = true) m2 ->
  length m1 = length m2 ->
  Forall (fun b => b = true) (zip_with andb m1 m2).
Proof.
  intros H. revert m2. induction H as [| b m1 -> _ IH]; intros [| c m2] H2 Hlen;
    simpl in *; try constructor; try lia.
  - inversion H2; subst. reflexivity.
  - apply IH; [inversion H2; assumption | lia].
Qed.

Lemma counted_rows_complete kc cc :
  complete kc -> complete cc -> column_length kc = column_length cc ->
  counted_rows kc cc = column_length kc.
Proof.
  intros Hk Hc Hlen. unfold counted_rows.
  rewrite count_true_all.
  - rewrite length_zip_with, !length_notna. lia.
  - apply zip_andb_all; [exact Hk | exact Hc |]. rewrite !length_notna. exact Hlen.
Qed.

(** C5.  In each of the six grouped analyses the per-group customer
    counts add up to the number of rows in which neither the group key nor
    the counted cell (the customer identifier; the churn flag in the
    satisfaction breakdown) is missing.  When the key column and the
    counted column have no missing cell, the counts add up to the number
    of rows of the table. *)
Theorem group_counts_total (parse_number : string -> option Q)
    (to_datetime : column -> column) (raw d : DataFrame)
    (observed : bool) (d' : DataFrame) (by_ : string) (t : list summary_row) :
  loads_to parse_number to_datetime raw d ->
  grouped_analysis observed d d' by_ t ->
  exists kc cc,
    columns d' !! by_ = Some kc /\
    columns d' !! counted_column by_ = Some cc /\
    table_total t = counted_rows kc cc /\
    (complete kc -> complete cc -> table_total t = index d).
Proof.
  intros Hload H.
  destruct (grouped_frame _ _ _ _ Hload _ _ _ _ H) as (Hwf & Hidx & _ & _).
  destruct (grouped_analysis_inv _ _ _ _ _ H) as (obs & wp & ws & t0 & Hsum & Hperm).
  destruct (groupby_summary_inv _ _ _ _ _ _ _ Hsum)
    as (kc & cc & cb & rev & price & sat & Hkc & Hcc & _ & _ & ->).
  assert (Hlen : column_length kc = column_length cc).
  { rewrite (Hwf _ _ Hkc), (Hwf _ _ Hcc). reflexivity. }
  assert (Htot : table_total t = counted_rows kc cc).
  { rewrite (table_total_perm _ _ Hperm). apply summary_rows_total; [| exact Hlen].
    apply (grouped_key_closed _ _ _ _ Hload _ _ _ _ _ H Hkc). }
  exists kc, cc. repeat split; try assumption.
  intros Hk Hc. rewrite Htot, counted_rows_complete by assumption.
  rewrite <- Hidx. apply (Hwf _ _ Hkc).
Qed.

(** ** Stored churn rates *)





Lemma round2_bounds (a b : Z) (q : Q) :
  (inject_Z a <= q <= inject_Z b)%Q -> (inject_Z a <= round2 q <= inject_Z b)%Q.
Proof.
  intros [Ha Hb]. unfold round2.
  assert (L : (a * 100 <= round_half_even (q * 100))%Z).
  { apply round_half_even_ge. rewrite inject_Z_mult. change (inject_Z 100) with 100%Q. nra. }
  assert (U : (round_half_even (q * 100) <= b * 100)%Z).
  { apply round_half_even_le. rewrite inject_Z_mult. change (inject_Z 100) with 100%Q. nra. }
  split; unfold Qle, inject_Z; cbn [Qnum Qden]; lia.
Qed.


(** ** Bounds *)



(** ** The properties on the example tables *)

Lemma blank_id_loads : loads_to no_parse keep_dates blank_id_source blank_id_table.
Proof.
  split; [refine (bool_decide_unpack _ _); vm_compute; exact I |].
  split; [refine (bool_decide_unpack _ _); vm_compute; exact I |].
  split; [reflexivity |]. split; [| reflexivity].
  refine (bool_decide_unpack _ _). vm_compute. exact I.
Qed.


Lemma group_counts_total_witness :
  exists t high avg,
    geographic_body sample_table = Ok (t, high, avg) /\ table_total t = 3.
Proof.
  destruct (geographic_body sample_table) as [[[t high] avg] | e] eqn:E;
    [| vm_compute in E; discriminate].
  destruct (group_counts_total no_parse keep_dates sample_source sample_table
              true sample_table "State" t sample_loads
              (by_state true sample_table t high avg E))
    as (kc & cc & Hkc & Hcc & _ & Hfull).
  exists t, high, avg. split; [reflexivity |].
  vm_compute in Hkc. injection Hkc as <-.
  vm_compute in Hcc. injection Hcc as <-.
  rewrite Hfull; [reflexivity | |]; repeat constructor.
Defined.

(** With a missing customer identifier the counts of the state groups
    add up to less than the number of rows, although every row has a
    state. *)
Lemma group_counts_counterexample :
  loads_to no_parse keep_dates blank_id_source blank_id_table /\
  exists t high avg kc,
    geographic_body blank_id_table = Ok (t, high, avg) /\
    columns blank_id_table !! "State" = Some kc /\
    grouped_analysis true blank_id_table blank_id_table "State" t /\
    complete kc /\
    table_total t = 2 /\ index blank_id_table = 3 /\
    table_total t <> index blank_id_table.
Proof.
  split; [exact blank_id_loads |].
  destruct (geographic_body blank_id_table) as [[[t high] avg] | e] eqn:E;
    [| vm_compute in E; discriminate].
  exists t, high, avg. eexists.
  split; [reflexivity |].
  split; [vm_compute; reflexivity |].
  split; [exact (by_state true blank_id_table t high avg E) |].
  split; [repeat constructor |].
  vm_compute in E. injection E as <- _ _.
  repeat split; [reflexivity .. | vm_compute; discriminate].
Qed.





(** ** The analyses do not read the derived columns *)

Lemma derived_index d d' : derived d d' -> index d' = index d.
Proof. destruct 1; reflexivity. Qed.

Lemma derived_lookup d d' n :
  derived d d' -> n <> "Age_Group" -> n <> "Tenure_Group" ->
  columns d' !! n = columns d !! n.
Proof.
  destruct 1; intros H1 H2; unfold setitem; cbn [columns];
    rewrite ?lookup_insert_ne by congruence; reflexivity.
Qed.











Lemma segmentation_body_stages observed d :
  segmentation_body observed d =
  and_then d (getnum d "Age") (fun ages =>
    segmentation_after_age observed (setitem d "Age_Group" (cut age_bins age_labels ages))).
Proof. reflexivity. Qed.

Lemma after_tenure_frame observed age d2 :
  (segmentation_after_tenure observed age d2).1 = d2.
Proof.
  unfold segmentation_after_tenure.
  destruct (groupby_summary observed d2 "Tenure_Group" _ _ _); [| reflexivity].
  cbn [and_then].
  destruct (groupby_summary observed d2 "Subscription_Plan" _ _ _); reflexivity.
Qed.

(** The frame the segmentation leaves. *)
Lemma segmentation_derived observed d : derived d (segmentation_body observed d).1.
Proof.
  rewrite segmentation_body_stages.
  destruct (getnum d "Age") as [ages | e]; [| apply derived_none].
  cbn [and_then]. unfold segmentation_after_age.
  destruct (groupby_summary observed _ "Age_Group" _ _ _); [| apply derived_age].
  cbn [and_then].
  destruct (getnum _ "Customer_Tenure_in_months"); [| apply derived_age].
  cbn [and_then]. rewrite after_tenure_frame. apply derived_both.
Qed.


(** ** What a full run stores *)

Lemma write_all_app l1 l2 m : write_all (l1 ++ l2) m = write_all l2 (write_all l1 m).
Proof. apply foldl_app. Qed.



(** ** The effect of each method on the analyzer *)

Section Effects.
Variable a : MTNChurnAnalysis.
Variable d : DataFrame.
Hypothesis Hdf : df a = Some d.

Lemma kpis_effect :
  df (calculate_primary_kpis a).2 = Some d /\
  analysis_results (calculate_primary_kpis a).2 =
    write_all (stored_by "primary_kpis" PrimaryKpis (primary_kpis_body d))
      (analysis_results a).
Proof.
  unfold calculate_primary_kpis, the_df. rewrite Hdf. cbn [mbind res_bind].
  destruct (primary_kpis_body d); split; try exact Hdf; reflexivity.
Qed.

Lemma satisfaction_effect :
  df (satisfaction_churn_analysis a).2 = Some d /\
  analysis_results (satisfaction_churn_analysis a).2 =
    write_all (stored_by "satisfaction_analysis"
                 (fun x : crosstab * list summary_row => SatisfactionAnalysis x.1 x.2)
                 (satisfaction_body d))
      (analysis_results a).
Proof.
  unfold satisfaction_churn_analysis, the_df. rewrite Hdf. cbn [mbind res_bind].
  destruct (satisfaction_body d) as [[ct s] |]; split; try exact Hdf; reflexivity.
Qed.

Lemma geographic_effect :
  df (geographic_analysis a).2 = Some d /\
  analysis_results (geographic_analysis a).2 =
    write_all (stored_by "geographic_analysis"
                 (fun x : list summary_row * list summary_row * option Q =>
                    GeographicAnalysis x.1.1 x.1.2 x.2)
                 (geographic_body d))
      (analysis_results a).
Proof.
  unfold geographic_analysis, the_df. rewrite Hdf. cbn [mbind res_bind].
  destruct (geographic_body d) as [[[g h] v] |]; split; try exact Hdf; reflexivity.
Qed.

Lemma device_effect :
  df (device_performance_analysis a).2 = Some d /\
  analysis_results (device_performance_analysis a).2 =
    write_all (stored_by "device_analysis" DeviceAnalysis (device_body d))
      (analysis_results a).
Proof.
  unfold device_performance_analysis, the_df. rewrite Hdf. cbn [mbind res_bind].
  destruct (device_body d); split; try exact Hdf; reflexivity.
Qed.

Lemma segmentation_effect observed :
  df (customer_segmentation_analysis observed a).2 =
    Some (segmentation_body observed d).1 /\
  analysis_results (customer_segmentation_analysis observed a).2 =
    write_all (stored_by "segmentation_analysis"
                 (fun x : list summary_row * list summary_row * list summary_row =>
                    SegmentationAnalysis x.1.1 x.1.2 x.2)
                 (segmentation_body observed d).2)
      (analysis_results a).
Proof.
  unfold customer_segmentation_analysis. rewrite Hdf.
  destruct (segmentation_body observed d) as [d' [[[g h] v] |]]; split; reflexivity.
Qed.

Lemma reasons_effect :
  df (churn_reasons_analysis a).2 = Some d /\
  analysis_results (churn_reasons_analysis a).2 =
    write_all (stored_reasons (churn_reasons_body d)) (analysis_results a).
Proof.
  unfold churn_reasons_analysis, the_df. rewrite Hdf. cbn [mbind res_bind].
  destruct (churn_reasons_body d) as [[t |] |]; split; try exact Hdf; reflexivity.
Qed.

Lemma predictive_effect :
  df (predictive_analytics a).2 = Some d /\
  analysis_results (predictive_analytics a).2 =
    write_all (stored_by "predictive_analytics" PredictiveAnalytics (predictive_body d))
      (analysis_results a).
Proof.
  unfold predictive_analytics, the_df. rewrite Hdf. cbn [mbind res_bind].
  destruct (predictive_body d); split; try exact Hdf; reflexivity.
Qed.

End Effects.

(** The frame and the dictionary a full run leaves. *)
Lemma run_all_effect observed a d :
  df a = Some d ->
  df (run_all observed a) = Some (segmentation_body observed d).1 /\
  analysis_results (run_all observed a) =
    write_all (stored observed d) (analysis_results a).
Proof.
  intros Hdf. unfold run_all. cbv zeta.
  destruct (kpis_effect a d Hdf) as [D1 R1].
  destruct (satisfaction_effect _ d D1) as [D2 R2].
  destruct (geographic_effect _ d D2) as [D3 R3].
  destruct (device_effect _ d D3) as [D4 R4].
  destruct (segmentation_effect _ d D4 observed) as [D5 R5].
  destruct (reasons_effect _ _ D5) as [D6 R6].
  destruct (predictive_effect _ _ D6) as [D7 R7].
  split; [exact D7 |].
  rewrite R7, R6, R5, R4, R3, R2, R1. unfold stored. cbv zeta.
  rewrite !write_all_app. reflexivity.
Qed.


(** ** The analyses succeed on a loaded table *)

(** A closed decidable statement, by evaluation. *)
Ltac decide_closed := refine (bool_decide_unpack _ _); vm_compute; exact I.

Lemma getnum_is_Some d n v : getnum d n = Ok v -> is_Some (columns d !! n).
Proof.
  unfold getnum, getitem. destruct (columns d !! n); [eauto | discriminate].
Qed.

Lemma loaded_ready parse_number to_datetime raw d :
  loads_to parse_number to_datetime raw d -> ready d.
Proof.
  intros Hload.
  assert (Hnum : forall n, n ∈ numeric_columns -> n ∈ expected_columns ->
                           exists v, getnum d n = Ok v).
  { intros n H1 H2. destruct (loaded_numeric _ _ _ _ Hload n H1 H2) as (v & Hv & _).
    eauto. }
  assert (Htxt : forall n, n ∈ expected_columns -> n ∉ numeric_columns ->
                           is_Some (columns d !! n)).
  { intros n H1 H2.
    rewrite (loaded_text _ _ _ _ Hload n H2).
    - apply (loaded_expected _ _ _ _ Hload n H1).
    - intros ->. revert H1. clear. decide_closed.
    - intros ->. revert H1. clear. decide_closed. }
  destruct (loaded_getnum_flags _ _ _ _ Hload) as (flags & Hcol & Hf & _).
  split.
  - repeat apply Forall_cons_2; try apply Forall_nil_2.
    1-4: (apply Htxt; [decide_closed
                      | apply not_numeric_column; repeat split; discriminate]).
    + destruct (Hnum "Satisfaction_Rate") as [v Hv];
        [decide_closed | decide_closed |].
      apply (getnum_is_Some _ _ _ Hv).
    + rewrite Hcol. eauto.
  - repeat apply Forall_cons_2; try apply Forall_nil_2; try (eexists; exact Hf).
    all: apply Hnum; [decide_closed
                     | decide_closed].
Qed.

Lemma ready_setitem d n c :
  n = "Age_Group" \/ n = "Tenure_Group" -> ready d -> ready (setitem d n c).
Proof.
  intros Hn [H1 H2]. split.
  - eapply Forall_impl; [exact H1 |]. intros m Hm. cbn beta in *.
    destruct (decide (n = m)) as [<- | Hne].
    + unfold setitem. cbn [columns]. rewrite lookup_insert_eq. eauto.
    + unfold setitem. cbn [columns]. rewrite lookup_insert_ne by exact Hne. exact Hm.
  - rewrite Forall_forall in H2. apply Forall_forall. intros m Hm.
    destruct (H2 m Hm) as [v Hv]. exists v.
    rewrite getnum_setitem_ne; [exact Hv |].
    intros <-. destruct Hn as [-> | ->]; revert Hm; clear; decide_closed.
Qed.

Lemma ready_column d n :
  ready d ->
  n ∈ ["Customer_ID"; "State"; "MTN_Device"; "Subscription_Plan"; "Satisfaction_Rate";
       "Churn_Binary"] ->
  exists c, getitem d n = Ok c.
Proof.
  intros [H _] Hn. rewrite Forall_forall in H. destruct (H n Hn) as [c Hc].
  exists c. unfold getitem. rewrite Hc. reflexivity.
Qed.

Lemma ready_numeric d n :
  ready d ->
  n ∈ ["Churn_Binary"; "Total_Revenue"; "Unit_Price"; "Satisfaction_Rate"; "Age";
       "Customer_Tenure_in_months"] ->
  exists v, getnum d n = Ok v.
Proof. intros [_ H] Hn. rewrite Forall_forall in H. apply (H n Hn). Qed.

Lemma groupby_summary_ok observed d by_ counted wp ws :
  ready d -> is_Some (columns d !! by_) -> is_Some (columns d !! counted) ->
  exists t, groupby_summary observed d by_ counted wp ws = Ok t.
Proof.
  intros Hr [kc Hkc] [cc Hcc]. unfold groupby_summary, getitem, opt_column.
  rewrite Hkc, Hcc. cbn [mbind res_bind].
  destruct (ready_numeric d "Churn_Binary" Hr) as [cb ->]; [decide_closed |].
  destruct (ready_numeric d "Total_Revenue" Hr) as [rev ->]; [decide_closed |].
  destruct (ready_numeric d "Unit_Price" Hr) as [price ->]; [decide_closed |].
  destruct (ready_numeric d "Satisfaction_Rate" Hr) as [sat ->]; [decide_closed |].
  cbn [mbind res_bind]. destruct wp, ws; cbn [mbind res_bind]; eauto.
Qed.

Lemma ready_is_Some d n :
  ready d ->
  n ∈ ["Customer_ID"; "State"; "MTN_Device"; "Subscription_Plan"; "Satisfaction_Rate";
       "Churn_Binary"] ->
  is_Some (columns d !! n).
Proof. intros [H _] Hn. rewrite Forall_forall in H. apply (H n Hn). Qed.

Lemma kpis_ok d : ready d -> exists k, primary_kpis_body d = Ok k.
Proof.
  intros Hr. unfold primary_kpis_body.
  destruct (ready_numeric d "Churn_Binary" Hr) as [cb ->]; [decide_closed |].
  destruct (ready_column d "Churn_Binary" Hr) as [fc ->]; [decide_closed |].
  cbn [mbind res_bind]. rewrite getnum_loc.
  destruct (ready_numeric d "Total_Revenue" Hr) as [rev ->]; [decide_closed |].
  destruct (ready_numeric d "Satisfaction_Rate" Hr) as [sat ->]; [decide_closed |].
  cbn [mbind res_bind]. eauto.
Qed.

Lemma satisfaction_ok d : ready d -> exists r, satisfaction_body d = Ok r.
Proof.
  intros Hr. unfold satisfaction_body.
  destruct (ready_column d "Satisfaction_Rate" Hr) as [sc ->]; [decide_closed |].
  destruct (ready_column d "Churn_Binary" Hr) as [fc ->]; [decide_closed |].
  cbn [mbind res_bind].
  destruct (groupby_summary_ok true d "Satisfaction_Rate" "Churn_Binary" false false Hr)
    as [t ->]; [apply ready_is_Some; [exact Hr | decide_closed] ..|].
  cbn [mbind res_bind]. eauto.
Qed.

Lemma geographic_ok d : ready d -> exists r, geographic_body d = Ok r.
Proof.
  intros Hr. unfold geographic_body.
  destruct (groupby_summary_ok true d "State" "Customer_ID" false true Hr)
    as [t ->]; [apply ready_is_Some; [exact Hr | decide_closed] ..|].
  cbn [mbind res_bind]. eauto.
Qed.

Lemma device_ok d : ready d -> exists r, device_body d = Ok r.
Proof.
  intros Hr. unfold device_body.
  destruct (groupby_summary_ok true d "MTN_Device" "Customer_ID" true true Hr)
    as [t ->]; [apply ready_is_Some; [exact Hr | decide_closed] ..|].
  cbn [mbind res_bind]. eauto.
Qed.

Lemma segmentation_ok observed d :
  ready d ->
  exists ages tens r,
    getnum d "Age" = Ok ages /\ getnum d "Customer_Tenure_in_months" = Ok tens /\
    segmentation_body observed d =
      (setitem (setitem d "Age_Group" (cut age_bins age_labels ages))
         "Tenure_Group" (cut tenure_bins tenure_labels tens), Ok r).
Proof.
  intros Hr. unfold segmentation_body.
  destruct (ready_numeric d "Age" Hr) as [ages Ha]; [decide_closed |].
  destruct (ready_numeric d "Customer_Tenure_in_months" Hr) as [tens Ht];
    [decide_closed |].
  exists ages, tens. rewrite Ha. cbn [and_then].
  set (d1 := setitem d "Age_Group" (cut age_bins age_labels ages)).
  assert (Hr1 : ready d1) by (apply ready_setitem; [left; reflexivity | exact Hr]).
  destruct (groupby_summary_ok observed d1 "Age_Group" "Customer_ID" false true Hr1)
    as [age ->].
  { unfold d1, setitem. cbn [columns]. rewrite lookup_insert_eq. eauto. }
  { apply ready_is_Some; [exact Hr1 | decide_closed]. }
  cbn [and_then].
  assert (Ht1 : getnum d1 "Customer_Tenure_in_months" = Ok tens)
    by (unfold d1; rewrite getnum_setitem_ne by discriminate; exact Ht).
  rewrite Ht1. cbn [and_then].
  set (d2 := setitem d1 "Tenure_Group" (cut tenure_bins tenure_labels tens)).
  assert (Hr2 : ready d2) by (apply ready_setitem; [right; reflexivity | exact Hr1]).
  destruct (groupby_summary_ok observed d2 "Tenure_Group" "Customer_ID" false true Hr2)
    as [tn ->].
  { unfold d2, setitem. cbn [columns]. rewrite lookup_insert_eq. eauto. }
  { apply ready_is_Some; [exact Hr2 | decide_closed]. }
  cbn [and_then].
  destruct (groupby_summary_ok observed d2 "Subscription_Plan" "Customer_ID" true true Hr2)
    as [p ->]; [apply ready_is_Some; [exact Hr2 | decide_closed] ..|].
  cbn [and_then]. eauto.
Qed.

Lemma predictive_ok d : ready d -> exists p, predictive_body d = Ok p.
Proof.
  intros Hr.
  destruct (ready_numeric d "Satisfaction_Rate" Hr) as [sat Hs]; [decide_closed |].
  destruct (ready_numeric d "Total_Revenue" Hr) as [rev Hv]; [decide_closed |].
  destruct (ready_numeric d "Customer_Tenure_in_months" Hr) as [ten Ht];
    [decide_closed |].
  destruct (ready_numeric d "Churn_Binary" Hr) as [cb Hc]; [decide_closed |].
  rewrite (predictive_body_eq d sat rev ten cb Hs Hv Ht Hc). eauto.
Qed.

Lemma has_column_loc mask d n : has_column (loc mask d) n = has_column d n.
Proof.
  unfold has_column, loc. cbn [columns]. rewrite lookup_fmap.
  destruct (columns d !! n); reflexivity.
Qed.

(** Without the column of reasons the body takes the branch that stores
    nothing. *)
Lemma reasons_none d :
  ready d -> columns d !! "Reasons_for_Churn" = None ->
  churn_reasons_body d = Ok None.
Proof.
  intros Hr Hn. unfold churn_reasons_body.
  destruct (ready_column d "Churn_Binary" Hr) as [fc ->]; [decide_closed |].
  cbn [mbind res_bind]. rewrite has_column_loc. unfold has_column. rewrite Hn.
  reflexivity.
Qed.

(** ** The full run *)

Lemma write_all_is_Some l (m : gmap string result) k :
  k ∈ l.*1 \/ is_Some (m !! k) -> is_Some (write_all l m !! k).
Proof.
  revert m. induction l as [| [k0 v0] l IH]; intros m H.
  - destruct H as [H | H]; [inversion H | exact H].
  - cbn [write_all foldl fst snd]. fold (write_all l (<[k0:=v0]> m)). apply IH.
    destruct H as [H | H].
    + rewrite fmap_cons in H. cbn [fst] in H. apply elem_of_cons in H.
      destruct H as [-> | H]; [right | left; exact H].
      rewrite lookup_insert_eq. eauto.
    + right. apply lookup_insert_is_Some'. right. exact H.
Qed.

Lemma write_all_lookup_notin l (m : gmap string result) k :
  k ∉ l.*1 -> write_all l m !! k = m !! k.
Proof.
  revert m. induction l as [| [k0 v0] l IH]; intros m H; [reflexivity |].
  cbn [write_all foldl fst snd]. fold (write_all l (<[k0:=v0]> m)).
  rewrite fmap_cons in H. cbn [fst] in H. apply not_elem_of_cons in H.
  destruct H as [Hne H]. rewrite IH by exact H.
  apply lookup_insert_ne. congruence.
Qed.

(** What has been printed stays printed. *)
Lemma kpis_stdout a m : m ∈ stdout a -> m ∈ stdout (calculate_primary_kpis a).2.
Proof.
  intros H. unfold calculate_primary_kpis.
  destruct (the_df a ≫= primary_kpis_body); cbn [snd print store stdout];
    apply elem_of_app; left; exact H.
Qed.

Lemma predictive_stdout a m : m ∈ stdout a -> m ∈ stdout (predictive_analytics a).2.
Proof.
  intros H. unfold predictive_analytics.
  destruct (the_df a ≫= predictive_body); cbn [snd print store stdout];
    apply elem_of_app; left; exact H.
Qed.

Lemma reasons_warns a d :
  df a = Some d -> churn_reasons_body d = Ok None ->
  Warning "Reasons_for_Churn column not found" ∈ stdout (churn_reasons_analysis a).2.
Proof.
  intros Hdf Hb. unfold churn_reasons_analysis, the_df. rewrite Hdf.
  cbn [mbind res_bind]. rewrite Hb. cbn [snd print stdout].
  apply elem_of_app. right. left.
Qed.

Lemma run_all_warns observed a d :
  df a = Some d ->
  churn_reasons_body (segmentation_body observed d).1 = Ok None ->
  Warning "Reasons_for_Churn column not found" ∈ stdout (run_all observed a).
Proof.
  intros Hdf Hb. unfold run_all. cbv zeta.
  destruct (kpis_effect a d Hdf) as [D1 _].
  destruct (satisfaction_effect _ d D1) as [D2 _].
  destruct (geographic_effect _ d D2) as [D3 _].
  destruct (device_effect _ d D3) as [D4 _].
  destruct (segmentation_effect _ d D4 observed) as [D5 _].
  apply predictive_stdout. apply (reasons_warns _ _ D5 Hb).
Qed.

Lemma df_print m a : df (print m a) = df a.
Proof. reflexivity. Qed.

Lemma results_print m a : analysis_results (print m a) = analysis_results a.
Proof. reflexivity. Qed.

Lemma stdout_print m a : stdout (print m a) = stdout a ++ [m].
Proof. reflexivity. Qed.

Lemma run_complete_loaded observed a d :
  df a = Some d ->
  run_complete_analysis observed a =
  (true, print (Success "Complete analysis finished!")
           (run_all observed (print (Info "Starting MTN Churn Analysis...") a))).
Proof.
  intros H. unfold run_complete_analysis. rewrite df_print, H. reflexivity.
Qed.

Lemma run_complete_not_loaded observed a :
  df a = None ->
  run_complete_analysis observed a =
  (false, print (Failure "No data loaded. Please load data first." None)
            (print (Info "Starting MTN Churn Analysis...") a)).
Proof.
  intros H. unfold run_complete_analysis. rewrite df_print, H. reflexivity.
Qed.

(** C6 (as amended).  For a loaded table without the "Reasons_for_Churn"
    column the full run reports success, stores the six other analyses,
    prints the warning, and leaves the entry churn_reasons of the results
    as it was before the run: absent when it was absent, and still there
    when an earlier run on another table has stored it; and the run
    reports success whenever a table is loaded. *)
Theorem missing_reasons_column (parse_number : string -> option Q)
    (to_datetime : column -> column) (raw d : DataFrame)
    (observed : bool) (a : MTNChurnAnalysis) :
  loads_to parse_number to_datetime raw d ->
  columns raw !! "Reasons_for_Churn" = None ->
  df a = Some d ->
  (run_complete_analysis observed a).1 = true /\
  Forall (fun name => is_Some (analysis_results (run_complete_analysis observed a).2 !! name))
    ["primary_kpis"; "satisfaction_analysis"; "geographic_analysis";
     "device_analysis"; "segmentation_analysis"; "predictive_analytics"] /\
  analysis_results (run_complete_analysis observed a).2 !! "churn_reasons" =
    analysis_results a !! "churn_reasons" /\
  Warning "Reasons_for_Churn column not found"
    ∈ stdout (run_complete_analysis observed a).2 /\
  (forall a', is_Some (df a') -> (run_complete_analysis observed a').1 = true).
Proof.
  intros Hload Hnone Hdf.
  pose proof (loaded_ready _ _ _ _ Hload) as Hr.
  assert (Hn : columns d !! "Reasons_for_Churn" = None).
  { rewrite (loaded_text _ _ _ _ Hload) by
      (try discriminate; apply not_numeric_column; repeat split; discriminate).
    exact Hnone. }
  destruct (segmentation_ok observed d Hr) as (ages & tens & r & _ & _ & Hseg).
  set (d' := setitem (setitem d "Age_Group" (cut age_bins age_labels ages))
               "Tenure_Group" (cut tenure_bins tenure_labels tens)) in *.
  assert (Hr' : ready d').
  { apply ready_setitem; [right; reflexivity |].
    apply ready_setitem; [left; reflexivity | exact Hr]. }
  assert (Hn' : columns d' !! "Reasons_for_Churn" = None).
  { unfold d', setitem. cbn [columns]. rewrite !lookup_insert_ne by discriminate.
    exact Hn. }
  pose proof (reasons_none d' Hr' Hn') as Hreasons.
  assert (Hstored : (stored observed d).*1 =
                    ["primary_kpis"; "satisfaction_analysis"; "geographic_analysis";
                     "device_analysis"; "segmentation_analysis"; "predictive_analytics"]).
  { unfold stored. cbv zeta. rewrite Hseg. cbn [fst snd]. rewrite Hreasons.
    destruct (kpis_ok d Hr) as [? ->]. destruct (satisfaction_ok d Hr) as [? ->].
    destruct (geographic_ok d Hr) as [? ->]. destruct (device_ok d Hr) as [? ->].
    destruct (predictive_ok d' Hr') as [? ->]. reflexivity. }
  rewrite (run_complete_loaded observed a d Hdf). cbn [fst snd].
  rewrite results_print, stdout_print.
  destruct (run_all_effect observed (print (Info "Starting MTN Churn Analysis...") a) d Hdf)
    as [_ Hrun].
  rewrite Hrun, results_print.
  split; [reflexivity |]. split; [| split; [| split]].
  - apply Forall_forall. intros name Hname. apply write_all_is_Some. left.
    rewrite Hstored. exact Hname.
  - rewrite write_all_lookup_notin; [reflexivity |]. rewrite Hstored. decide_closed.
  - apply elem_of_app. left.
    apply (run_all_warns observed (print (Info "Starting MTN Churn Analysis...") a) d Hdf).
    rewrite Hseg. exact Hreasons.
  - intros a' [d0 Hd0]. rewrite (run_complete_loaded observed a' d0 Hd0). reflexivity.
Qed.


(** ** Who writes to the base table *)

Lemma kpis_df a : df (calculate_primary_kpis a).2 = df a.
Proof. unfold calculate_primary_kpis. destruct (the_df a ≫= _); reflexivity. Qed.

Lemma satisfaction_df a : df (satisfaction_churn_analysis a).2 = df a.
Proof.
  unfold satisfaction_churn_analysis. destruct (the_df a ≫= _) as [[? ?] |]; reflexivity.
Qed.

Lemma geographic_df a : df (geographic_analysis a).2 = df a.
Proof.
  unfold geographic_analysis. destruct (the_df a ≫= _) as [[[? ?] ?] |]; reflexivity.
Qed.

Lemma device_df a : df (device_performance_analysis a).2 = df a.
Proof. unfold device_performance_analysis. destruct (the_df a ≫= _); reflexivity. Qed.

Lemma reasons_df a : df (churn_reasons_analysis a).2 = df a.
Proof.
  unfold churn_reasons_analysis. destruct (the_df a ≫= _) as [[? |] |]; reflexivity.
Qed.

Lemma predictive_df a : df (predictive_analytics a).2 = df a.
Proof. unfold predictive_analytics. destruct (the_df a ≫= _); reflexivity. Qed.

Lemma segmentation_df observed a d :
  df a = Some d ->
  df (customer_segmentation_analysis observed a).2 = Some (segmentation_body observed d).1.
Proof. intros H. apply (segmentation_effect a d H observed). Qed.

(** C10.  Of the seven analyses only the customer segmentation assigns
    to the base table: the other six leave it as it is; the segmentation
    keeps the number of rows and every column other than "Age_Group" and
    "Tenure_Group"; and on a loaded table it assigns both, each the
    bucketing of its source column. *)
Theorem segmentation_is_the_only_writer (observed : bool) (a : MTNChurnAnalysis) :
  df (calculate_primary_kpis a).2 = df a /\
  df (satisfaction_churn_analysis a).2 = df a /\
  df (geographic_analysis a).2 = df a /\
  df (device_performance_analysis a).2 = df a /\
  df (churn_reasons_analysis a).2 = df a /\
  df (predictive_analytics a).2 = df a /\
  (forall d, df a = Some d ->
     exists d', df (customer_segmentation_analysis observed a).2 = Some d' /\
       index d' = index d /\
       forall n, n <> "Age_Group" -> n <> "Tenure_Group" ->
                 columns d' !! n = columns d !! n) /\
  (forall parse_number to_datetime raw d,
     loads_to parse_number to_datetime raw d -> df a = Some d ->
     exists ages tens,
       getnum d "Age" = Ok ages /\
       getnum d "Customer_Tenure_in_months" = Ok tens /\
       df (customer_segmentation_analysis observed a).2 =
         Some (setitem (setitem d "Age_Group" (cut age_bins age_labels ages))
                 "Tenure_Group" (cut tenure_bins tenure_labels tens))).
Proof.
  split; [apply kpis_df |]. split; [apply satisfaction_df |].
  split; [apply geographic_df |]. split; [apply device_df |].
  split; [apply reasons_df |]. split; [apply predictive_df |]. split.
  - intros d Hdf. exists (segmentation_body observed d).1.
    pose proof (segmentation_derived observed d) as H.
    split; [apply segmentation_df, Hdf |]. split; [apply derived_index, H |].
    intros n H1 H2. apply (derived_lookup _ _ _ H H1 H2).
  - intros parse_number to_datetime raw d Hload Hdf.
    destruct (segmentation_ok observed d (loaded_ready _ _ _ _ Hload))
      as (ages & tens & r & Ha & Ht & Hseg).
    exists ages, tens. split; [exact Ha |]. split; [exact Ht |].
    rewrite (segmentation_df observed a d Hdf), Hseg. reflexivity.
Qed.

Lemma missing_reasons_column_witness :
  (run_complete_analysis true sample_analyzer).1 = true /\
  analysis_results (run_complete_analysis true sample_analyzer).2 !! "churn_reasons" = None /\
  is_Some (analysis_results (run_complete_analysis true sample_analyzer).2
             !! "primary_kpis") /\
  Warning "Reasons_for_Churn column not found"
    ∈ stdout (run_complete_analysis true sample_analyzer).2.
Proof.
  destruct (missing_reasons_column no_parse keep_dates sample_source sample_table
              true sample_analyzer sample_loads eq_refl eq_refl)
    as (Hok & Hall & Hnone & Hwarn & _).
  split; [exact Hok |]. split; [exact Hnone |]. split; [| exact Hwarn].
  rewrite Forall_forall in Hall. apply Hall. left.
Defined.

(** The entry is not always absent: after the table with the reasons has
    been analysed and the file without them loaded, the run on the table
    that lacks the column succeeds and the results still hold the
    churn-reason table of the earlier file. *)
Lemma missing_reasons_column_counterexample :
  loads_to no_parse keep_dates sample_source sample_table /\
  columns sample_source !! "Reasons_for_Churn" = None /\
  df reloaded_analyzer = Some sample_table /\
  (run_complete_analysis true reloaded_analyzer).1 = true /\
  is_Some (analysis_results (run_complete_analysis true reloaded_analyzer).2
             !! "churn_reasons").
Proof.
  split; [exact sample_loads |]. split; [reflexivity |]. split; [reflexivity |].
  split; [vm_compute; reflexivity |].
  refine (bool_decide_unpack _ _). vm_compute. exact I.
Qed.

(** * Further properties *)

(** ** Loading *)

Section LoadFacts.
Variable parse_number : string -> option Q.
Variable to_datetime : column -> column.
Variable read_csv : string -> res DataFrame.

Lemma load_data_cases path a :
  (exists d, truthy (effective_path path a) = true /\
             read_csv (default "" (effective_path path a)) = Ok d /\
             (load_data parse_number to_datetime read_csv path a).1 = true /\
             df (load_data parse_number to_datetime read_csv path a).2 =
               Some (_prepare_data parse_number to_datetime d)) \/
  ((truthy (effective_path path a) = false \/
    exists e, read_csv (default "" (effective_path path a)) = Raise e) /\
   (load_data parse_number to_datetime read_csv path a).1 = false /\
   df (load_data parse_number to_datetime read_csv path a).2 = df a).
Proof.
  unfold load_data, effective_path.
  destruct (truthy path) eqn:Ep; cbn [data_path].
  - rewrite Ep. destruct (read_csv (default "" path)) as [d | e] eqn:Er.
    + left. exists d. repeat split; reflexivity.
    + right. split; [right; eauto | split; reflexivity].
  - destruct (truthy (data_path a)) eqn:Ea.
    + destruct (read_csv (default "" (data_path a))) as [d | e] eqn:Er.
      * left. exists d. repeat split; reflexivity.
      * right. split; [right; eauto | split; reflexivity].
    + right. split; [left; reflexivity | split; reflexivity].
Qed.

(** X1.  On an analyzer that holds no table, the full run reports success
    exactly when the load before it did; a load that fails (no path, or
    a file that cannot be read) leaves the table and the results as they
    were, although it has already replaced the stored path. *)
Theorem load_then_run (observed : bool) (path : option string) (a : MTNChurnAnalysis) :
  let l := load_data parse_number to_datetime read_csv path a in
  analysis_results l.2 = analysis_results a /\
  data_path l.2 = effective_path path a /\
  (l.1 = false -> df l.2 = df a) /\
  (df a = None -> (run_complete_analysis observed l.2).1 = l.1).
Proof.
  cbv zeta. split; [| split; [| split]].
  - unfold load_data. destruct (truthy path); cbn [data_path];
      match goal with |- context [if ?b then read_csv ?x else _] =>
        destruct b; [destruct (read_csv x) |] end; reflexivity.
  - unfold load_data, effective_path. destruct (truthy path); cbn [data_path];
      match goal with |- context [if ?b then read_csv ?x else _] =>
        destruct b; [destruct (read_csv x) |] end; reflexivity.
  - intros Hf. destruct (load_data_cases path a) as [(d & _ & _ & Ht & _) | (_ & _ & Hd)];
      [congruence | exact Hd].
  - intros Hnone.
    destruct (load_data_cases path a) as [(d & _ & _ & Ht & Hd) | (_ & Hf & Hd)].
    + rewrite Ht, (run_complete_loaded observed _ _ Hd). reflexivity.
    + rewrite Hf. rewrite Hnone in Hd.
      rewrite (run_complete_not_loaded observed _ Hd). reflexivity.
Qed.

End LoadFacts.

(** ** What preparation does to a frame *)

Lemma prepare_flag_column parse_number to_datetime d c :
  columns (_prepare_data parse_number to_datetime d) !! "Churn_Binary" = Some c ->
  (exists s, columns d !! "Customer_Churn_Status" = Some s /\
             c = NumCol (fillna 0%Q (series_map churn_status_map s))) \/
  (columns d !! "Customer_Churn_Status" = None /\ columns d !! "Churn_Binary" = Some c).
Proof.
  rewrite prepare_unfold. cbv zeta. rewrite prepare_status.
  destruct (columns d !! "Customer_Churn_Status") as [s |] eqn:Es.
  - unfold setitem. cbn [columns]. rewrite lookup_insert_eq. intros [= <-].
    left. eauto.
  - rewrite coerce_all_lookup.
    rewrite decide_False by (apply not_numeric_column; repeat split; discriminate).
    rewrite dated_lookup by discriminate. intros H. right. split; [reflexivity | exact H].
Qed.

Lemma length_fillna x v : length (fillna x v) = length v.
Proof. apply length_map. Qed.

Lemma length_series_map m c : length (series_map m c) = column_length c.
Proof. unfold series_map. rewrite length_map. apply length_column_cells. Qed.

(** X2.  Preparation keeps the number of rows and the shape of the
    frame: every column still has one cell per row; a column that is
    neither the purchase date, nor one of the seven numeric columns, nor
    the derived flag is left as it was; and each of the seven numeric
    columns that is present can afterwards be read as numbers, whatever
    it held. *)
Theorem prepare_keeps_shape (parse_number : string -> option Q)
    (to_datetime : column -> column) (raw : DataFrame) :
  df_wf raw ->
  (forall c, column_length (to_datetime c) = column_length c) ->
  let d := _prepare_data parse_number to_datetime raw in
  index d = index raw /\
  df_wf d /\
  (forall n, n ∉ numeric_columns -> n <> "Date_of_Purchase" -> n <> "Churn_Binary" ->
             columns d !! n = columns raw !! n) /\
  (forall n, n ∈ numeric_columns -> is_Some (columns raw !! n) ->
             exists v, getnum d n = Ok v /\ length v = index raw).
Proof.
  intros Hwf Hdt d. subst d.
  split; [apply prepare_index |]. split; [| split].
  - intros n c Hc. cbn beta. rewrite prepare_index.
    destruct (decide (n = "Churn_Binary")) as [-> | H1].
    { apply prepare_flag_column in Hc.
      destruct Hc as [(s & Hs & ->) | (_ & Hc)].
      - cbn [column_length]. rewrite length_fillna, length_series_map.
        apply (Hwf _ _ Hs).
      - apply (Hwf _ _ Hc). }
    destruct (decide (n = "Date_of_Purchase")) as [-> | H2].
    { rewrite prepare_date in Hc.
      destruct (columns raw !! "Date_of_Purchase") as [c0 |] eqn:E; [| discriminate].
      injection Hc as <-. rewrite Hdt. apply (Hwf _ _ E). }
    rewrite prepare_lookup in Hc by assumption.
    destruct (decide (n ∈ numeric_columns)).
    + destruct (columns raw !! n) as [c0 |] eqn:E; [| discriminate].
      injection Hc as <-. rewrite to_numeric_length. apply (Hwf _ _ E).
    + apply (Hwf _ _ Hc).
  - intros n H1 H2 H3. rewrite prepare_lookup by assumption.
    rewrite decide_False by exact H1. reflexivity.
  - intros n Hn [c Hc].
    assert (Hd : columns (_prepare_data parse_number to_datetime raw) !! n =
                 Some (to_numeric parse_number c)).
    { rewrite prepare_lookup.
      - rewrite decide_True by exact Hn. rewrite Hc. reflexivity.
      - intros ->. revert Hn. apply not_numeric_column. repeat split; discriminate.
      - intros ->. revert Hn. apply not_numeric_column. repeat split; discriminate. }
    destruct (numeric_to_numeric parse_number n c) as (v & Hv & Hlen).
    exists v. split.
    + rewrite (getnum_lookup _ _ _ Hd). exact Hv.
    + rewrite Hlen. apply (Hwf _ _ Hc).
Qed.

Lemma prepare_keeps_shape_witness :
  index sample_table = 3 /\ df_wf sample_table /\
  columns sample_table !! "State" = columns sample_source !! "State" /\
  exists v, getnum sample_table "Age" = Ok v /\ length v = 3.
Proof.
  destruct (prepare_keeps_shape no_parse keep_dates sample_source sample_source_wf
              (fun c => eq_refl)) as (Hi & Hwf & Hframe & Hnum).
  split; [exact Hi |]. split; [exact Hwf |]. split.
  - apply Hframe; [apply not_numeric_column; repeat split |..]; discriminate.
  - apply Hnum; [decide_closed | eexists; reflexivity].
Defined.

(** ** Which entries a full run replaces *)

Lemma stored_by_keys {A} name (wrap : A -> result) (r : res A) k :
  k ∈ (stored_by name wrap r).*1 -> k = name /\ exists v, r = Ok v.
Proof.
  destruct r as [v | e]; cbn; intros H; [| inversion H].
  apply list_elem_of_singleton in H. eauto.
Qed.

Lemma stored_reasons_keys r k :
  k ∈ (stored_reasons r).*1 -> k = "churn_reasons" /\ exists t, r = Ok (Some t).
Proof.
  destruct r as [[t |] | e]; cbn; intros H; try (inversion H; fail).
  apply list_elem_of_singleton in H. eauto.
Qed.

(** A key is written only by the analysis of that name, and only when
    its body returns. *)
Lemma stored_keys observed d k :
  k ∈ (stored observed d).*1 ->
  (k = "primary_kpis" /\ exists v, primary_kpis_body d = Ok v) \/
  (k = "satisfaction_analysis" /\ exists v, satisfaction_body d = Ok v) \/
  (k = "geographic_analysis" /\ exists v, geographic_body d = Ok v) \/
  (k = "device_analysis" /\ exists v, device_body d = Ok v) \/
  (k = "segmentation_analysis" /\ exists v, (segmentation_body observed d).2 = Ok v) \/
  (k = "churn_reasons" /\
   exists t, churn_reasons_body (segmentation_body observed d).1 = Ok (Some t)) \/
  (k = "predictive_analytics" /\
   exists v, predictive_body (segmentation_body observed d).1 = Ok v).
Proof.
  unfold stored. cbv zeta. rewrite !fmap_app, !elem_of_app.
  intros [H | [H | [H | [H | [H | [H | H]]]]]].
  - left. apply (stored_by_keys _ _ _ _ H).
  - right; left. apply (stored_by_keys _ _ _ _ H).
  - do 2 right; left. apply (stored_by_keys _ _ _ _ H).
  - do 3 right; left. apply (stored_by_keys _ _ _ _ H).
  - do 4 right; left. apply (stored_by_keys _ _ _ _ H).
  - do 5 right; left. apply (stored_reasons_keys _ _ H).
  - do 6 right. apply (stored_by_keys _ _ _ _ H).
Qed.

Lemma run_complete_results observed a d :
  df a = Some d ->
  analysis_results (run_complete_analysis observed a).2 =
  write_all (stored observed d) (analysis_results a).
Proof.
  intros Hdf. rewrite (run_complete_loaded observed a d Hdf). cbn [snd].
  rewrite results_print.
  destruct (run_all_effect observed (print (Info "Starting MTN Churn Analysis...") a) d Hdf)
    as [_ ->].
  reflexivity.
Qed.

(** X3.  A full run replaces an entry of the results only when the
    analysis of that name succeeds in this run.  The entry of an analysis
    that raises (or, for the churn reasons, finds no column) keeps
    whatever an earlier run stored there, and an entry under any other
    name is never touched. *)
Theorem failed_analysis_keeps_entry (observed : bool) (a : MTNChurnAnalysis)
    (d : DataFrame) :
  df a = Some d ->
  let after := analysis_results (run_complete_analysis observed a).2 in
  let before := analysis_results a in
  let d' := (segmentation_body observed d).1 in
  (forall e, primary_kpis_body d = Raise e ->
             after !! "primary_kpis" = before !! "primary_kpis") /\
  (forall e, satisfaction_body d = Raise e ->
             after !! "satisfaction_analysis" = before !! "satisfaction_analysis") /\
  (forall e, geographic_body d = Raise e ->
             after !! "geographic_analysis" = before !! "geographic_analysis") /\
  (forall e, device_body d = Raise e ->
             after !! "device_analysis" = before !! "device_analysis") /\
  (forall e, (segmentation_body observed d).2 = Raise e ->
             after !! "segmentation_analysis" = before !! "segmentation_analysis") /\
  (churn_reasons_body d' = Ok None \/ (exists e, churn_reasons_body d' = Raise e) ->
   after !! "churn_reasons" = before !! "churn_reasons") /\
  (forall e, predictive_body d' = Raise e ->
             after !! "predictive_analytics" = before !! "predictive_analytics") /\
  (forall k, k ∉ ["primary_kpis"; "satisfaction_analysis"; "geographic_analysis";
                  "device_analysis"; "segmentation_analysis"; "churn_reasons";
                  "predictive_analytics"] ->
             after !! k = before !! k).
Proof.
  intros Hdf. cbv zeta. rewrite (run_complete_results observed a d Hdf).
  assert (Hkeep : forall k, k ∉ (stored observed d).*1 ->
                  write_all (stored observed d) (analysis_results a) !! k =
                  analysis_results a !! k)
    by (intros k; apply write_all_lookup_notin).
  repeat split.
  1-5, 7: (intros e He; apply Hkeep; intros Hk; apply stored_keys in Hk;
           repeat (destruct Hk as [(Hn & v & Hv) | Hk]; [congruence |]);
           destruct Hk as (Hn & v & Hv); congruence).
  - intros Hr. apply Hkeep. intros Hk. apply stored_keys in Hk.
    repeat (destruct Hk as [(Hn & v & Hv) | Hk];
            [try discriminate Hn; destruct Hr as [Hr | [e Hr]]; congruence |]).
    destruct Hk as (Hn & _). discriminate Hn.
  - intros k Hk. apply Hkeep. intros Hin. apply stored_keys in Hin. apply Hk.
    repeat (destruct Hin as [(-> & _) | Hin]; [decide_closed |]).
    destruct Hin as (-> & _). decide_closed.
Qed.

(** ** A file without a churn status *)

Lemma getnum_missing d n : columns d !! n = None -> getnum d n = Raise (KeyError n).
Proof. intros H. unfold getnum, getitem. rewrite H. reflexivity. Qed.

Lemma getitem_missing d n : columns d !! n = None -> getitem d n = Raise (KeyError n).
Proof. intros H. unfold getitem. rewrite H. reflexivity. Qed.

Lemma groupby_summary_no_flag observed d by_ counted wp ws :
  columns d !! "Churn_Binary" = None ->
  exists e, groupby_summary observed d by_ counted wp ws = Raise e.
Proof.
  intros H. unfold groupby_summary.
  destruct (getitem d by_); [| eauto]. cbn [mbind res_bind].
  destruct (getitem d counted); [| eauto]. cbn [mbind res_bind].
  rewrite (getnum_missing _ _ H). eauto.
Qed.

Lemma kpis_no_flag d :
  columns d !! "Churn_Binary" = None -> exists e, primary_kpis_body d = Raise e.
Proof. intros H. unfold primary_kpis_body. rewrite (getnum_missing _ _ H). eauto. Qed.

Lemma satisfaction_no_flag d :
  columns d !! "Churn_Binary" = None -> exists e, satisfaction_body d = Raise e.
Proof.
  intros H. unfold satisfaction_body.
  destruct (getitem d "Satisfaction_Rate"); [| eauto]. cbn [mbind res_bind].
  rewrite (getitem_missing _ _ H). eauto.
Qed.

Lemma geographic_no_flag d :
  columns d !! "Churn_Binary" = None -> exists e, geographic_body d = Raise e.
Proof.
  intros H. unfold geographic_body.
  destruct (groupby_summary_no_flag true d "State" "Customer_ID" false true H) as [e ->].
  eauto.
Qed.

Lemma device_no_flag d :
  columns d !! "Churn_Binary" = None -> exists e, device_body d = Raise e.
Proof.
  intros H. unfold device_body.
  destruct (groupby_summary_no_flag true d "MTN_Device" "Customer_ID" true true H)
    as [e ->].
  eauto.
Qed.

Lemma segmentation_no_flag observed d :
  columns d !! "Churn_Binary" = None ->
  exists e, (segmentation_body observed d).2 = Raise e.
Proof.
  intros H. unfold segmentation_body.
  destruct (getnum d "Age") as [ages |]; [| cbn; eauto]. cbn [and_then].
  match goal with
  | |- context [groupby_summary observed ?d1 "Age_Group" "Customer_ID" false true] =>
      destruct (groupby_summary_no_flag observed d1 "Age_Group" "Customer_ID" false true)
        as [e ->]
  end.
  - unfold setitem. cbn [columns]. rewrite lookup_insert_ne by discriminate. exact H.
  - cbn. eauto.
Qed.

Lemma reasons_no_flag d :
  columns d !! "Churn_Binary" = None -> exists e, churn_reasons_body d = Raise e.
Proof. intros H. unfold churn_reasons_body. rewrite (getitem_missing _ _ H). eauto. Qed.

(** X4.  When the file has neither a "Customer_Churn_Status" nor a
    "Churn_Binary" column, no flag is derived; the full run on the loaded
    table still reports success, but it stores nothing under any name
    other than predictive_analytics: the six analyses that read the flag
    all raise and are skipped. *)
Theorem no_status_column (parse_number : string -> option Q)
    (to_datetime : column -> column) (raw : DataFrame)
    (observed : bool) (a : MTNChurnAnalysis) :
  columns raw !! "Customer_Churn_Status" = None ->
  columns raw !! "Churn_Binary" = None ->
  df a = Some (_prepare_data parse_number to_datetime raw) ->
  (run_complete_analysis observed a).1 = true /\
  forall k, k <> "predictive_analytics" ->
    analysis_results (run_complete_analysis observed a).2 !! k = analysis_results a !! k.
Proof.
  intros Hs Hb Hdf.
  set (d := _prepare_data parse_number to_datetime raw) in *.
  assert (Hd : columns d !! "Churn_Binary" = None).
  { destruct (columns d !! "Churn_Binary") as [c |] eqn:E; [| reflexivity].
    apply prepare_flag_column in E. destruct E as [(s & E & _) | (_ & E)]; congruence. }
  split; [rewrite (run_complete_loaded observed a d Hdf); reflexivity |].
  intros k Hk. rewrite (run_complete_results observed a d Hdf).
  apply write_all_lookup_notin. intros Hin. apply stored_keys in Hin.
  assert (Hd' : columns (segmentation_body observed d).1 !! "Churn_Binary" = None).
  { rewrite (derived_lookup _ _ _ (segmentation_derived observed d)) by discriminate.
    exact Hd. }
  destruct (kpis_no_flag d Hd) as [e1 E1].
  destruct (satisfaction_no_flag d Hd) as [e2 E2].
  destruct (geographic_no_flag d Hd) as [e3 E3].
  destruct (device_no_flag d Hd) as [e4 E4].
  destruct (segmentation_no_flag observed d Hd) as [e5 E5].
  destruct (reasons_no_flag _ Hd') as [e6 E6].
  repeat (destruct Hin as [(Hn & v & Hv) | Hin]; [congruence |]).
  destruct Hin as (Hn & _). congruence.
Qed.

Lemma no_status_column_witness :
  (run_complete_analysis true unlabelled_analyzer).1 = true /\
  analysis_results (run_complete_analysis true unlabelled_analyzer).2 !! "primary_kpis" = None.
Proof.
  destruct (no_status_column no_parse keep_dates unlabelled_source true
              unlabelled_analyzer eq_refl eq_refl eq_refl) as [Hok Hkeep].
  split; [exact Hok |]. rewrite Hkeep by discriminate. reflexivity.
Defined.

Lemma failed_analysis_keeps_entry_witness :
  analysis_results (run_complete_analysis true sample_analyzer).2 !! "churn_reasons" = None /\
  analysis_results (run_complete_analysis true sample_analyzer).2 !! "export" = None.
Proof.
  destruct (failed_analysis_keeps_entry true sample_analyzer sample_table eq_refl)
    as (_ & _ & _ & _ & _ & Hr & _ & Hother).
  split.
  - rewrite Hr; [reflexivity |]. left. vm_compute. reflexivity.
  - rewrite Hother; [reflexivity | decide_closed].
Defined.

(** ** The state table: order and high-risk subset *)

#[global] Instance rate_ge_total : Total rate_ge.
Proof.
  intros a b. unfold rate_ge.
  destruct (Churn_Rate a) as [x |], (Churn_Rate b) as [y |]; auto.
  destruct (Qlt_le_dec x y) as [H | H]; [right; apply Qlt_le_weak, H | left; exact H].
Qed.

#[global] Instance rate_ge_trans : Transitive rate_ge.
Proof.
  intros a b c. unfold rate_ge.
  destruct (Churn_Rate a) as [x |], (Churn_Rate b) as [y |], (Churn_Rate c) as [z |];
    try tauto.
  intros H1 H2. apply (Qle_trans _ _ _ H2 H1).
Qed.

Lemma sort_by_rate_sorted t : StronglySorted rate_ge (sort_by_rate t).
Proof. apply StronglySorted_merge_sort; apply _. Qed.

Lemma strongly_sorted_filter {A} (R : relation A) (P : A -> Prop)
    `{forall x, Decision (P x)} (l : list A) :
  StronglySorted R l -> StronglySorted R (filter P l).
Proof.
  induction 1 as [| x l Hl IH Hx]; [constructor |].
  rewrite filter_cons. destruct (decide (P x)); [| exact IH].
  constructor; [exact IH |].
  apply Forall_forall. intros y Hy. apply list_elem_of_filter in Hy.
  rewrite Forall_forall in Hx. apply Hx, Hy.
Qed.

Lemma strongly_sorted_head {A} (R : relation A) (l : list A) x y :
  StronglySorted R l -> l !! 0 = Some x -> y ∈ l -> x = y \/ R x y.
Proof.
  intros Hs Hx Hy. destruct l as [| x0 l]; [discriminate |].
  injection Hx as ->. inversion Hs as [| ? ? _ Hall]; subst.
  apply elem_of_cons in Hy. destruct Hy as [-> | Hy]; [left; reflexivity |].
  right. rewrite Forall_forall in Hall. apply Hall, Hy.
Qed.

(** X5.  The state table and the device table are in descending order of
    churn rate (rows without a rate last), so their first row has the
    highest rate; the high-risk states are rows of the state table, in
    the same order, and they are exactly the rows whose rate is strictly
    above one common threshold: a state whose rate is at least that of a
    high-risk state is itself high-risk. *)
Theorem tables_sorted_by_rate (d : DataFrame) :
  (forall geo high avg, geographic_body d = Ok (geo, high, avg) ->
     StronglySorted rate_ge geo /\
     StronglySorted rate_ge high /\
     sublist high geo /\
     (exists thr : option Q, forall r, r ∈ high <->
        r ∈ geo /\ exists q m, Churn_Rate r = Some q /\
                               thr = Some m /\ (m < q)%Q) /\
     (forall r0 r q0 q, geo !! 0 = Some r0 -> r ∈ geo ->
        Churn_Rate r0 = Some q0 -> Churn_Rate r = Some q -> (q <= q0)%Q)) /\
  (forall t, device_body d = Ok t ->
     StronglySorted rate_ge t /\
     (forall r0 r q0 q, t !! 0 = Some r0 -> r ∈ t ->
        Churn_Rate r0 = Some q0 -> Churn_Rate r = Some q -> (q <= q0)%Q)).
Proof.
  assert (Hhead : forall t r0 r q0 q, StronglySorted rate_ge t ->
            t !! 0 = Some r0 -> r ∈ t ->
            Churn_Rate r0 = Some q0 -> Churn_Rate r = Some q -> (q <= q0)%Q).
  { intros t r0 r q0 q Hs H0 Hr Hq0 Hq.
    destruct (strongly_sorted_head _ _ _ _ Hs H0 Hr) as [-> | H].
    - rewrite Hq0 in Hq. injection Hq as ->. apply Qle_refl.
    - unfold rate_ge in H. rewrite Hq0, Hq in H. exact H. }
  split.
  - intros geo high avg H. unfold geographic_body in H.
    destruct (groupby_summary true d "State" "Customer_ID" false true) as [t |];
      [| discriminate].
    cbn [mbind res_bind] in H. injection H as <- <- _.
    pose proof (sort_by_rate_sorted t) as Hs.
    split; [exact Hs |]. split; [apply strongly_sorted_filter, Hs |].
    split; [apply sublist_filter |]. split; [| intros; eapply Hhead; eassumption].
    exists (series_mean (rates (sort_by_rate t))).
    intros r. unfold above. rewrite list_elem_of_filter. unfold rate_gtb. split.
    + intros [Hgt Hr]. split; [exact Hr |].
      destruct (Churn_Rate r) as [q |]; [| discriminate].
      destruct (series_mean (rates (sort_by_rate t))) as [m |]; [| discriminate].
      exists q, m. repeat split. apply Qlt_bool_iff, Hgt.
    + intros (Hr & q & m & -> & -> & Hlt). split; [| exact Hr].
      apply Qlt_bool_iff, Hlt.
  - intros t H. unfold device_body in H.
    destruct (groupby_summary true d "MTN_Device" "Customer_ID" true true) as [t0 |];
      [| discriminate].
    cbn [mbind res_bind] in H. injection H as <-.
    pose proof (sort_by_rate_sorted t0) as Hs.
    split; [exact Hs |]. intros; eapply Hhead; eassumption.
Qed.

(** ** The churn-reason table *)

#[global] Instance count_ge_total : Total count_ge.
Proof. intros a b. unfold count_ge. lia. Qed.

#[global] Instance count_ge_trans : Transitive count_ge.
Proof. intros a b c. unfold count_ge. lia. Qed.

Lemma count_true_take_all (m : list bool) :
  count_true (take m (map (fun _ => true) m)) = count_true m.
Proof.
  induction m as [| b m IH]; [reflexivity |].
  cbn [map take]. destruct b; rewrite ?count_true_cons, IH; reflexivity.
Qed.

Lemma take_map_const {A} (m : list bool) (l : list A) :
  length l = length m ->
  take m (map (fun _ => true) l) = take m (map (fun _ => true) m).
Proof.
  revert l. induction m as [| b m IH]; intros [| x l] Hlen; simpl in *; try lia;
    try reflexivity.
  rewrite (IH l) by lia. reflexivity.
Qed.

(** The counts of the distinct values add up to the non-missing cells. *)
Lemma value_counts_total (keys : list (option key)) :
  sum_list ((value_counts keys).*2) =
  count_true (map (fun x : option key => bool_decide (is_Some x)) keys).
Proof.
  unfold value_counts. rewrite merge_sort_Permutation.
  rewrite <- list_fmap_compose.
  pose proof (groups_partition (remove_dups (omap id keys)) keys
                (map (fun _ => true) keys)) as H.
  rewrite zip_with_fmap_r in H.
  assert (E : zip_with (fun x (_ : option key) => andb x true)
                (map (fun x : option key => bool_decide (is_Some x)) keys) keys =
              map (fun x : option key => bool_decide (is_Some x)) keys).
  { clear. induction keys as [| x keys IH]; [reflexivity |].
    cbn. rewrite IH, andb_true_r. reflexivity. }
  rewrite E in H. rewrite <- H.
  - apply sum_list_fmap_ext. intros k _. cbn.
    rewrite (take_map_const (group_mask keys k) keys)
      by (unfold group_mask; rewrite length_map; reflexivity).
    rewrite count_true_take_all. reflexivity.
  - split; [apply NoDup_remove_dups |].
    intros k Hk. apply elem_of_remove_dups, list_elem_of_omap.
    exists (Some k). split; [exact Hk | reflexivity].
  - rewrite length_map. reflexivity.
Qed.

Lemma group_mask_positive keys k : Some k ∈ keys -> 0 < count_true (group_mask keys k).
Proof.
  induction keys as [| x keys IH]; intros H; [inversion H |].
  rewrite group_mask_cons, count_true_cons.
  apply elem_of_cons in H. destruct H as [<- | H].
  - rewrite bool_decide_true by reflexivity. lia.
  - specialize (IH H). lia.
Qed.

Lemma value_counts_elem keys k c :
  (k, c) ∈ value_counts keys ->
  Some k ∈ keys /\ c = count_true (group_mask keys k).
Proof.
  unfold value_counts. rewrite merge_sort_Permutation. intros H.
  apply list_elem_of_fmap in H. destruct H as (k0 & [= -> ->] & Hk).
  split; [| reflexivity].
  apply elem_of_remove_dups, list_elem_of_omap in Hk.
  destruct Hk as ([k1 |] & Hin & E); [| discriminate]. injection E as ->. exact Hin.
Qed.

Lemma value_counts_nodup keys : NoDup ((value_counts keys).*1).
Proof.
  unfold value_counts. rewrite merge_sort_Permutation.
  rewrite <- list_fmap_compose. cbn.
  rewrite list_fmap_id. apply NoDup_remove_dups.
Qed.

Lemma count_true_group_le keys k :
  count_true (group_mask keys k) <= length keys.
Proof.
  etransitivity; [apply count_true_le |]. unfold group_mask. rewrite length_map.
  reflexivity.
Qed.

Lemma length_take_le {A} (mask : list bool) (l : list A) :
  length (take mask l) <= count_true mask.
Proof.
  revert l. induction mask as [| b mask IH]; intros [| x l]; cbn [take length];
    rewrite ?count_true_cons; try lia.
  specialize (IH l). destruct b; cbn [length]; lia.
Qed.

Lemma column_take_length_le mask c : column_length (column_take mask c) <= count_true mask.
Proof. destruct c; cbn; apply length_take_le. Qed.

Lemma strongly_sorted_fmap {A B} (R : relation A) (R' : relation B) (f : A -> B)
    (l : list A) :
  (forall x y, R x y -> R' (f x) (f y)) ->
  StronglySorted R l -> StronglySorted R' (f <$> l).
Proof.
  intros Hf. induction 1 as [| x l Hl IH Hx]; [constructor |].
  rewrite fmap_cons. constructor; [exact IH |].
  apply Forall_fmap. eapply Forall_impl; [exact Hx |]. intros y. apply Hf.
Qed.

Lemma getitem_lookup d n c : columns d !! n = Some c -> getitem d n = Ok c.
Proof. intros H. unfold getitem. rewrite H. reflexivity. Qed.

Lemma churn_reasons_body_inv d t :
  churn_reasons_body d = Ok (Some t) ->
  exists flags reasons,
    columns d !! "Churn_Binary" = Some flags /\
    columns d !! "Reasons_for_Churn" = Some reasons /\
    t = reason_row_of (inject_Z (Z.of_nat (count_true (eq_mask flags (PNum 1)))))
          <$> value_counts (column_keys (column_take (eq_mask flags (PNum 1)) reasons)).
Proof.
  unfold churn_reasons_body.
  destruct (columns d !! "Churn_Binary") as [flags |] eqn:Ef;
    [rewrite (getitem_lookup _ _ _ Ef) | rewrite (getitem_missing _ _ Ef); discriminate].
  cbn [mbind res_bind]. rewrite has_column_loc, getitem_loc. unfold has_column.
  destruct (columns d !! "Reasons_for_Churn") as [reasons |] eqn:Er.
  - rewrite bool_decide_true by eauto. rewrite (getitem_lookup _ _ _ Er).
    cbn [mbind res_bind]. intros [= <-]. exists flags, reasons. repeat split.
  - rewrite bool_decide_false by (intros [? ?]; discriminate). discriminate.
Qed.

(** X7.  When the churn-reason table is produced, its reasons are
    pairwise different, each with a positive count, in descending order of
    count; the counts add up to the churned rows that have a reason
    (hence to at most the number of churned rows); and every percentage
    is a number in [0, 100]. *)
Theorem churn_reasons_table (d : DataFrame) (t : list reason_row) :
  churn_reasons_body d = Ok (Some t) ->
  exists flags reasons,
    columns d !! "Churn_Binary" = Some flags /\
    columns d !! "Reasons_for_Churn" = Some reasons /\
    let churned := eq_mask flags (PNum 1) in
    sum_list (Count <$> t) = count_true (notna (column_take churned reasons)) /\
    sum_list (Count <$> t) <= count_true churned /\
    NoDup (Reason <$> t) /\
    StronglySorted (fun a b => Count b <= Count a) t /\
    Forall (fun r => 0 < Count r /\
                     exists q, Percentage r = Fin q /\ (0 <= q <= 100)%Q) t.
Proof.
  intros H. apply churn_reasons_body_inv in H.
  destruct H as (flags & reasons & Hf & Hr & ->).
  exists flags, reasons. split; [exact Hf |]. split; [exact Hr |]. cbv zeta.
  set (mask := eq_mask flags (PNum 1)).
  set (rc := column_take mask reasons).
  set (n := inject_Z (Z.of_nat (count_true mask))).
  assert (Hsum : sum_list (Count <$> (reason_row_of n <$> value_counts (column_keys rc))) =
                 count_true (notna rc)).
  { rewrite <- list_fmap_compose.
    change (Count ∘ reason_row_of n) with (@snd key nat).
    apply value_counts_total. }
  split; [exact Hsum |]. split; [| split; [| split]].
  - rewrite Hsum. etransitivity; [apply count_true_le |].
    rewrite length_notna. apply column_take_length_le.
  - rewrite <- list_fmap_compose.
    change (Reason ∘ reason_row_of n) with (@fst key nat).
    apply value_counts_nodup.
  - apply (strongly_sorted_fmap count_ge).
    + intros x y Hxy. exact Hxy.
    + apply StronglySorted_merge_sort; apply _.
  - apply Forall_fmap, Forall_forall. intros [k c] Hkc.
    apply value_counts_elem in Hkc. destruct Hkc as [Hin ->]. cbn [Count Percentage reason_row_of fst snd].
    pose proof (group_mask_positive _ _ Hin) as Hpos.
    split; [exact Hpos |].
    assert (Hle : count_true (group_mask (column_keys rc) k) <= count_true mask).
    { etransitivity; [apply count_true_group_le |].
      rewrite length_column_keys. apply column_take_length_le. }
    apply risk_percentage_range.
    + split.
      * change 0%Q with (inject_Z 0). rewrite <- Zle_Qle. lia.
      * unfold n. rewrite <- Zle_Qle. apply Nat2Z.inj_le, Hle.
    + unfold n. change 0%Q with (inject_Z 0). rewrite <- Zlt_Qlt.
      apply (Nat2Z.inj_lt 0). lia.
Qed.

Lemma churn_reasons_table_witness :
  exists t, churn_reasons_body reasons_table = Ok (Some t) /\
            sum_list (Count <$> t) <= 1 /\ NoDup (Reason <$> t).
Proof.
  destruct (churn_reasons_body reasons_table) as [[t |] | e] eqn:E;
    [| vm_compute in E; discriminate | vm_compute in E; discriminate].
  destruct (churn_reasons_table reasons_table t E)
    as (flags & reasons & Hf & _ & _ & Hle & Hnd & _).
  vm_compute in Hf. injection Hf as <-.
  exists t. split; [reflexivity |]. split; [exact Hle | exact Hnd].
Defined.

(** ** The at-risk cohorts *)

Lemma count_true_zip_andb_r (m1 m2 : list bool) :
  count_true (zip_with andb m1 m2) <= count_true m2.
Proof.
  revert m2. induction m1 as [| a m1 IH]; intros [| b m2]; cbn [zip_with];
    rewrite ?count_true_cons; try (unfold count_true; simpl; lia).
  specialize (IH m2). destruct a, b; simpl; lia.
Qed.

Lemma predictive_body_inv d p :
  predictive_body d = Ok p ->
  exists sat rev ten,
    getnum d "Satisfaction_Rate" = Ok sat /\
    getnum d "Total_Revenue" = Ok rev /\
    getnum d "Customer_Tenure_in_months" = Ok ten /\
    let at_risk := cmp_mask (fun q => Qle_bool q 2) sat in
    let high := zip_with andb (ge_mask rev (quantile (3 # 4) rev)) at_risk in
    at_risk_count p = count_true at_risk /\
    at_risk_revenue p = np_sum (take at_risk rev) /\
    high_value_at_risk_count p = count_true high /\
    high_value_at_risk_revenue p = np_sum (take high rev).
Proof.
  unfold predictive_body.
  destruct (getnum d "Satisfaction_Rate") as [sat |] eqn:Es; [| discriminate].
  cbn [mbind res_bind]. rewrite getnum_loc.
  destruct (getnum d "Total_Revenue") as [rev |] eqn:Er; [| discriminate].
  cbn [mbind res_bind].
  destruct (getnum d "Customer_Tenure_in_months") as [ten |] eqn:Et; [| discriminate].
  cbn [mbind res_bind].
  match goal with
  | |- context [mbind _ (if ?b then _ else _)] => destruct b
  end.
  - rewrite !getnum_loc. destruct (getnum d "Churn_Binary") as [cb |];
      cbn [mbind res_bind]; [| discriminate].
    rewrite ?getnum_loc, Er. cbn [mbind res_bind].
    intros [= <-]. exists sat, rev, ten. repeat split.
  - cbn [mbind res_bind]. rewrite getnum_loc, Er. cbn [mbind res_bind].
    intros [= <-]. exists sat, rev, ten. repeat split.
Qed.

(** X8.  The high-value customers at risk are among the at-risk
    customers: their number is at most the at-risk count, which is at
    most the number of satisfaction cells. *)
Theorem high_value_within_at_risk (d : DataFrame) (p : predictive) :
  predictive_body d = Ok p ->
  exists sat rev,
    getnum d "Satisfaction_Rate" = Ok sat /\
    getnum d "Total_Revenue" = Ok rev /\
    high_value_at_risk_count p <= at_risk_count p /\
    at_risk_count p <= length sat.
Proof.
  intros H. apply predictive_body_inv in H.
  destruct H as (sat & rev & ten & Hs & Hr & _ & H). cbv zeta in H.
  destruct H as (H1 & _ & H3 & _).
  exists sat, rev. split; [exact Hs |]. split; [exact Hr |].
  split; [rewrite H1, H3; apply count_true_zip_andb_r |].
  rewrite H1. etransitivity; [apply count_true_le |]. rewrite length_cmp_mask. reflexivity.
Qed.

Lemma high_value_within_at_risk_witness :
  exists p, predictive_body sample_table = Ok p /\
            high_value_at_risk_count p <= at_risk_count p /\ at_risk_count p <= 3.
Proof.
  destruct (predictive_body sample_table) as [p | e] eqn:E;
    [| vm_compute in E; discriminate].
  destruct (high_value_within_at_risk sample_table p E)
    as (sat & rev & Hs & _ & H1 & H2).
  vm_compute in Hs. injection Hs as <-.
  exists p. split; [reflexivity |]. split; [exact H1 | exact H2].
Defined.

Lemma round2_whole (z : Z) : (round2 (inject_Z z) == inject_Z z)%Q.
Proof.
  apply Qle_antisym; apply (round2_bounds z z); split; apply Qle_refl.
Qed.

Lemma Qsum_perm (l l' : list Q) : l ≡ₚ l' -> (Qsum l == Qsum l')%Q.
Proof.
  induction 1 as [| x l l' _ IH | x y l | l1 l2 l3 _ IH1 _ IH2]; cbn [Qsum].
  - reflexivity.
  - rewrite IH. reflexivity.
  - ring.
  - rewrite IH1. exact IH2.
Qed.

Lemma Qsum_whole {A} (f : A -> Q) (g : A -> nat) (l : list A) :
  (forall x, x ∈ l -> (f x == inject_Z (Z.of_nat (g x)))%Q) ->
  (Qsum (f <$> l) == inject_Z (Z.of_nat (sum_list (g <$> l))))%Q.
Proof.
  induction l as [| x l IH]; intros H; csimpl; [reflexivity |].
  rewrite (H x) by left. rewrite IH by (intros y Hy; apply H; right; exact Hy).
  rewrite Nat2Z.inj_add, inject_Z_plus. reflexivity.
Qed.

Lemma eq_mask_take mask (v : list (option Q)) x :
  eq_mask (NumCol (take mask v)) x = take mask (eq_mask (NumCol v) x).
Proof. unfold eq_mask. cbn [column_cells]. rewrite <- !take_map. reflexivity. Qed.

Lemma all_true_take {A} (mask : list bool) (l : list A) :
  Forall (fun b => b = true) mask -> length mask = length l -> take mask l = l.
Proof.
  intros H. revert l. induction H as [| b mask -> _ IH]; intros [| x l] Hlen;
    simpl in Hlen; try lia; [reflexivity |].
  cbn [take]. rewrite IH by lia. reflexivity.
Qed.

Lemma all_true_zip_andb (m1 m2 : list bool) :
  Forall (fun b => b = true) m1 -> length m1 = length m2 -> zip_with andb m1 m2 = m2.
Proof.
  intros H. revert m2. induction H as [| b m1 -> _ IH]; intros [| x m2] Hlen;
    simpl in Hlen; try lia; [reflexivity |].
  cbn [zip_with andb]. rewrite IH by lia. reflexivity.
Qed.

Lemma int_whole (z : Z) : int (inject_Z z) = z.
Proof. unfold int, inject_Z. cbn [Qnum Qden]. apply Z.quot_1_r. Qed.

(** The churned customers of a summary, for a column of flags: each group
    holds a whole number, and the groups add up to the churned rows that
    have a key. *)
Lemma summary_rows_churned observed kc cc (cb rev : list (option Q)) price sat :
  closed kc -> column_length kc = length cb -> Forall binary cb ->
  (Qsum (Churned_Customers <$> summary_rows observed kc cc cb rev price sat) ==
   inject_Z (Z.of_nat (count_true
     (zip_with andb (notna kc) (eq_mask (NumCol cb) (PNum 1))))))%Q.
Proof.
  intros Hc Hlen Hb. unfold summary_rows. rewrite <- list_fmap_compose.
  rewrite (Qsum_whole _
    (fun k => count_true (take (group_mask (column_keys kc) k)
                            (eq_mask (NumCol cb) (PNum 1))))).
  - rewrite groups_partition; [reflexivity | apply group_keys_covers, Hc |].
    rewrite length_column_keys. unfold eq_mask. cbn [column_cells].
    rewrite !length_map. exact Hlen.
  - intros k _. cbn [compose percent_row round_row aggregate Churned_Customers].
    rewrite (binary_sum _ (take_binary _ _ Hb)), eq_mask_take.
    apply round2_whole.
Qed.

Lemma kpis_churned d k flags :
  columns d !! "Churn_Binary" = Some (NumCol flags) ->
  primary_kpis_body d = Ok k ->
  churned_customers k = int (nansum flags).
Proof.
  intros Hf H. unfold primary_kpis_body in H.
  rewrite (getnum_lookup _ _ _ Hf) in H. cbn [numeric mbind res_bind] in H.
  destruct (getitem d "Churn_Binary"); [| discriminate]. cbn [mbind res_bind] in H.
  destruct (getnum (loc _ d) "Total_Revenue"); [| discriminate]. cbn [mbind res_bind] in H.
  destruct (getnum d "Total_Revenue"); [| discriminate]. cbn [mbind res_bind] in H.
  destruct (getnum d "Satisfaction_Rate"); [| discriminate]. cbn [mbind res_bind] in H.
  injection H as <-. reflexivity.
Qed.

(** X9.  In each of the six grouped analyses of a loaded table the
    churned customers of the groups add up to the number of rows that have
    a group key and whose churn flag is 1 (whether or not the customer
    identifier is blank).  When no key is missing they add up to the
    churned customers of the primary KPIs. *)
Theorem group_churned_total (parse_number : string -> option Q)
    (to_datetime : column -> column) (raw d : DataFrame)
    (observed : bool) (d' : DataFrame) (by_ : string) (t : list summary_row) :
  loads_to parse_number to_datetime raw d ->
  grouped_analysis observed d d' by_ t ->
  exists kc flags,
    columns d' !! by_ = Some kc /\
    getnum d "Churn_Binary" = Ok flags /\
    (Qsum (Churned_Customers <$> t) ==
     inject_Z (Z.of_nat (count_true
       (zip_with andb (notna kc) (eq_mask (NumCol flags) (PNum 1))))))%Q /\
    (complete kc -> forall k, primary_kpis_body d = Ok k ->
     (Qsum (Churned_Customers <$> t) == inject_Z (churned_customers k))%Q).
Proof.
  intros Hload H.
  destruct (grouped_frame _ _ _ _ Hload _ _ _ _ H) as (Hwf & Hidx & Hcb & _).
  destruct (loaded_getnum_flags _ _ _ _ Hload) as (flags & Hf & Hg & Hb & Hlen).
  destruct (grouped_analysis_inv _ _ _ _ _ H) as (obs & wp & ws & t0 & Hsum & Hperm).
  destruct (groupby_summary_inv _ _ _ _ _ _ _ Hsum)
    as (kc & cc & cb & rev & price & sat & Hkc & Hcc & Hcb' & _ & ->).
  rewrite Hf in Hcb. rewrite (getnum_lookup _ _ _ Hcb) in Hcb'.
  injection Hcb' as <-.
  assert (Hk : column_length kc = length flags).
  { rewrite (Hwf _ _ Hkc), Hidx, Hlen. reflexivity. }
  assert (Htot : (Qsum (Churned_Customers <$> t) ==
     inject_Z (Z.of_nat (count_true
       (zip_with andb (notna kc) (eq_mask (NumCol flags) (PNum 1))))))%Q).
  { rewrite (Qsum_perm _ _ (fmap_Permutation Churned_Customers _ _ Hperm)).
    apply summary_rows_churned; [| exact Hk | exact Hb].
    apply (grouped_key_closed _ _ _ _ Hload _ _ _ _ _ H Hkc). }
  exists kc, flags. split; [exact Hkc |]. split; [exact Hg |]. split; [exact Htot |].
  intros Hc k Hkpi. rewrite Htot, (kpis_churned _ _ _ Hf Hkpi).
  rewrite all_true_zip_andb; [| exact Hc |].
  - rewrite (binary_sum _ Hb), int_whole. reflexivity.
  - rewrite length_notna. unfold eq_mask. cbn [column_cells]. rewrite !length_map.
    exact Hk.
Qed.

Lemma group_churned_total_witness :
  exists t, grouped_analysis true sample_table sample_table "State" t /\
            (Qsum (Churned_Customers <$> t) == 1)%Q.
Proof.
  destruct (geographic_body sample_table) as [[[t high] avg] | e] eqn:E;
    [| vm_compute in E; discriminate].
  assert (Hload : loads_to no_parse keep_dates sample_source sample_table).
  { split; [decide_closed |]. split; [decide_closed |].
    split; [intros c; reflexivity |]. split; [decide_closed | reflexivity]. }
  pose proof (by_state true _ _ _ _ E) as Hg.
  destruct (group_churned_total _ _ _ _ _ _ _ _ Hload Hg)
    as (kc & flags & Hkc & Hf & Htot & _).
  vm_compute in Hkc. injection Hkc as <-.
  vm_compute in Hf. injection Hf as <-.
  exists t. split; [exact Hg |]. rewrite Htot. reflexivity.
Defined.










(** ** The dashboard's flags *)

Section DashboardFacts.
Variable parse_number : string -> option Q.
Variable to_datetime : column -> column.
Variable read_file : gmap string (list Byte.byte) -> string -> res DataFrame.
Variable observed : bool.

Lemma load_data_results read_csv path a :
  analysis_results (load_data parse_number to_datetime read_csv path a).2 =
  analysis_results a.
Proof.
  unfold load_data. destruct (truthy path); cbn [data_path];
    match goal with |- context [if ?b then read_csv ?x else _] =>
      destruct b; [destruct (read_csv x) |] end; reflexivity.
Qed.

Lemma load_data_outcome read_csv path a :
  let r := load_data parse_number to_datetime read_csv path a in
  (r.1 = true /\ is_Some (df r.2)) \/ (r.1 = false /\ df r.2 = df a).
Proof.
  cbv zeta.
  destruct (load_data_cases parse_number to_datetime read_csv path a)
    as [(d & _ & _ & Ht & Hd) | (_ & Hf & Hd)].
  - left. split; [exact Ht | rewrite Hd; eauto].
  - right. split; assumption.
Qed.

Lemma run_complete_outcome a :
  (run_complete_analysis observed a).1 = true <-> is_Some (df a).
Proof.
  destruct (df a) as [d |] eqn:E.
  - rewrite (run_complete_loaded observed a d E). split; eauto.
  - rewrite (run_complete_not_loaded observed a E). split; [discriminate |].
    intros [? ?]; discriminate.
Qed.

Lemma run_complete_keeps_table a :
  is_Some (df a) -> is_Some (df (run_complete_analysis observed a).2).
Proof.
  intros [d E]. rewrite (run_complete_loaded observed a d E). cbn [snd].
  rewrite df_print.
  destruct (run_all_effect observed (print (Info "Starting MTN Churn Analysis...") a) d)
    as (Hd & _); [rewrite df_print; exact E |].
  rewrite Hd. eauto.
Qed.

Lemma step_consistent s act :
  consistent observed s -> consistent observed (step parse_number to_datetime read_file observed s act).
Proof.
  intros (Hc & Hl & Hf). destruct act as [file |]; cbn [step].
  - unfold dashboard_load_data. cbn [uploaded_file files analyzer data_loaded
      analysis_complete notices].
    destruct file as [buffer |];
      [| cbn [snd]; split; [| split]; assumption].
    set (rd := read_file _).
    destruct (load_data_outcome rd (Some "temp_data.csv") (analyzer s))
      as [[Ht Hd] | [Ht Hd]]; cbv zeta in Ht, Hd; rewrite Ht; cbn [snd].
    + split; [| split]; cbn [analysis_complete data_loaded analyzer];
        [intros _; reflexivity | intros _; exact Hd | discriminate].
    + split; [| split]; cbn [analysis_complete data_loaded analyzer].
      * exact Hc.
      * intros H. rewrite Hd. exact (Hl H).
      * intros H. destruct (Hf H) as (a0 & Ha0 & Hdf & Hres).
        exists a0. split; [exact Ha0 |]. split.
        -- rewrite Hd. exact Hdf.
        -- rewrite load_data_results. exact Hres.
  - unfold run_analysis. destruct (data_loaded s) eqn:El.
    + destruct (run_complete_analysis observed (analyzer s)).1 eqn:Er; cbn [snd].
      * apply run_complete_outcome in Er.
        split; [| split]; cbn [analysis_complete data_loaded analyzer].
        -- intros _. reflexivity.
        -- intros _. apply run_complete_keeps_table, Er.
        -- intros _. exists (analyzer s). split; [exact Er |]. split; reflexivity.
      * exfalso. specialize (Hl eq_refl). apply run_complete_outcome in Hl. congruence.
    + cbn [snd]. split; [| split]; cbn [analysis_complete data_loaded analyzer].
      * exact Hc.
      * discriminate.
      * exact Hf.
Qed.

(** X11.  Whatever the user does in the sidebar, in whatever order, the
    dashboard never marks the analysis complete without data being marked
    loaded, never marks data loaded without the analyzer holding a table,
    and whenever the analysis is marked complete the results on display
    are those of a full run on the table now held: loading another file
    clears the mark, and an upload that fails to load changes neither the
    table nor the results. *)
Theorem dashboard_flags_consistent (fs : gmap string (list Byte.byte))
    (acts : list action) :
  let s := foldl (step parse_number to_datetime read_file observed) (new_session fs) acts in
  (analysis_complete s = true -> data_loaded s = true) /\
  (data_loaded s = true -> is_Some (df (analyzer s))) /\
  (analysis_complete s = true ->
   exists a0, is_Some (df a0) /\
     df (analyzer s) = df (run_complete_analysis observed a0).2 /\
     analysis_results (analyzer s) =
       analysis_results (run_complete_analysis observed a0).2).
Proof.
  cbv zeta.
  assert (H0 : consistent observed (new_session fs)).
  { split; [| split]; cbn; discriminate. }
  revert H0. generalize (new_session fs).
  induction acts as [| act acts IH]; intros s Hs; cbn [foldl].
  - exact Hs.
  - apply IH, step_consistent, Hs.
Qed.

End DashboardFacts.

(** ** The executive summary after a run *)

Lemma shaped_insert m r : shaped m -> shaped (<[entry_name r := r]> m).
Proof. intros H. apply map_Forall_insert_2; [reflexivity | exact H]. Qed.

Lemma shaped_write_all l m :
  Forall (fun kv : string * result => kv.1 = entry_name kv.2) l ->
  shaped m -> shaped (write_all l m).
Proof.
  intros Hl. revert m. induction Hl as [| [k v] l Hkv _ IH]; intros m Hm; [exact Hm |].
  cbn [write_all foldl fst snd]. fold (write_all l (<[k:=v]> m)).
  apply IH. cbn [fst snd] in Hkv. subst k. apply shaped_insert, Hm.
Qed.

Lemma stored_shaped observed d :
  Forall (fun kv : string * result => kv.1 = entry_name kv.2) (stored observed d).
Proof.
  unfold stored. cbv zeta. rewrite !Forall_app.
  repeat split;
    match goal with
    | |- context [stored_by _ _ ?r] => destruct r; cbn; repeat constructor
    | |- context [stored_reasons ?r] => destruct r as [[?|]|]; cbn; repeat constructor
    end.
Qed.

(** The entry a full run leaves under the name of an analysis that
    succeeds: the one this run computed. *)
Lemma write_all_last l1 k v l2 (m : gmap string result) :
  k ∉ l2.*1 -> write_all (l1 ++ (k, v) :: l2) m !! k = Some v.
Proof.
  intros H. rewrite write_all_app. cbn [write_all foldl fst snd].
  fold (write_all l2 (<[k:=v]> (write_all l1 m))).
  rewrite write_all_lookup_notin by exact H. apply lookup_insert_eq.
Qed.

Lemma stored_by_notin {A} name (wrap : A -> result) (r : res A) k :
  k <> name -> k ∉ (stored_by name wrap r).*1.
Proof.
  intros Hne H. destruct r; cbn in H; [| inversion H].
  apply list_elem_of_singleton in H. congruence.
Qed.

Lemma stored_reasons_notin r k : k <> "churn_reasons" -> k ∉ (stored_reasons r).*1.
Proof.
  intros Hne H. destruct r as [[t |] | e]; cbn in H; try (inversion H; fail).
  apply list_elem_of_singleton in H. congruence.
Qed.

Lemma stored_geographic observed d geo high avg m :
  geographic_body d = Ok (geo, high, avg) ->
  write_all (stored observed d) m !! "geographic_analysis" =
  Some (GeographicAnalysis geo high avg).
Proof.
  intros H. unfold stored. cbv zeta. rewrite H. cbn [stored_by fst snd].
  rewrite 2!write_all_app. cbn [app].
  apply (write_all_last []).
  rewrite !fmap_app, !not_elem_of_app.
  repeat split;
    first [apply stored_by_notin; discriminate | apply stored_reasons_notin; discriminate].
Qed.

Lemma stored_device observed d t m :
  device_body d = Ok t ->
  write_all (stored observed d) m !! "device_analysis" = Some (DeviceAnalysis t).
Proof.
  intros H. unfold stored. cbv zeta. rewrite H. cbn [stored_by].
  rewrite 3!write_all_app. cbn [app].
  apply (write_all_last []).
  rewrite !fmap_app, !not_elem_of_app.
  repeat split;
    first [apply stored_by_notin; discriminate | apply stored_reasons_notin; discriminate].
Qed.

Ltac bullet_cases H :=
  repeat (apply elem_of_cons in H; destruct H as [H | H]);
  try (inversion H; fail); simplify_eq.

Lemma kpi_lines_bullets m l lab v :
  kpi_lines m = Ok l -> Bullet lab v ∈ l ->
  lab <> "Highest Risk State" /\ lab <> "Highest Risk Device".
Proof.
  unfold kpi_lines. destruct (m !! "primary_kpis") as [[] |]; try discriminate;
    intros [= <-] H; bullet_cases H; split; discriminate.
Qed.

Lemma predictive_lines_bullets m l lab v :
  predictive_lines m = Ok l -> Bullet lab v ∈ l ->
  lab <> "Highest Risk State" /\ lab <> "Highest Risk Device".
Proof.
  unfold predictive_lines. destruct (m !! "predictive_analytics") as [[] |];
    try discriminate; intros [= <-] H; bullet_cases H; split; discriminate.
Qed.

Lemma geographic_lines_state m l geo high avg v :
  m !! "geographic_analysis" = Some (GeographicAnalysis geo high avg) ->
  geographic_lines m = Ok l ->
  Bullet "Highest Risk State" v ∈ l <->
  exists r0, high !! 0 = Some r0 /\ v = KeyAndRate (group r0) (Churn_Rate r0).
Proof.
  intros Hm. unfold geographic_lines. rewrite Hm. intros [= <-].
  destruct high as [| r0 high]; split.
  - intros H. bullet_cases H.
  - intros (r & Hr & _). discriminate.
  - intros H. bullet_cases H. exists r0. split; reflexivity.
  - intros (r & [= <-] & ->). do 2 right. left.
Qed.

Lemma geographic_lines_no_device m l lab v :
  geographic_lines m = Ok l -> Bullet lab v ∈ l -> lab <> "Highest Risk Device".
Proof.
  unfold geographic_lines.
  destruct (m !! "geographic_analysis") as [[? | ? ? | ? high ? | ? | ? ? ? | ? | ?] |];
    try discriminate; intros [= <-] H; [destruct high |]; bullet_cases H; discriminate.
Qed.

Lemma device_lines_device m l t v :
  m !! "device_analysis" = Some (DeviceAnalysis t) ->
  device_lines m = Ok l ->
  Bullet "Highest Risk Device" v ∈ l <->
  exists r0, t !! 0 = Some r0 /\ v = KeyAndRate (group r0) (Churn_Rate r0).
Proof.
  intros Hm. unfold device_lines. rewrite Hm. intros [= <-].
  destruct t as [| r0 t]; split.
  - intros H. bullet_cases H.
  - intros (r & Hr & _). discriminate.
  - intros H. bullet_cases H. exists r0. split; reflexivity.
  - intros (r & [= <-] & ->). right. left.
Qed.

Lemma device_lines_no_state m l lab v :
  device_lines m = Ok l -> Bullet lab v ∈ l -> lab <> "Highest Risk State".
Proof.
  unfold device_lines.
  destruct (m !! "device_analysis") as [[? | ? ? | ? ? ? | t | ? ? ? | ? | ?] |];
    try discriminate; intros [= <-] H; [destruct t |]; bullet_cases H; discriminate.
Qed.

(** On shaped results every section can be written. *)
Lemma shaped_lines m :
  shaped m ->
  exists k g dv p,
    kpi_lines m = Ok k /\ geographic_lines m = Ok g /\
    device_lines m = Ok dv /\ predictive_lines m = Ok p.
Proof.
  intros H.
  assert (Hk : exists k, kpi_lines m = Ok k).
  { unfold kpi_lines. destruct (m !! "primary_kpis") as [r |] eqn:E; [| eauto].
    pose proof (H _ _ E) as Hn. destruct r; try discriminate. eauto. }
  assert (Hg : exists g, geographic_lines m = Ok g).
  { unfold geographic_lines. destruct (m !! "geographic_analysis") as [r |] eqn:E; [| eauto].
    pose proof (H _ _ E) as Hn. destruct r; try discriminate. eauto. }
  assert (Hd : exists dv, device_lines m = Ok dv).
  { unfold device_lines. destruct (m !! "device_analysis") as [r |] eqn:E; [| eauto].
    pose proof (H _ _ E) as Hn. destruct r; try discriminate. eauto. }
  assert (Hp : exists p, predictive_lines m = Ok p).
  { unfold predictive_lines. destruct (m !! "predictive_analytics") as [r |] eqn:E; [| eauto].
    pose proof (H _ _ E) as Hn. destruct r; try discriminate. eauto. }
  destruct Hk as [k Hk], Hg as [g Hg], Hd as [dv Hd], Hp as [p Hp].
  exists k, g, dv, p. repeat split; assumption.
Qed.

(** The first row of a table sorted by rate that is strictly above some
    level heads the rows above that level. *)
Lemma above_head x geo r0 :
  StronglySorted rate_ge geo -> above x geo !! 0 = Some r0 ->
  geo !! 0 = Some r0 /\
  exists q0, Churn_Rate r0 = Some q0 /\
    forall r q, r ∈ geo -> Churn_Rate r = Some q -> (q <= q0)%Q.
Proof.
  intros Hs Hh.
  assert (Hin : r0 ∈ above x geo) by (apply list_elem_of_lookup; eauto).
  unfold above in Hin. apply list_elem_of_filter in Hin. destruct Hin as [Hgt Hin].
  unfold rate_gtb in Hgt.
  destruct (Churn_Rate r0) as [q0 |] eqn:E0; [| discriminate].
  destruct x as [m |]; [| discriminate]. apply Qlt_bool_iff in Hgt.
  destruct geo as [| g0 geo']; [inversion Hin |].
  assert (Hg0 : g0 = r0 \/ rate_ge g0 r0).
  { apply (strongly_sorted_head rate_ge (g0 :: geo')); [exact Hs | reflexivity | exact Hin]. }
  assert (Hmax : forall r q, r ∈ g0 :: geo' -> Churn_Rate r = Some q ->
                   exists q1, Churn_Rate g0 = Some q1 /\ (q <= q1)%Q).
  { intros r q Hr Hq.
    destruct (strongly_sorted_head rate_ge (g0 :: geo') g0 r Hs eq_refl Hr) as [-> | Hge].
    - exists q. split; [exact Hq | apply Qle_refl].
    - unfold rate_ge in Hge. rewrite Hq in Hge.
      destruct (Churn_Rate g0) as [q1 |]; [| contradiction]. eauto. }
  destruct (Hmax r0 q0 Hin E0) as (q1 & E1 & Hle).
  assert (Hhead : above (Some m) (g0 :: geo') !! 0 = Some g0).
  { unfold above. rewrite filter_cons. rewrite decide_True; [reflexivity |].
    unfold rate_gtb. rewrite E1. apply Qlt_bool_iff. lra. }
  rewrite Hhead in Hh. injection Hh as ->.
  split; [reflexivity |]. exists q0. split; [reflexivity |].
  intros r q Hr Hq. destruct (Hmax r q Hr Hq) as (q2 & E2 & Hle2).
  rewrite E0 in E2. injection E2 as <-. exact Hle2.
Qed.

Lemma geographic_body_sorted d geo high avg :
  geographic_body d = Ok (geo, high, avg) ->
  StronglySorted rate_ge geo /\ high = above (series_mean (rates geo)) geo.
Proof.
  unfold geographic_body.
  destruct (groupby_summary true d "State" "Customer_ID" false true) as [t |];
    [| discriminate].
  cbn [mbind res_bind]. intros [= <- <- <-]. split; [apply sort_by_rate_sorted | reflexivity].
Qed.

Lemma device_body_sorted d t : device_body d = Ok t -> StronglySorted rate_ge t.
Proof.
  unfold device_body.
  destruct (groupby_summary true d "MTN_Device" "Customer_ID" true true) as [t0 |];
    [| discriminate].
  cbn [mbind res_bind]. intros [= <-]. apply sort_by_rate_sorted.
Qed.

Lemma summary_state_bullet k g dv p v :
  (forall lab w, Bullet lab w ∈ k -> lab <> "Highest Risk State") ->
  (forall lab w, Bullet lab w ∈ dv -> lab <> "Highest Risk State") ->
  (forall lab w, Bullet lab w ∈ p -> lab <> "Highest Risk State") ->
  Bullet "Highest Risk State" v ∈ Title :: Rule :: k ++ g ++ dv ++ p <->
  Bullet "Highest Risk State" v ∈ g.
Proof.
  intros Hk Hd Hp. rewrite !elem_of_cons, !elem_of_app. split.
  - intros [H | [H | [H | [H | [H | H]]]]]; try discriminate; try exact H.
    + exfalso. exact (Hk _ _ H eq_refl).
    + exfalso. exact (Hd _ _ H eq_refl).
    + exfalso. exact (Hp _ _ H eq_refl).
  - intros H. do 3 right. left. exact H.
Qed.

Lemma summary_device_bullet k g dv p v :
  (forall lab w, Bullet lab w ∈ k -> lab <> "Highest Risk Device") ->
  (forall lab w, Bullet lab w ∈ g -> lab <> "Highest Risk Device") ->
  (forall lab w, Bullet lab w ∈ p -> lab <> "Highest Risk Device") ->
  Bullet "Highest Risk Device" v ∈ Title :: Rule :: k ++ g ++ dv ++ p <->
  Bullet "Highest Risk Device" v ∈ dv.
Proof.
  intros Hk Hg Hp. rewrite !elem_of_cons, !elem_of_app. split.
  - intros [H | [H | [H | [H | [H | H]]]]]; try discriminate; try exact H.
    + exfalso. exact (Hk _ _ H eq_refl).
    + exfalso. exact (Hg _ _ H eq_refl).
    + exfalso. exact (Hp _ _ H eq_refl).
  - intros H. do 4 right. left. exact H.
Qed.

(** X12.  After a full run the executive summary can always be written,
    and the state and the device it names as the highest risk are the
    ones with the highest churn rate: when this run's geographic analysis
    succeeded, a "Highest Risk State" line appears exactly when the
    table of high-risk states it stored has a row, and it names the
    first row of the state table, whose rate no other state exceeds;
    likewise the "Highest Risk Device" line appears exactly when the
    device table has a row, and names its first row. *)
Theorem summary_names_highest_risk (observed : bool) (a : MTNChurnAnalysis)
    (d : DataFrame) :
  df a = Some d -> shaped (analysis_results a) ->
  exists rep,
    get_summary_report (run_complete_analysis observed a).2 = Ok rep /\
    forall lines, rep = Summary lines ->
      (forall geo high avg, geographic_body d = Ok (geo, high, avg) ->
         (high <> [] <-> exists v, Bullet "Highest Risk State" v ∈ lines) /\
         (forall v, Bullet "Highest Risk State" v ∈ lines ->
            exists r0 q0, geo !! 0 = Some r0 /\ Churn_Rate r0 = Some q0 /\
              v = KeyAndRate (group r0) (Some q0) /\
              forall r q, r ∈ geo -> Churn_Rate r = Some q -> (q <= q0)%Q)) /\
      (forall t, device_body d = Ok t ->
         (t <> [] <-> exists v, Bullet "Highest Risk Device" v ∈ lines) /\
         (forall v, Bullet "Highest Risk Device" v ∈ lines ->
            exists r0, t !! 0 = Some r0 /\
              v = KeyAndRate (group r0) (Churn_Rate r0) /\
              forall q0 r q, Churn_Rate r0 = Some q0 -> r ∈ t ->
                Churn_Rate r = Some q -> (q <= q0)%Q)).
Proof.
  intros Hdf Hsh. unfold get_summary_report. cbv zeta.
  rewrite (run_complete_results observed a d Hdf).
  set (m := write_all (stored observed d) (analysis_results a)).
  assert (Hm : shaped m) by (apply shaped_write_all; [apply stored_shaped | exact Hsh]).
  destruct (shaped_lines m Hm) as (k & g & dv & p & Hk & Hg & Hd & Hp).
  destruct (decide (m = ∅)) as [_ | _]; [exists NoResults; split; [reflexivity | discriminate] |].
  rewrite Hk, Hg, Hd, Hp. cbn [mbind res_bind]. eexists. split; [reflexivity |].
  intros lines [= <-]. split.
  - intros geo high avg Hgeo.
    pose proof (stored_geographic observed d geo high avg (analysis_results a) Hgeo) as Hentry.
    fold m in Hentry.
    destruct (geographic_body_sorted _ _ _ _ Hgeo) as [Hsorted Hhigh].
    assert (Hiff : forall v, Bullet "Highest Risk State" v ∈ Title :: Rule :: k ++ g ++ dv ++ p <->
              exists r0, high !! 0 = Some r0 /\ v = KeyAndRate (group r0) (Churn_Rate r0)).
    { intros v. rewrite summary_state_bullet.
      - apply (geographic_lines_state m g geo high avg v Hentry Hg).
      - intros lab w H. apply (kpi_lines_bullets _ _ _ _ Hk H).
      - intros lab w H. apply (device_lines_no_state _ _ _ _ Hd H).
      - intros lab w H. apply (predictive_lines_bullets _ _ _ _ Hp H). }
    split; [split |].
    + intros Hne. destruct high as [| r0 high']; [congruence |].
      eexists. apply Hiff. exists r0. split; reflexivity.
    + intros [v Hv]. apply Hiff in Hv. destruct Hv as (r0 & Hr0 & _).
      intros ->. discriminate.
    + intros v Hv. apply Hiff in Hv. destruct Hv as (r0 & Hr0 & ->).
      rewrite Hhigh in Hr0.
      destruct (above_head _ _ _ Hsorted Hr0) as (Hhead & q0 & Hq0 & Hmax).
      exists r0, q0. rewrite Hq0. repeat split; assumption.
  - intros t Ht.
    pose proof (stored_device observed d t (analysis_results a) Ht) as Hentry.
    fold m in Hentry.
    pose proof (device_body_sorted _ _ Ht) as Hsorted.
    assert (Hiff : forall v, Bullet "Highest Risk Device" v ∈ Title :: Rule :: k ++ g ++ dv ++ p <->
              exists r0, t !! 0 = Some r0 /\ v = KeyAndRate (group r0) (Churn_Rate r0)).
    { intros v. rewrite summary_device_bullet.
      - apply (device_lines_device m dv t v Hentry Hd).
      - intros lab w H. apply (kpi_lines_bullets _ _ _ _ Hk H).
      - intros lab w H. apply (geographic_lines_no_device _ _ _ _ Hg H).
      - intros lab w H. apply (predictive_lines_bullets _ _ _ _ Hp H). }
    split; [split |].
    + intros Hne. destruct t as [| r0 t']; [congruence |].
      eexists. apply Hiff. exists r0. split; reflexivity.
    + intros [v Hv]. apply Hiff in Hv. destruct Hv as (r0 & Hr0 & _).
      intros ->. discriminate.
    + intros v Hv. apply Hiff in Hv. destruct Hv as (r0 & Hr0 & ->).
      exists r0. split; [exact Hr0 |]. split; [reflexivity |].
      intros q0 r q Hq0 Hr Hq.
      destruct (strongly_sorted_head rate_ge t r0 r Hsorted Hr0 Hr) as [-> | Hge].
      * rewrite Hq0 in Hq. injection Hq as <-. apply Qle_refl.
      * unfold rate_ge in Hge. rewrite Hq0, Hq in Hge. exact Hge.
Qed.

Lemma summary_names_highest_risk_witness :
  exists rep lines,
    get_summary_report (run_complete_analysis true sample_analyzer).2 = Ok rep /\
    rep = Summary lines /\
    exists v, Bullet "Highest Risk Device" v ∈ lines.
Proof.
  assert (Hsh : shaped (analysis_results sample_analyzer)).
  { intros k r H. cbn in H. rewrite lookup_empty in H. discriminate. }
  destruct (summary_names_highest_risk true sample_analyzer sample_table eq_refl Hsh)
    as (rep & Hrep & H).
  destruct rep as [| lines].
  { exfalso. vm_compute in Hrep. discriminate. }
  exists (Summary lines), lines. split; [exact Hrep |]. split; [reflexivity |].
  destruct (H lines eq_refl) as [_ Hdev].
  destruct (device_body sample_table) as [t | e] eqn:E; [| vm_compute in E; discriminate].
  destruct (Hdev t eq_refl) as [[Hex _] _].
  apply Hex. intros ->. vm_compute in E. discriminate.
Defined.

(** ** What an export writes *)

Lemma string_length_app (s1 s2 : string) :
  String.length (s1 +:+ s2) = String.length s1 + String.length s2.
Proof. induction s1 as [| c s1 IH]; simpl; [reflexivity | f_equal; exact IH]. Qed.

Lemma string_app_inj_r (s1 s2 suffix : string) :
  s1 +:+ suffix = s2 +:+ suffix -> s1 = s2.
Proof.
  revert s2. induction s1 as [| c s1 IH]; intros [| c2 s2] H.
  - reflexivity.
  - apply (f_equal String.length) in H.
    change (String c2 s2 +:+ suffix) with (String c2 (s2 +:+ suffix)) in H.
    cbn [String.length] in H. rewrite !string_length_app in H.
    cbn [String.length] in H. lia.
  - apply (f_equal String.length) in H.
    change (String c s1 +:+ suffix) with (String c (s1 +:+ suffix)) in H.
    cbn [String.length] in H. rewrite !string_length_app in H.
    cbn [String.length] in H. lia.
  - change (String c (s1 +:+ suffix) = String c2 (s2 +:+ suffix)) in H.
    injection H as -> H. rewrite (IH _ H). reflexivity.
Qed.

Lemma csv_path_inj timestamp : Inj (=) (=) (csv_path timestamp).
Proof.
  intros s1 s2 H. unfold csv_path in H.
  apply String.app_inj, String.app_inj in H.
  exact (string_app_inj_r _ _ _ H).
Qed.

Lemma length_sheet_name s : String.length (sheet_name s) <= 31.
Proof.
  unfold sheet_name. generalize 31. intros n. revert s.
  induction n as [| n IH]; intros [| c s]; cbn; try lia.
  specialize (IH s). lia.
Qed.

Lemma items_elem order m name r :
  (name, r) ∈ items order m <-> name ∈ order /\ m !! name = Some r.
Proof.
  unfold items. rewrite list_elem_of_omap. split.
  - intros (n & Hn & H). destruct (m !! n) as [r' |] eqn:E; [| discriminate].
    cbn in H. injection H as -> ->. split; assumption.
  - intros [Hn E]. exists name. split; [exact Hn |]. rewrite E. reflexivity.
Qed.

Lemma items_cons name order m :
  items (name :: order) m =
  match m !! name with
  | Some r => (name, r) :: items order m
  | None => items order m
  end.
Proof. unfold items. csimpl. destruct (m !! name); reflexivity. Qed.

Lemma items_nodup order m : NoDup order -> NoDup (items order m).
Proof.
  induction 1 as [| n order Hn _ IH]; [constructor |].
  rewrite items_cons. destruct (m !! n) as [r |] eqn:E; [| exact IH].
  constructor; [| exact IH].
  intros Hin. apply Hn. apply items_elem in Hin. apply Hin.
Qed.

(** On shaped results the stems of an entry are pairwise different, also
    when cut to the length of a sheet name, and each starts with the
    name of its analysis and of no other. *)
Lemma shaped_stems m name r :
  shaped m -> m !! name = Some r ->
  NoDup (sheet_name <$> (export_stems name r).*1) /\
  Forall (fun stem => stem_owner stem = Some name /\
                      stem_owner (sheet_name stem) = Some name /\
                      sheet_name stem <> "Primary_KPIs")
    (export_stems name r).*1.
Proof.
  intros Hm E. rewrite (Hm _ _ E).
  destruct r; cbn; (split; [decide_closed | repeat constructor; vm_compute; congruence]).
Qed.

Lemma fmap_bind {A B C} (f : B -> C) (g : A -> list B) (l : list A) :
  f <$> (l ≫= g) = l ≫= (fun x => f <$> g x).
Proof.
  induction l as [| x l IH]; [reflexivity |].
  rewrite !bind_cons, fmap_app, IH. reflexivity.
Qed.

(** The stems of the selected entries are pairwise different, and stay
    so when cut to the length of a sheet name. *)
Lemma selected_stems_nodup m (sel : list (string * result)) :
  shaped m -> NoDup sel -> (forall n r, (n, r) ∈ sel -> m !! n = Some r) ->
  NoDup (sheet_name <$> (sel ≫= (fun kv => export_stems kv.1 kv.2)).*1).
Proof.
  intros Hm Hnd Hsel.
  rewrite <- list_fmap_compose.
  rewrite fmap_bind.
  apply NoDup_bind; [| | exact Hnd].
  - intros [n1 r1] [n2 r2] y H1 H2 Hy1 Hy2. cbn [fst snd] in Hy1, Hy2.
    pose proof (Hsel _ _ H1) as E1. pose proof (Hsel _ _ H2) as E2.
    destruct (shaped_stems m n1 r1 Hm E1) as [_ Ho1].
    destruct (shaped_stems m n2 r2 Hm E2) as [_ Ho2].
    rewrite Forall_forall in Ho1, Ho2.
    apply list_elem_of_fmap in Hy1. destruct Hy1 as (st1 & -> & Hst1).
    apply list_elem_of_fmap in Hy2. destruct Hy2 as (st2 & Hy & Hst2).
    cbn [compose] in Hy.
    destruct (Ho1 st1.1) as (_ & Hs1 & _); [apply list_elem_of_fmap_2, Hst1 |].
    destruct (Ho2 st2.1) as (_ & Hs2 & _); [apply list_elem_of_fmap_2, Hst2 |].
    cbn [compose] in Hs1. rewrite Hy, Hs2 in Hs1. injection Hs1 as ->.
    rewrite E1 in E2. injection E2 as ->. reflexivity.
  - intros [n r] H. cbn [fst snd]. rewrite list_fmap_compose.
    apply (shaped_stems m n r Hm (Hsel _ _ H)).
Qed.

Lemma write_files_snoc l kv fs :
  write_files (l ++ [kv]) fs = <[kv.1 := kv.2]> (write_files l fs).
Proof. unfold write_files. rewrite foldl_app. reflexivity. Qed.

Lemma write_files_notin l fs p : p ∉ l.*1 -> write_files l fs !! p = fs !! p.
Proof.
  induction l as [| kv l IH] using rev_ind; intros H; [reflexivity |].
  rewrite fmap_app, not_elem_of_app in H. destruct H as [H1 H2].
  rewrite write_files_snoc, lookup_insert_ne; [apply IH, H1 |].
  intros E. apply H2. subst p. cbn. left.
Qed.

Lemma write_files_in l fs p :
  p ∈ l.*1 -> exists f, (p, f) ∈ l /\ write_files l fs !! p = Some f.
Proof.
  induction l as [| [k f] l IH] using rev_ind; intros H; [inversion H |].
  rewrite write_files_snoc. cbn [fst snd].
  destruct (decide (k = p)) as [-> | Hne].
  - exists f. split; [apply elem_of_app; right; left | apply lookup_insert_eq].
  - rewrite fmap_app, elem_of_app in H. destruct H as [H | H].
    + destruct (IH H) as (f' & Hin & Hl). exists f'.
      split; [apply elem_of_app; left; exact Hin |].
      rewrite lookup_insert_ne by exact Hne. exact Hl.
    + cbn in H. apply list_elem_of_singleton in H. congruence.
Qed.

Lemma shaped_name_truthy m name r :
  shaped m -> m !! name = Some r -> truthy (Some name) = true.
Proof. intros Hm E. rewrite (Hm _ _ E). destruct r; reflexivity. Qed.

Lemma selected_sound order analysis_name m :
  NoDup order ->
  NoDup (selected order analysis_name m) /\
  forall n r, (n, r) ∈ selected order analysis_name m -> m !! n = Some r.
Proof.
  intros Hnd. unfold selected.
  destruct (if truthy analysis_name then m !! default "" analysis_name else None)
    as [data |] eqn:E.
  - split; [apply NoDup_singleton |]. intros n r H.
    apply list_elem_of_singleton in H. injection H as -> ->.
    destruct (truthy analysis_name); [exact E | discriminate].
  - split; [apply items_nodup, Hnd |]. intros n r H. apply items_elem in H. apply H.
Qed.

(** X13.  On results as the analyses store them, [export_to_csv] writes
    one file per stored table and nothing else: the paths it returns are
    pairwise different (so the number it prints is the number of files),
    each holds a table afterwards, and no other path of the folder is
    touched.  A name that is not a key (also no name, or the empty name)
    exports every entry; and the primary KPIs and the predictive metrics,
    which hold no table, are never exported: asked for by name they give
    no file at all. *)
Theorem csv_export_writes (timestamp : string) (order : list string)
    (analysis_name : option string) (a : MTNChurnAnalysis) (fs : gmap string file) :
  shaped (analysis_results a) -> key_order order (analysis_results a) ->
  let r := export_to_csv timestamp order analysis_name a fs in
  NoDup r.1.1 /\
  (forall p, p ∈ r.1.1 -> exists t, r.2 !! p = Some (CsvFile t)) /\
  (forall p, p ∉ r.1.1 -> r.2 !! p = fs !! p) /\
  (analysis_results a !! default "" analysis_name = None ->
   r = export_to_csv timestamp order None a fs) /\
  (forall entry, analysis_results a !! default "" analysis_name = Some entry ->
   dict_tables entry = Some [] -> r.1.1 = []) /\
  (analysis_results a !! default "" analysis_name = None ->
   forall name entry st, analysis_results a !! name = Some entry ->
     st ∈ export_stems name entry -> csv_path timestamp st.1 ∈ r.1.1).
Proof.
  intros Hm [Hnd Hkeys]. cbv zeta. unfold export_to_csv. cbn [fst snd].
  set (m := analysis_results a) in *.
  change (csv_exports timestamp order analysis_name m) with
    ((fun st : string * table => (csv_path timestamp st.1, CsvFile st.2))
       <$> (selected order analysis_name m ≫= (fun kv => export_stems kv.1 kv.2))).
  set (stems := selected order analysis_name m ≫= (fun kv => export_stems kv.1 kv.2)).
  destruct (selected_sound order analysis_name m Hnd) as [Hsel Hlook].
  assert (Hpaths : ((fun st : string * table => (csv_path timestamp st.1, CsvFile st.2))
                      <$> stems).*1 = csv_path timestamp <$> stems.*1).
  { rewrite <- !list_fmap_compose. reflexivity. }
  split; [| split; [| split; [| split; [| split]]]].
  - rewrite Hpaths. apply NoDup_fmap_2; [apply csv_path_inj |].
    apply (NoDup_fmap_1 sheet_name).
    apply (selected_stems_nodup m _ Hm Hsel Hlook).
  - intros p Hp. destruct (write_files_in _ fs p Hp) as (f & Hin & Hl).
    apply list_elem_of_fmap in Hin. destruct Hin as (st & [= -> ->] & _).
    eexists. exact Hl.
  - intros p Hp. apply write_files_notin, Hp.
  - intros Hnone. subst stems. unfold selected, csv_exports.
    assert (E : (if truthy analysis_name then m !! default "" analysis_name else None) = None)
      by (destruct (truthy analysis_name); [exact Hnone | reflexivity]).
    rewrite E. reflexivity.
  - intros entry He Hd. subst stems. unfold selected.
    assert (Ht : truthy analysis_name = true).
    { destruct analysis_name as [n |]; cbn [default] in He.
      - apply (shaped_name_truthy m n entry Hm He).
      - pose proof (Hm _ _ He) as Hn. destruct entry; discriminate. }
    rewrite Ht, He, bind_cons. cbn [fst snd]. unfold export_stems.
    rewrite Hd. reflexivity.
  - intros Hnone name entry st He Hst. rewrite Hpaths.
    apply list_elem_of_fmap_2, list_elem_of_fmap_2. subst stems. unfold selected.
    assert (E : (if truthy analysis_name then m !! default "" analysis_name else None) = None)
      by (destruct (truthy analysis_name); [exact Hnone | reflexivity]).
    rewrite E. apply list_elem_of_bind. exists (name, entry). split; [exact Hst |].
    apply items_elem. split; [| exact He].
    apply (elem_of_list_to_set (C := gset string)). rewrite <- Hkeys.
    apply elem_of_dom. eauto.
Qed.

Lemma sample_run_shaped : shaped (analysis_results sample_run).
Proof.
  unfold sample_run. rewrite (run_complete_results true sample_analyzer sample_table eq_refl).
  apply shaped_write_all; [apply stored_shaped |].
  intros k r H. cbn in H. rewrite lookup_empty in H. discriminate.
Qed.

Lemma sample_run_order : key_order sample_order (analysis_results sample_run).
Proof. split; decide_closed. Qed.

Lemma csv_export_writes_witness :
  NoDup (export_to_csv "20240101_120000" sample_order None sample_run ∅).1.1 /\
  (export_to_csv "20240101_120000" sample_order (Some "primary_kpis") sample_run ∅).1.1 = [].
Proof.
  assert (E : exists k, analysis_results sample_run !! "primary_kpis" = Some (PrimaryKpis k)).
  { eexists. vm_compute. reflexivity. }
  destruct E as [k E].
  pose proof (csv_export_writes "20240101_120000" sample_order None sample_run ∅
                sample_run_shaped sample_run_order) as H1.
  pose proof (csv_export_writes "20240101_120000" sample_order (Some "primary_kpis")
                sample_run ∅ sample_run_shaped sample_run_order) as H2.
  cbv zeta in H1, H2.
  destruct H1 as (H1 & _). destruct H2 as (_ & _ & _ & _ & H2 & _).
  split; [exact H1 | exact (H2 (PrimaryKpis k) E eq_refl)].
Defined.

Lemma write_sheets_prefix to_excel l :
  (write_sheets to_excel l).1 `prefix_of` l.
Proof.
  induction l as [| s l IH]; cbn [write_sheets]; [reflexivity |].
  destruct (to_excel s); cbn [fst].
  - apply prefix_cons, IH.
  - apply prefix_nil.
Qed.

Lemma write_sheets_all to_excel l :
  (exists u, (write_sheets to_excel l).2 = Ok u) <->
  Forall (fun s => exists u, to_excel s = Ok u) l.
Proof.
  induction l as [| s l IH]; cbn [write_sheets].
  - split; [constructor | eauto].
  - destruct (to_excel s) as [u |] eqn:E; cbn [snd].
    + rewrite IH. split.
      * intros H. constructor; [eauto | exact H].
      * intros H. inversion H; assumption.
    + split.
      * intros [u H]. discriminate.
      * intros H. inversion H as [| ? ? [u Hu] _]; subst. congruence.
Qed.

Lemma write_sheets_ok to_excel l u :
  (write_sheets to_excel l).2 = Ok u -> (write_sheets to_excel l).1 = l.
Proof.
  induction l as [| s l IH]; cbn [write_sheets]; [reflexivity |].
  destruct (to_excel s); cbn [fst snd]; [| discriminate].
  intros H. rewrite (IH H). reflexivity.
Qed.

(** X14.  On results as the analyses store them, the sheets
    [export_to_excel] writes have pairwise different names of at most 31
    characters, although five of the names are cut: no table lands on
    the sheet of another.  The KPIs, when stored, are the first sheet,
    and every table of every other entry has its sheet.  The method
    returns the path exactly when the writer could be opened, every
    sheet was written and closing the writer succeeded, and then the
    file holds all the sheets and no other file has changed; otherwise
    it returns nothing.  A failed export can still leave a file: when a
    sheet raises and the writer closes, the file holds the sheets
    written before the exception. *)
Theorem excel_sheets_distinct (timestamp : string) (order : list string)
    (open_writer : string -> res unit) (to_excel : string * table -> res unit)
    (close : string -> list (string * table) -> gmap string file
             -> res unit * gmap string file)
    (filename : option string) (a : MTNChurnAnalysis) (fs : gmap string file) :
  shaped (analysis_results a) -> key_order order (analysis_results a) ->
  saves close ->
  let sheets := excel_sheets order (analysis_results a) in
  let r := export_to_excel timestamp order open_writer to_excel close filename a fs in
  let path := if truthy filename then default "" filename
              else export_folder +:+ "/MTN_Churn_Analysis_" +:+ timestamp +:+ ".xlsx" in
  let written := (write_sheets to_excel sheets).1 in
  NoDup sheets.*1 /\
  Forall (fun s => String.length s <= 31) sheets.*1 /\
  (forall entry, analysis_results a !! "primary_kpis" = Some entry ->
     sheets !! 0 = Some ("Primary_KPIs", OneRow entry)) /\
  (forall name entry st, name <> "primary_kpis" ->
     analysis_results a !! name = Some entry ->
     st ∈ export_stems name entry -> (sheet_name st.1, st.2) ∈ sheets) /\
  (r.1.1 = Some path \/ r.1.1 = None) /\
  (r.1.1 = Some path <->
     (exists u, open_writer path = Ok u) /\
     Forall (fun s => exists u, to_excel s = Ok u) sheets /\
     exists u, (close path sheets fs).1 = Ok u) /\
  (r.1.1 = Some path ->
     r.2 !! path = Some (Workbook sheets) /\ forall p, p <> path -> r.2 !! p = fs !! p) /\
  (forall u u', open_writer path = Ok u -> (close path written fs).1 = Ok u' ->
     written `prefix_of` sheets /\ r.2 !! path = Some (Workbook written)).
Proof.
  intros Hm [Hnd Hkeys] Hsaves. cbv zeta. set (m := analysis_results a) in *.
  set (path := if truthy filename then default "" filename
               else export_folder +:+ "/MTN_Churn_Analysis_" +:+ timestamp +:+ ".xlsx").
  assert (Hnames : NoDup (excel_sheets order m).*1 /\
                   Forall (fun s => String.length s <= 31) (excel_sheets order m).*1 /\
                   (forall entry, m !! "primary_kpis" = Some entry ->
                      excel_sheets order m !! 0 = Some ("Primary_KPIs", OneRow entry)) /\
                   (forall name entry st, name <> "primary_kpis" ->
                      m !! name = Some entry ->
                      st ∈ export_stems name entry ->
                      (sheet_name st.1, st.2) ∈ excel_sheets order m)).
  { unfold excel_sheets.
    set (sel := filter (fun kv : string * result => kv.1 <> "primary_kpis") (items order m)).
    set (stems := sel ≫= (fun kv => export_stems kv.1 kv.2)).
    assert (Hsel : forall n r, (n, r) ∈ sel -> m !! n = Some r).
    { intros n r H. apply list_elem_of_filter in H. destruct H as [_ H].
      apply items_elem in H. apply H. }
    assert (Hrest : NoDup (sheet_name <$> stems.*1)).
    { apply (selected_stems_nodup m sel Hm); [| exact Hsel].
      apply NoDup_filter, items_nodup, Hnd. }
    assert (Hn : ((fun st : string * table => (sheet_name st.1, st.2)) <$> stems).*1 =
                 sheet_name <$> stems.*1).
    { rewrite <- !list_fmap_compose. reflexivity. }
    assert (Hnot : "Primary_KPIs" ∉ sheet_name <$> stems.*1).
    { intros H. apply list_elem_of_fmap in H. destruct H as (stem & Hs & Hin).
      apply list_elem_of_fmap in Hin. destruct Hin as (st & -> & Hin).
      apply list_elem_of_bind in Hin. destruct Hin as ([n r] & Hst & Hnr).
      cbn [fst snd] in Hst.
      destruct (shaped_stems m n r Hm (Hsel _ _ Hnr)) as [_ Hall].
      rewrite Forall_forall in Hall.
      destruct (Hall st.1) as (_ & _ & Hne); [apply list_elem_of_fmap_2, Hst |].
      congruence. }
    split; [| split; [| split]].
    - rewrite fmap_app, Hn. apply NoDup_app. split; [| split; [| exact Hrest]].
      + destruct (m !! "primary_kpis"); [apply NoDup_singleton | constructor].
      + intros s Hs Hs'. destruct (m !! "primary_kpis"); [| inversion Hs].
        apply list_elem_of_singleton in Hs. subst s. exact (Hnot Hs').
    - rewrite fmap_app, Hn. apply Forall_app. split.
      + destruct (m !! "primary_kpis"); [| constructor].
        apply Forall_singleton. cbn. lia.
      + apply Forall_fmap, Forall_forall. intros s _. apply length_sheet_name.
    - intros entry He. rewrite He. reflexivity.
    - intros name entry st Hne He Hst. apply elem_of_app. right.
      apply (list_elem_of_fmap_2 (fun st : string * table => (sheet_name st.1, st.2))).
      apply list_elem_of_bind. exists (name, entry). split; [exact Hst |].
      apply list_elem_of_filter. split; [exact Hne |].
      apply items_elem. split; [| exact He].
      apply (elem_of_list_to_set (C := gset string)). rewrite <- Hkeys.
      apply elem_of_dom. eauto. }
  destruct Hnames as (H1 & H2 & H3 & H4).
  split; [exact H1 |]. split; [exact H2 |]. split; [exact H3 |]. split; [exact H4 |].
  set (sheets := excel_sheets order m) in *.
  unfold export_to_excel. cbv zeta. fold m. fold sheets. fold path.
  pose proof (write_sheets_all to_excel sheets) as Hall.
  pose proof (write_sheets_ok to_excel sheets) as Hok.
  pose proof (write_sheets_prefix to_excel sheets) as Hpre.
  destruct (open_writer path) as [u0 |] eqn:Eo.
  - destruct (write_sheets to_excel sheets) as [written [u1 | e1]] eqn:Ew; cbn [fst snd] in *.
    + specialize (Hok u1 eq_refl). subst written.
      destruct (close path sheets fs) as [[u2 | e2] fs'] eqn:Ec; cbn [fst snd].
      * pose proof (Hsaves path sheets fs u2) as Hs. rewrite Ec in Hs.
        specialize (Hs eq_refl). cbn [snd] in Hs. subst fs'.
        split; [left; reflexivity |]. split; [| split].
        -- split; [| reflexivity]. intros _. split; [eauto |].
           split; [apply Hall; eauto | eauto].
        -- intros _. split; [apply lookup_insert_eq |].
           intros p Hp. apply lookup_insert_ne. congruence.
        -- intros ? ? _ _. split; [reflexivity | apply lookup_insert_eq].
      * split; [right; reflexivity |]. split; [| split].
        -- split; [discriminate |]. intros (_ & _ & u & Hu). discriminate.
        -- discriminate.
        -- intros ? ? _ Hu. discriminate.
    + destruct (close path written fs) as [[u2 | e2] fs'] eqn:Ec; cbn [fst snd].
      * pose proof (Hsaves path written fs u2) as Hs. rewrite Ec in Hs.
        specialize (Hs eq_refl). cbn [snd] in Hs. subst fs'.
        split; [right; reflexivity |]. split; [| split].
        -- split; [discriminate |]. intros (_ & Hf & _).
           apply Hall in Hf. destruct Hf as [u Hu]. discriminate.
        -- discriminate.
        -- intros ? ? _ _. split; [exact Hpre | apply lookup_insert_eq].
      * split; [right; reflexivity |]. split; [| split].
        -- split; [discriminate |]. intros (_ & Hf & _).
           apply Hall in Hf. destruct Hf as [u Hu]. discriminate.
        -- discriminate.
        -- intros ? ? _ Hu. discriminate.
  - cbn [fst snd]. split; [right; reflexivity |]. split; [| split].
    + split; [discriminate |]. intros ([u Hu] & _). discriminate.
    + discriminate.
    + intros ? ? Hu _. discriminate.
Qed.

Lemma excel_sheets_distinct_witness :
  NoDup (excel_sheets sample_order (analysis_results sample_run)).*1 /\
  Forall (fun s => String.length s <= 31)
    (excel_sheets sample_order (analysis_results sample_run)).*1.
Proof.
  pose proof (excel_sheets_distinct "20240101_120000" sample_order
                (fun _ => Ok tt) (fun _ => Ok tt)
                (fun name written fs => (Ok tt, <[name := Workbook written]> fs)) None
                sample_run ∅ sample_run_shaped sample_run_order
                (fun _ _ _ _ _ => eq_refl)) as H.
  cbv zeta in H. destruct H as (H1 & H2 & _).
  split; [exact H1 | exact H2].
Defined.

(** ** The age and tenure groups *)

Lemma cut_value_interval bins labels a l :
  StronglySorted Qle bins ->
  cut_value bins labels a = Some l <->
  exists i lo hi, bins !! i = Some lo /\ bins !! S i = Some hi /\
                  labels !! i = Some l /\ (lo < a)%Q /\ (a <= hi)%Q.
Proof.
  revert labels. induction bins as [| lo bins IH]; intros labels Hs.
  { split; [discriminate | intros (i & ? & ? & H & _); destruct i; discriminate]. }
  destruct bins as [| hi bins].
  { split; [discriminate | intros (i & ? & ? & _ & H & _); destruct i; discriminate]. }
  destruct labels as [| lab labs].
  { split; [discriminate | intros (i & ? & ? & _ & _ & H & _); destruct i; discriminate]. }
  inversion Hs as [| ? ? Hs' Hall]; subst.
  cbn [cut_value].
  destruct (Qlt_bool lo a && Qle_bool a hi) eqn:E.
  - apply andb_true_iff in E. destruct E as [E1 E2].
    apply Qlt_bool_iff in E1. apply Qle_bool_iff in E2. split.
    + intros [= <-]. exists 0, lo, hi. repeat split; assumption.
    + intros (i & lo' & hi' & Hlo & Hhi & Hl & H1 & H2). destruct i as [| j].
      * cbn in Hl. congruence.
      * exfalso. cbn in Hlo.
        inversion Hs' as [| ? ? _ Hall']; subst.
        assert (Hle : (hi <= lo')%Q).
        { destruct j as [| j]; cbn in Hlo.
          - injection Hlo as <-. apply Qle_refl.
          - rewrite Forall_forall in Hall'. apply Hall'.
            apply list_elem_of_lookup. eauto. }
        lra.
  - rewrite (IH labs Hs'). split.
    + intros (i & lo' & hi' & Hlo & Hhi & Hl & H1 & H2).
      exists (S i), lo', hi'. repeat split; assumption.
    + intros (i & lo' & hi' & Hlo & Hhi & Hl & H1 & H2). destruct i as [| j].
      * exfalso. cbn in Hlo, Hhi. injection Hlo as <-. injection Hhi as <-.
        apply andb_false_iff in E. destruct E as [E | E].
        -- apply Qlt_bool_iff in H1. congruence.
        -- apply Qle_bool_iff in H2. congruence.
      * exists j, lo', hi'. repeat split; assumption.
Qed.

Lemma cut_value_outside bins labels a lo hi :
  StronglySorted Qle bins -> length bins = S (length labels) ->
  head bins = Some lo -> last bins = Some hi ->
  cut_value bins labels a = None <-> (a <= lo)%Q \/ (hi < a)%Q.
Proof.
  revert labels lo. induction bins as [| b0 bins IH]; intros labels lo Hs Hlen Hh Hl;
    [discriminate |].
  cbn in Hh. injection Hh as Hh. subst b0.
  destruct bins as [| b1 bins].
  { cbn in Hl. injection Hl as Hl. subst hi. cbn. split; [intros _ | reflexivity].
    destruct (Qlt_le_dec lo a); [right | left]; assumption. }
  destruct labels as [| lab labs]; [cbn in Hlen; lia |].
  inversion Hs as [| ? ? Hs' Hall]; subst.
  assert (H01 : (lo <= b1)%Q) by (rewrite Forall_forall in Hall; apply Hall; left).
  assert (Hhi : (b1 <= hi)%Q).
  { destruct bins as [| b2 bins]; [cbn in Hl; injection Hl as Hl; subst hi; apply Qle_refl |].
    inversion Hs' as [| ? ? _ Hall']; subst. rewrite Forall_forall in Hall'.
    apply Hall'. apply list_elem_of_lookup. rewrite last_lookup in Hl.
    cbn [length pred lookup list_lookup] in Hl. exists (length bins). exact Hl. }
  cbn [cut_value].
  destruct (Qlt_bool lo a && Qle_bool a b1) eqn:E.
  - apply andb_true_iff in E. destruct E as [E1 E2].
    apply Qlt_bool_iff in E1. apply Qle_bool_iff in E2.
    split; [discriminate |]. intros [H | H]; lra.
  - rewrite (IH labs b1 Hs'); [| cbn in Hlen |- *; lia | reflexivity | exact Hl].
    apply andb_false_iff in E. split.
    + intros [H | H]; [| right; exact H].
      destruct E as [E | E].
      * left. destruct (Qlt_le_dec lo a) as [Hlt | Hle]; [| exact Hle].
        apply Qlt_bool_iff in Hlt. congruence.
      * exfalso. apply Qle_bool_iff in H. congruence.
    + intros [H | H]; [left; lra | right; exact H].
Qed.

Lemma age_bins_sorted : StronglySorted Qle age_bins.
Proof. unfold age_bins. repeat constructor; discriminate. Qed.

Lemma tenure_bins_sorted : StronglySorted Qle tenure_bins.
Proof. unfold tenure_bins. repeat constructor; discriminate. Qed.

Lemma cut_binned bins labels v :
  StronglySorted Qle bins ->
  Forall2 (binned bins labels) v (map (fun x => x ≫= cut_value bins labels) v).
Proof.
  intros Hs. induction v as [| x v IH]; [constructor |].
  cbn [map]. constructor; [| exact IH].
  destruct x as [a |]; cbn; [| reflexivity].
  intros l. apply cut_value_interval, Hs.
Qed.

Lemma cut_outside bins labels lo hi v :
  StronglySorted Qle bins -> length bins = S (length labels) ->
  head bins = Some lo -> last bins = Some hi ->
  Forall2 (fun x g => g = None <-> outside lo hi x)
    v (map (fun x => x ≫= cut_value bins labels) v).
Proof.
  intros Hs Hlen Hh Hl. induction v as [| x v IH]; [constructor |].
  cbn [map]. constructor; [| exact IH].
  destruct x as [a |]; cbn; [| split; trivial].
  apply (cut_value_outside _ _ _ _ _ Hs Hlen Hh Hl).
Qed.

(** X15.  When the segmentation succeeds, each customer's age group is
    the label of the one interval (0, 25], (25, 35], (35, 45], (45, 55],
    (55, 100] that holds the age, and the tenure group likewise for the
    edges 0, 6, 12, 24, 36, 100: the lower edge is excluded and the upper
    one included.  A customer has no group exactly when the value is
    missing, at most 0 or above 100, so an age of 17 is labelled "18-25"
    and a tenure of 120 months falls out of the tenure analysis. *)
Theorem groups_are_intervals (observed : bool) (d d' : DataFrame)
    (r : list summary_row * list summary_row * list summary_row) :
  segmentation_body observed d = (d', Ok r) ->
  exists ages tenures age_groups tenure_groups,
    getnum d "Age" = Ok ages /\
    getnum d "Customer_Tenure_in_months" = Ok tenures /\
    columns d' !! "Age_Group" = Some (CatCol age_labels age_groups) /\
    columns d' !! "Tenure_Group" = Some (CatCol tenure_labels tenure_groups) /\
    Forall2 (binned age_bins age_labels) ages age_groups /\
    Forall2 (binned tenure_bins tenure_labels) tenures tenure_groups /\
    Forall2 (fun x g => g = None <-> outside 0 100 x) ages age_groups /\
    Forall2 (fun x g => g = None <-> outside 0 100 x) tenures tenure_groups.
Proof.
  destruct r as [[age tenure] plan]. intros H.
  apply segmentation_body_inv in H.
  destruct H as (ages & tens & Ha & Ht & -> & _).
  exists ages, tens. eexists. eexists.
  split; [exact Ha |]. split; [exact Ht |].
  split.
  { unfold setitem. cbn [columns]. rewrite lookup_insert_ne by discriminate.
    rewrite lookup_insert_eq. reflexivity. }
  split.
  { unfold setitem. cbn [columns]. rewrite lookup_insert_eq. reflexivity. }
  split; [apply cut_binned, age_bins_sorted |].
  split; [apply cut_binned, tenure_bins_sorted |].
  split.
  - apply cut_outside; [apply age_bins_sorted | reflexivity ..].
  - apply cut_outside; [apply tenure_bins_sorted | reflexivity ..].
Qed.

Lemma groups_are_intervals_witness :
  exists d' r age_groups,
    segmentation_body true sample_table = (d', Ok r) /\
    columns d' !! "Age_Group" = Some (CatCol age_labels age_groups) /\
    Forall2 (fun x g => g = None <-> outside 0 100 x)
      [Some 20; Some 30; Some 60]%Q age_groups.
Proof.
  destruct (segmentation_body true sample_table) as [d' [r | e]] eqn:E;
    [| vm_compute in E; discriminate].
  destruct (groups_are_intervals true sample_table d' r E)
    as (ages & tens & ag & tg & Ha & _ & Hag & _ & _ & _ & Hout & _).
  vm_compute in Ha. injection Ha as <-.
  exists d', r, ag. split; [reflexivity |]. split; [exact Hag | exact Hout].
Defined.
